(** * Deep Belief Network notebook (Autoencoders/DBN-Review.ipynb)

    A shallow embedding of the two classes of the notebook, [RBM] and [NN],
    and of the tensor operations they call.

    Numbers.  The notebook computes in float32.  Every definition below is
    written over an abstract numeric backend ([Numeric]), so that the
    structural theorems hold for any arithmetic, rounded or exact.  Where a
    statement needs the order or concrete values ([sigmoid 0 = 1/2], square
    roots), the backend is instantiated with the real numbers, which
    idealises float32 as exact arithmetic.  The dtype itself is modelled in
    the two places where the code depends on it: the cast
    [.astype(np.float32)] of the classifier's initial weights is a rounding
    function handed to the model ([Float32]), and an array carries whether
    its dtype is float32 where [rbm_output] builds a constant from it
    ([Dtype]).

    Randomness.  [tf.random_uniform] and [np.random.uniform] are modelled by
    oracles handed to the code: the value drawn for the entry at row [i] and
    column [j] is [u i j].  A TensorFlow session evaluates the requested node
    afresh at every [sess.run], and a random op yields new values at each
    evaluation, so each [sess.run] receives its own pair of oracles
    ([RBM.RunDraws]); inside one run a node is evaluated once and shared.

    Aliasing.  [load_from_rbms] stores references to the RBMs' arrays, but no
    method ever updates an array in place (attributes and list slots are
    rebound to new arrays), so arrays are modelled as values. *)

From Stdlib Require Import List Arith ZArith Lia Bool QArith Reals Lra.
Import ListNotations.

Close Scope Q_scope.
Open Scope nat_scope.

(** ** The numeric backend *)

Class Numeric (T : Type) : Type := {
  zero : T;
  one : T;
  add : T -> T -> T;
  sub : T -> T -> T;
  mul : T -> T -> T;
  div : T -> T -> T;
  neg : T -> T;
  of_nat : nat -> T;          (* int -> float conversion, [tf.to_float] *)
  ltb : T -> T -> bool;       (* strict comparison *)
  sigmoid : T -> T;           (* [tf.nn.sigmoid] *)
  sqrt : T -> T               (* [math.sqrt] *)
}.

(** [x.astype(np.float32)], entry by entry: the rounding of a number to
    float32.  It need not be the identity, and the float32 next to a number
    may lie above it. *)
Class Float32 (T : Type) : Type := {
  astype_float32 : T -> T
}.

(** ** Arrays and the tensor operations used by the notebook *)

Section Tensor.
Context {T : Type} {num : Numeric T}.

Definition Vector := list T.
Definition Matrix := list (list T).

(** A two-dimensional array as numpy holds it: the rows, and the second
    dimension, which survives when there are no rows.  [len(X)] is the number
    of rows. *)
Record ndarray : Type := mk_ndarray {
  shape1 : nat;
  rows : Matrix
}.

Definition len (X : ndarray) : nat := length (rows X).

(** [X[start:end]] for [0 <= start], [0 <= end]; Python clamps both bounds. *)
Definition slice (X : ndarray) (start stop : nat) : ndarray :=
  {| shape1 := shape1 X; rows := firstn (stop - start) (skipn start (rows X)) |}.

(** Declared shapes of fed values. *)
Definition is_vector (n : nat) (v : Vector) : bool := length v =? n.

Definition is_matrix (m n : nat) (M : Matrix) : bool :=
  (length M =? m) && forallb (is_vector n) M.

(** [np.zeros] *)
Definition zeros1 (n : nat) : Vector := repeat zero n.
Definition zeros2 (m n : nat) : Matrix := repeat (zeros1 n) m.

Fixpoint zip_with {A B C : Type} (f : A -> B -> C) (xs : list A) (ys : list B) : list C :=
  match xs, ys with
  | x :: xs', y :: ys' => f x y :: zip_with f xs' ys'
  | _, _ => []
  end.

Fixpoint mapi_from {A B : Type} (f : nat -> A -> B) (i : nat) (l : list A) : list B :=
  match l with
  | [] => []
  | x :: l' => f i x :: mapi_from f (S i) l'
  end.

Definition mapi {A B : Type} (f : nat -> A -> B) (l : list A) : list B :=
  mapi_from f 0 l.

(** Sums are accumulated from the left, starting at zero. *)
Definition reduce_sum (l : list T) : T := fold_left add l zero.

Definition dot (x y : Vector) : T := reduce_sum (zip_with mul x y).

Definition column (j : nat) (M : Matrix) : Vector :=
  map (fun r => nth j r zero) M.

(** [tf.transpose a], for [a] with [n] columns. *)
Definition transpose (n : nat) (a : Matrix) : Matrix :=
  map (fun j => column j a) (seq 0 n).

(** [tf.matmul a b], for [b] with [n] columns. *)
Definition matmul (n : nat) (a b : Matrix) : Matrix :=
  map (fun r => map (fun j => dot r (column j b)) (seq 0 n)) a.

(** Element-wise operations, a vector broadcast against the rows of a
    matrix, a scalar broadcast against every entry. *)
Definition vec_add (x y : Vector) : Vector := zip_with add x y.
Definition mat_add (a b : Matrix) : Matrix := zip_with vec_add a b.
Definition mat_sub (a b : Matrix) : Matrix := zip_with (zip_with sub) a b.
Definition add_bias (a : Matrix) (b : Vector) : Matrix := map (fun r => vec_add r b) a.
Definition vec_scale (c : T) (x : Vector) : Vector := map (mul c) x.
Definition mat_scale (c : T) (a : Matrix) : Matrix := map (vec_scale c) a.
Definition mat_div (a : Matrix) (c : T) : Matrix := map (map (fun x => div x c)) a.
Definition mat_sigmoid (a : Matrix) : Matrix := map (map sigmoid) a.

(** [tf.square], [tf.sign], [tf.nn.relu] *)
Definition square (x : T) : T := mul x x.
Definition sign (x : T) : T :=
  if ltb zero x then one else if ltb x zero then neg one else zero.
Definition relu (x : T) : T := if ltb zero x then x else zero.

(** [tf.reduce_mean a] over every entry, and [tf.reduce_mean a 0] down the
    columns of a matrix with [n] columns. *)
Definition reduce_mean (a : Matrix) : T :=
  div (reduce_sum (concat a)) (of_nat (length (concat a))).

Definition reduce_mean0 (n : nat) (a : Matrix) : Vector :=
  map (fun j => div (reduce_sum (column j a)) (of_nat (length a))) (seq 0 n).

(** One uniform draw per entry of an array. *)
Definition Draws := nat -> nat -> T.

(** [np.random.uniform low high [m, n]] *)
Definition uniform_value (low high u : T) : T := add low (mul (sub high low) u).

Definition uniform (low high : T) (m n : nat) (u : Draws) : Matrix :=
  map (fun i => map (fun j => uniform_value low high (u i j)) (seq 0 n)) (seq 0 m).

(** Index of the first largest entry ([np.argmax], [tf.argmax]); the entry
    list is not empty where the notebook calls it. *)
Fixpoint argmax_from (best : nat) (bv : T) (i : nat) (l : list T) : nat :=
  match l with
  | [] => best
  | x :: l' => if ltb bv x then argmax_from i x (S i) l' else argmax_from best bv (S i) l'
  end.

Definition argmax (l : list T) : nat :=
  match l with
  | [] => 0
  | x :: l' => argmax_from 0 x 1 l'
  end.

End Tensor.

Arguments ndarray T : clear implicits.
Arguments Vector T : clear implicits.
Arguments Matrix T : clear implicits.
Arguments Draws T : clear implicits.

(** ** Python's [range] and the mini-batch index pairs *)

Fixpoint range_from (fuel start stop step : nat) : list nat :=
  match fuel with
  | 0 => []
  | S fuel' =>
      if start <? stop then start :: range_from fuel' (start + step) stop step else []
  end.

(** [range(start, stop, step)] for a positive step; [stop] iterations are
    enough since every iteration advances by at least one. *)
Definition py_range (start stop step : nat) : list nat :=
  range_from stop start stop step.

(** ** Exceptions

    A method either returns or raises; [Raise] carries the Python exception
    class.  TensorFlow reports a fed value of the wrong shape, and an
    ill-shaped graph, as [ValueError]; an op whose operands differ in dtype
    is refused with [TypeError]. *)

Inductive exn : Type :=
| AssertionError
| IndexError
| TypeError
| ValueError
| ZeroDivisionError.

Inductive result (A : Type) : Type :=
| Ok (a : A)
| Raise (e : exn).

Arguments Ok {A} a.
Arguments Raise {A} e.

Definition bind {A B : Type} (o : result A) (k : A -> result B) : result B :=
  match o with
  | Ok a => k a
  | Raise e => Raise e
  end.

Notation "x <- o ;; k" := (bind o (fun x => k))
  (at level 61, o at next level, right associativity).

(** [zip(range(0, n, batchsize), range(batchsize, n, batchsize))]; [range]
    raises [ValueError] on a zero step. *)
Definition batches (n batchsize : nat) : result (list (nat * nat)) :=
  if batchsize =? 0 then Raise ValueError
  else Ok (combine (py_range 0 n batchsize) (py_range batchsize n batchsize)).

(** [l[i] = v]; [None] stands for the [IndexError] of an index out of range. *)
Fixpoint list_set {A : Type} (l : list A) (i : nat) (v : A) : option (list A) :=
  match l, i with
  | [], _ => None
  | _ :: l', 0 => Some (v :: l')
  | x :: l', S i' =>
      match list_set l' i' v with
      | Some l'' => Some (x :: l'')
      | None => None
      end
  end.

(** ** class RBM *)

Module RBM.
Section Defs.
Context {T : Type} {num : Numeric T}.

Record t : Type := mk {
  _input_size : nat;
  _output_size : nat;
  epochs : nat;
  learning_rate : T;
  batchsize : nat;
  w : Matrix T;
  hb : Vector T;
  vb : Vector T
}.

Definition __init__ (input_size output_size : nat) : t :=
  {| _input_size := input_size;
     _output_size := output_size;
     epochs := 5;
     learning_rate := one;
     batchsize := 100;
     w := zeros2 input_size output_size;
     hb := zeros1 output_size;
     vb := zeros1 input_size |}.

Definition prob_h_given_v (self : t) (visible : Matrix T) (w : Matrix T) (hb : Vector T)
  : Matrix T :=
  mat_sigmoid (add_bias (matmul (_output_size self) visible w) hb).

Definition prob_v_given_h (self : t) (hidden : Matrix T) (w : Matrix T) (vb : Vector T)
  : Matrix T :=
  mat_sigmoid
    (add_bias (matmul (_input_size self) hidden (transpose (_output_size self) w)) vb).

(** [tf.nn.relu(tf.sign(probs - tf.random_uniform(tf.shape(probs))))] *)
Definition sample_prob (self : t) (probs : Matrix T) (u : Draws T) : Matrix T :=
  mapi (fun i r => mapi (fun j p => relu (sign (sub p (u i j)))) r) probs.

(** *** The graph built by [train]

    The placeholders are the fields of [feed_dict]; the two random ops of the
    graph read the oracles of the run. *)

Record feed_dict : Type := mk_feed {
  v0 : ndarray T;
  _w : Matrix T;
  _hb : Vector T;
  _vb : Vector T
}.

Record RunDraws : Type := mk_draws {
  u_h : Draws T;   (* [random_uniform] inside [h0] *)
  u_v : Draws T    (* [random_uniform] inside [v1] *)
}.

Definition h0 (self : t) (f : feed_dict) (d : RunDraws) : Matrix T :=
  sample_prob self (prob_h_given_v self (rows (v0 f)) (_w f) (_hb f)) (u_h d).

Definition v1 (self : t) (f : feed_dict) (d : RunDraws) : Matrix T :=
  sample_prob self (prob_v_given_h self (h0 self f d) (_w f) (_vb f)) (u_v d).

Definition h1 (self : t) (f : feed_dict) (d : RunDraws) : Matrix T :=
  prob_h_given_v self (v1 self f d) (_w f) (_hb f).

Definition positive_grad (self : t) (f : feed_dict) (d : RunDraws) : Matrix T :=
  matmul (_output_size self) (transpose (_input_size self) (rows (v0 f))) (h0 self f d).

Definition negative_grad (self : t) (f : feed_dict) (d : RunDraws) : Matrix T :=
  matmul (_output_size self) (transpose (_input_size self) (v1 self f d)) (h1 self f d).

Definition update_w (self : t) (f : feed_dict) (d : RunDraws) : Matrix T :=
  mat_add (_w f)
    (mat_div
       (mat_scale (learning_rate self)
          (mat_sub (positive_grad self f d) (negative_grad self f d)))
       (of_nat (len (v0 f)))).

Definition update_vb (self : t) (f : feed_dict) (d : RunDraws) : Vector T :=
  vec_add (_vb f)
    (vec_scale (learning_rate self)
       (reduce_mean0 (_input_size self) (mat_sub (rows (v0 f)) (v1 self f d)))).

Definition update_hb (self : t) (f : feed_dict) (d : RunDraws) : Vector T :=
  vec_add (_hb f)
    (vec_scale (learning_rate self)
       (reduce_mean0 (_output_size self) (mat_sub (h0 self f d) (h1 self f d)))).

Definition err (self : t) (f : feed_dict) (d : RunDraws) : T :=
  reduce_mean (map (map square) (mat_sub (rows (v0 f)) (v1 self f d))).

(** The shapes declared by the four placeholders. *)
Definition feed_ok (self : t) (f : feed_dict) : bool :=
  (shape1 (v0 f) =? _input_size self)
  && is_matrix (_input_size self) (_output_size self) (_w f)
  && is_vector (_output_size self) (_hb f)
  && is_vector (_input_size self) (_vb f).

(** [sess.run(node, feed_dict=f)]: the feeds are checked against the
    placeholders, then the node is evaluated with the draws of this run. *)
Definition sess_run {A : Type} (self : t) (node : t -> feed_dict -> RunDraws -> A)
  (f : feed_dict) (d : RunDraws) : result A :=
  if feed_ok self f then Ok (node self f d) else Raise ValueError.

(** *** The training loop

    The local variables of [train], and the number of session runs made so
    far, which selects the draws of the next run. *)

Record locals : Type := mk_locals {
  prv_w : Matrix T;
  prv_hb : Vector T;
  prv_vb : Vector T;
  cur_w : Matrix T;
  cur_hb : Vector T;
  cur_vb : Vector T;
  runs : nat
}.

Definition init_locals (self : t) : locals :=
  {| prv_w := zeros2 (_input_size self) (_output_size self);
     prv_hb := zeros1 (_output_size self);
     prv_vb := zeros1 (_input_size self);
     cur_w := zeros2 (_input_size self) (_output_size self);
     cur_hb := zeros1 (_output_size self);
     cur_vb := zeros1 (_input_size self);
     runs := 0 |}.

(** The body of the inner loop, for the batch [X[start:stop]]. *)
Definition batch_step (self : t) (X : ndarray T) (rng : nat -> RunDraws)
  (l : locals) (se : nat * nat) : result locals :=
  let batch := slice X (fst se) (snd se) in
  let f := {| v0 := batch; _w := prv_w l; _hb := prv_hb l; _vb := prv_vb l |} in
  cw <- sess_run self update_w f (rng (runs l)) ;;
  chb <- sess_run self update_hb f (rng (1 + runs l)) ;;
  cvb <- sess_run self update_vb f (rng (2 + runs l)) ;;
  Ok {| prv_w := cw; prv_hb := chb; prv_vb := cvb;
        cur_w := cw; cur_hb := chb; cur_vb := cvb;
        runs := 3 + runs l |}.

Fixpoint batch_loop (self : t) (X : ndarray T) (rng : nat -> RunDraws)
  (bs : list (nat * nat)) (l : locals) : result locals :=
  match bs with
  | [] => Ok l
  | se :: bs' =>
      l' <- batch_step self X rng l se ;;
      batch_loop self X rng bs' l'
  end.

(** The error run that ends an epoch, fed with the [cur_] variables. *)
Definition epoch_error (self : t) (X : ndarray T) (rng : nat -> RunDraws)
  (l : locals) : result T :=
  sess_run self err
    {| v0 := X; _w := cur_w l; _hb := cur_hb l; _vb := cur_vb l |} (rng (runs l)).

Definition tick (l : locals) : locals :=
  {| prv_w := prv_w l; prv_hb := prv_hb l; prv_vb := prv_vb l;
     cur_w := cur_w l; cur_hb := cur_hb l; cur_vb := cur_vb l;
     runs := 1 + runs l |}.

(** [for epoch in range(self.epochs)], from epoch number [epoch], with
    [todo] epochs left; [printed] collects the pairs (epoch, error) of the
    lines printed so far. *)
Fixpoint epoch_loop (self : t) (X : ndarray T) (rng : nat -> RunDraws)
  (todo epoch : nat) (l : locals) (printed : list (nat * T))
  : result (locals * list (nat * T)) :=
  match todo with
  | 0 => Ok (l, printed)
  | S todo' =>
      bs <- batches (len X) (batchsize self) ;;
      l' <- batch_loop self X rng bs l ;;
      error <- epoch_error self X rng l' ;;
      epoch_loop self X rng todo' (S epoch) (tick l') (printed ++ [(epoch, error)])
  end.

(** [train] returns what it printed, or the exception it raised, together
    with the object as the call leaves it: the parameters are assigned after
    the last epoch only. *)
Definition train (self : t) (X : ndarray T) (rng : nat -> RunDraws)
  : result (list (nat * T)) * t :=
  match epoch_loop self X rng (epochs self) 0 (init_locals self) [] with
  | Ok (l, printed) =>
      (Ok printed,
       {| _input_size := _input_size self;
          _output_size := _output_size self;
          epochs := epochs self;
          learning_rate := learning_rate self;
          batchsize := batchsize self;
          w := prv_w l;
          hb := prv_hb l;
          vb := prv_vb l |})
  | Raise e => (Raise e, self)
  end.

(** [rbm_output]: the graph has constants only, so the shapes are checked
    when [matmul] and the addition are built. *)
Definition rbm_output (self : t) (X : ndarray T) : result (ndarray T) * t :=
  if (shape1 X =? _input_size self)
     && is_matrix (_input_size self) (_output_size self) (w self)
     && is_vector (_output_size self) (hb self)
  then
    (Ok {| shape1 := _output_size self;
           rows := mat_sigmoid
                     (add_bias (matmul (_output_size self) (rows X) (w self)) (hb self)) |},
     self)
  else (Raise ValueError, self).

End Defs.

Arguments t T : clear implicits.
Arguments RunDraws T : clear implicits.
Arguments feed_dict T : clear implicits.
Arguments locals T : clear implicits.

End RBM.

(** ** Arrays of any dtype

    The methods above take an array of the dtype of the parameters,
    float32.  A NumPy array handed to them may have another dtype, and the
    two methods read it differently:
    - [train] feeds its batches to [tf.placeholder("float", ...)], and a
      placeholder casts what it is fed to float32;
    - [rbm_output] builds [tf.constant(X)], which keeps the dtype of [X];
      [tf.matmul(input_X, _w)] then refuses operands of two dtypes with
      [TypeError] when the op is built, before any shape is looked at.
      [sess.run(out)] returns a float32 array. *)

Module Dtype.
Section Defs.
Context {T : Type} {num : Numeric T} {f32 : Float32 T}.

Record array : Type := mk {
  is_float32 : bool;
  values : ndarray T
}.

(** What a placeholder of dtype float makes of a fed array. *)
Definition fed (X : array) : ndarray T :=
  if is_float32 X then values X
  else {| shape1 := shape1 (values X);
          rows := map (map astype_float32) (rows (values X)) |}.

Definition train (self : RBM.t T) (X : array) (rng : nat -> RBM.RunDraws T)
  : result (list (nat * T)) * RBM.t T :=
  RBM.train self (fed X) rng.

Definition rbm_output (self : RBM.t T) (X : array) : result array * RBM.t T :=
  if is_float32 X then
    match RBM.rbm_output self (values X) with
    | (Ok out, self') => (Ok {| is_float32 := true; values := out |}, self')
    | (Raise e, self') => (Raise e, self')
    end
  else (Raise TypeError, self).

End Defs.

Arguments array T : clear implicits.

End Dtype.

(** ** The optimizer

    [tf.train.MomentumOptimizer(learning_rate, momentum).minimize(cost)] is
    TensorFlow's: one run of the training op maps the variables and the
    optimizer's accumulators to their next values, given the fed batch.  It
    is a parameter of the model. *)

Class MomentumOptimizer (T : Type) : Type := {
  slots : Type;
  init_slots : list (Matrix T) -> list (Vector T) -> slots;
  minimize :
    T -> T -> list (Matrix T) * list (Vector T) * slots -> ndarray T -> ndarray T ->
    list (Matrix T) * list (Vector T) * slots
}.

(** ** class NN *)

Module NN.
Section Defs.
Context {T : Type} {num : Numeric T} {f32 : Float32 T} {opt : MomentumOptimizer T}.

Record t : Type := mk {
  _sizes : list nat;
  _X : ndarray T;
  _Y : ndarray T;
  w_list : list (Matrix T);
  b_list : list (Vector T);
  _learning_rate : T;
  _momentum : T;
  _epoches : nat;
  _batchsize : nat
}.

(** [max_range = 4 * math.sqrt(6. / (input_size + size))]; Python raises
    [ZeroDivisionError] when the divisor is zero. *)
Definition max_range (input_size size : nat) : T :=
  mul (of_nat 4) (sqrt (div (of_nat 6) (of_nat (input_size + size)))).

(** The initialization loop over [self._sizes + [Y.shape[1]]]; [u layer]
    are the draws of the [layer]-th call of [np.random.uniform], whose
    result is cast, [.astype(np.float32)]; the bias is [np.zeros] of dtype
    float32. *)
Fixpoint init_loop (sizes : list nat) (layer input_size : nat) (u : nat -> Draws T)
  (wl : list (Matrix T)) (bl : list (Vector T))
  : result (list (Matrix T) * list (Vector T)) :=
  match sizes with
  | [] => Ok (wl, bl)
  | size :: sizes' =>
      if input_size + size =? 0 then Raise ZeroDivisionError
      else
        init_loop sizes' (S layer) size u
          (wl ++ [map (map astype_float32)
                    (uniform (neg (max_range input_size size)) (max_range input_size size)
                       input_size size (u layer))])
          (bl ++ [zeros1 size])
  end.

Definition __init__ (sizes : list nat) (X Y : ndarray T) (u : nat -> Draws T) : result t :=
  wb <- init_loop (sizes ++ [shape1 Y]) 0 (shape1 X) u [] [] ;;
  Ok {| _sizes := sizes;
        _X := X;
        _Y := Y;
        w_list := fst wb;
        b_list := snd wb;
        _learning_rate := one;
        _momentum := zero;
        _epoches := 10;
        _batchsize := 100 |}.

Definition set_lists (self : t) (wl : list (Matrix T)) (bl : list (Vector T)) : t :=
  {| _sizes := _sizes self;
     _X := _X self;
     _Y := _Y self;
     w_list := wl;
     b_list := bl;
     _learning_rate := _learning_rate self;
     _momentum := _momentum self;
     _epoches := _epoches self;
     _batchsize := _batchsize self |}.

(** [for i in range(len(self._sizes)): assert dbn_sizes[i] == self._sizes[i]] *)
Fixpoint check_sizes (dbn_sizes sizes : list nat) (idx : list nat) : result unit :=
  match idx with
  | [] => Ok tt
  | i :: idx' =>
      match nth_error dbn_sizes i, nth_error sizes i with
      | Some a, Some b =>
          if a =? b then check_sizes dbn_sizes sizes idx' else Raise AssertionError
      | _, _ => Raise IndexError
      end
  end.

(** [for i in range(len(self._sizes)): self.w_list[i] = rbm_list[i].w;
    self.b_list[i] = rbm_list[i].hb].  An [IndexError] leaves the slots
    assigned before it. *)
Fixpoint copy_loop (self : t) (rbm_list : list (RBM.t T)) (idx : list nat)
  : result unit * t :=
  match idx with
  | [] => (Ok tt, self)
  | i :: idx' =>
      match nth_error rbm_list i with
      | None => (Raise IndexError, self)
      | Some r =>
          match list_set (w_list self) i (RBM.w r) with
          | None => (Raise IndexError, self)
          | Some wl =>
              match list_set (b_list self) i (RBM.hb r) with
              | None => (Raise IndexError, set_lists self wl (b_list self))
              | Some bl => copy_loop (set_lists self wl bl) rbm_list idx'
              end
          end
      end
  end.

Definition load_from_rbms (self : t) (dbn_sizes : list nat) (rbm_list : list (RBM.t T))
  : result unit * t :=
  if negb (length dbn_sizes =? length (_sizes self)) then (Raise AssertionError, self)
  else
    match check_sizes dbn_sizes (_sizes self) (seq 0 (length (_sizes self))) with
    | Raise e => (Raise e, self)
    | Ok _ => copy_loop self rbm_list (seq 0 (length (_sizes self)))
    end.

(** *** The graph built by [train] *)

(** [_a[i] = tf.nn.sigmoid(tf.matmul(_a[i - 1], _w[i - 1]) + _b[i - 1])],
    from the fed [_a[0]] to [_a[-1]]. *)
Fixpoint forward (a : Matrix T) (ws : list (Matrix T)) (bs : list (Vector T)) : Matrix T :=
  match ws, bs with
  | w :: ws', b :: bs' =>
      forward (mat_sigmoid (add_bias (matmul (length b) a w) b)) ws' bs'
  | _, _ => a
  end.

(** The shapes along the chain of layers, from width [input] on. *)
Fixpoint layers_ok (input : nat) (ws : list (Matrix T)) (bs : list (Vector T))
  : option nat :=
  match ws, bs with
  | [], [] => Some input
  | w :: ws', b :: bs' =>
      if is_matrix input (length b) w then layers_ok (length b) ws' bs' else None
  | _, _ => None
  end.

(** Building the graph reads [len(self._sizes) + 1] entries of both lists
    and checks the shapes of the products, of the sums with the biases and of
    [_a[-1] - y]; the arg-max of a row without entries is an error.  A bias
    has the width of its layer: broadcasting a bias of another length is not
    modelled. *)
Definition graph_ok (self : t) : result unit :=
  let n := S (length (_sizes self)) in
  if (n <=? length (w_list self)) && (n <=? length (b_list self)) then
    match layers_ok (shape1 (_X self)) (firstn n (w_list self)) (firstn n (b_list self)) with
    | Some out =>
        if (out =? shape1 (_Y self)) && (0 <? shape1 (_Y self)) then Ok tt
        else Raise ValueError
    | None => Raise ValueError
    end
  else Raise IndexError.

(** The variables of the session and the accumulators of the optimizer. *)
Definition session : Type := (list (Matrix T) * list (Vector T) * slots)%type.

Definition var_w (s : session) : list (Matrix T) := fst (fst s).
Definition var_b (s : session) : list (Vector T) := snd (fst s).

(** [tf.Variable(self.w_list[i])], [tf.Variable(self.b_list[i])] and
    [tf.global_variables_initializer()]. *)
Definition init_session (self : t) : session :=
  let n := S (length (_sizes self)) in
  (firstn n (w_list self), firstn n (b_list self),
   init_slots (firstn n (w_list self)) (firstn n (b_list self))).

(** [sess.run(predict_op, feed_dict={_a[0]: X, ...})] *)
Definition predict_op (s : session) (X : ndarray T) : list nat :=
  map argmax (forward (rows X) (var_w s) (var_b s)).

(** [np.mean] of an array of booleans; [None] is the [nan] of an empty
    array. *)
Definition count_true (l : list bool) : nat := length (filter (fun b => b) l).

Definition np_mean (l : list bool) : option Q :=
  match l with
  | [] => None
  | _ :: _ => Some (Z.of_nat (count_true l) # Pos.of_nat (length l))%Q
  end.

Definition accuracy (self : t) (s : session) : option Q :=
  np_mean (zip_with Nat.eqb (map argmax (rows (_Y self))) (predict_op s (_X self))).

(** One run of the training op on [X[start:stop]], [Y[start:stop]]. *)
Definition batch_step (self : t) (s : session) (se : nat * nat) : session :=
  minimize (_learning_rate self) (_momentum self) s
    (slice (_X self) (fst se) (snd se)) (slice (_Y self) (fst se) (snd se)).

Definition batch_loop (self : t) (bs : list (nat * nat)) (s : session) : session :=
  fold_left (batch_step self) bs s.

(** [self.w_list[j] = sess.run(_w[j])], [self.b_list[j] = sess.run(_b[j])]
    for [j] in [idx]; the slots exist, [graph_ok] has read them. *)
Definition store {A : Type} (l : list A) (j : nat) (v : A) : list A :=
  match list_set l j v with
  | Some l' => l'
  | None => l
  end.

Fixpoint retrieve (self : t) (s : session) (idx : list nat) : t :=
  match idx with
  | [] => self
  | j :: idx' =>
      retrieve
        (set_lists self
           (store (w_list self) j (nth j (var_w s) []))
           (store (b_list self) j (nth j (var_b s) [])))
        s idx'
  end.

(** [for i in range(self._epoches)], from epoch [epoch], with [todo] epochs
    left; [printed] collects the pairs (epoch, accuracy) printed so far. *)
Fixpoint epoch_loop (self : t) (todo epoch : nat) (s : session)
  (printed : list (nat * option Q)) : result (list (nat * option Q)) * t :=
  match todo with
  | 0 => (Ok printed, self)
  | S todo' =>
      match batches (len (_X self)) (_batchsize self) with
      | Raise e => (Raise e, self)
      | Ok bs =>
          let s' := batch_loop self bs s in
          let self' := retrieve self s' (seq 0 (S (length (_sizes self)))) in
          epoch_loop self' todo' (S epoch) s' (printed ++ [(epoch, accuracy self' s')])
      end
  end.

Definition train (self : t) : result (list (nat * option Q)) * t :=
  match graph_ok self with
  | Raise e => (Raise e, self)
  | Ok _ => epoch_loop self (_epoches self) 0 (init_session self) []
  end.

End Defs.

Arguments t T : clear implicits.

End NN.

(** ** Exact arithmetic

    The backend of the statements that need the order of the numbers or the
    values of [sigmoid] and [sqrt]: float32 idealised as the reals.  The
    real sigmoid stays strictly inside (0, 1) while float32's reaches both
    ends; the statements use [sigmoid 0 = 1/2] and the closed range only. *)

Definition Rltb (x y : R) : bool := if Rlt_dec x y then true else false.

Definition Rsigmoid (x : R) : R := (/ (1 + exp (- x)))%R.

#[export] Instance Numeric_R : Numeric R := {|
  zero := 0%R;
  one := 1%R;
  add := Rplus;
  sub := Rminus;
  mul := Rmult;
  div := Rdiv;
  neg := Ropp;
  of_nat := INR;
  ltb := Rltb;
  sigmoid := Rsigmoid;
  sqrt := R_sqrt.sqrt
|}.

(** The cast that changes no number, as float32's does on the numbers
    float32 holds; the examples of [NN.__init__] run with it. *)
Definition exact_cast : Float32 R := {| astype_float32 := fun x => x |}.

(** An optimizer whose training op leaves every variable as it is; it runs
    the examples of [NN.train]. *)
Definition frozen_optimizer (T : Type) : MomentumOptimizer T := {|
  slots := unit;
  init_slots := fun _ _ => tt;
  minimize := fun _ _ s _ _ => s
|}.

(** ** Vocabulary of the statements *)

Section Vocabulary.
Context {T : Type} {num : Numeric T}.

(** The dataset without its last example. *)
Definition without_last (X : ndarray T) : ndarray T :=
  {| shape1 := shape1 X; rows := removelast (rows X) |}.

(** An RBM whose visible biases are replaced. *)
Definition with_vb (r : RBM.t T) (v : Vector T) : RBM.t T :=
  {| RBM._input_size := RBM._input_size r;
     RBM._output_size := RBM._output_size r;
     RBM.epochs := RBM.epochs r;
     RBM.learning_rate := RBM.learning_rate r;
     RBM.batchsize := RBM.batchsize r;
     RBM.w := RBM.w r;
     RBM.hb := RBM.hb r;
     RBM.vb := v |}.

(** The parameters of an RBM: weights, hidden biases, visible biases. *)
Definition params : Type := (Matrix T * Vector T * Vector T)%type.

Definition params_w (p : params) : Matrix T := fst (fst p).
Definition params_hb (p : params) : Vector T := snd (fst p).
Definition params_vb (p : params) : Vector T := snd p.

Definition zero_params (self : RBM.t T) : params :=
  (zeros2 (RBM._input_size self) (RBM._output_size self),
   zeros1 (RBM._output_size self),
   zeros1 (RBM._input_size self)).

(** The declared shapes. *)
Definition params_ok (self : RBM.t T) (p : params) : Prop :=
  is_matrix (RBM._input_size self) (RBM._output_size self) (params_w p) = true /\
  is_vector (RBM._output_size self) (params_hb p) = true /\
  is_vector (RBM._input_size self) (params_vb p) = true.

(** The feeds of a run on the array [v] with the parameters [p]. *)
Definition feed_of (p : params) (v : ndarray T) : RBM.feed_dict T :=
  {| RBM.v0 := v; RBM._w := params_w p; RBM._hb := params_hb p; RBM._vb := params_vb p |}.

(** The local variables of [train] when the [cur_] and [prv_] variables
    hold the same parameters [p] and [k] runs have been made. *)
Definition locals_of (p : params) (k : nat) : RBM.locals T :=
  {| RBM.prv_w := params_w p; RBM.prv_hb := params_hb p; RBM.prv_vb := params_vb p;
     RBM.cur_w := params_w p; RBM.cur_hb := params_hb p; RBM.cur_vb := params_vb p;
     RBM.runs := k |}.

(** The parameters after one batch: each of the three updates evaluated
    with its own draws. *)
Definition cd_update (self : RBM.t T) (p : params) (batch : ndarray T)
  (d_w d_hb d_vb : RBM.RunDraws T) : params :=
  (RBM.update_w self (feed_of p batch) d_w,
   RBM.update_hb self (feed_of p batch) d_hb,
   RBM.update_vb self (feed_of p batch) d_vb).

(** The parameters after the batches [bs], the first run being run [k]. *)
Fixpoint after_batches (self : RBM.t T) (X : ndarray T) (rng : nat -> RBM.RunDraws T)
  (bs : list (nat * nat)) (k : nat) (p : params) : params :=
  match bs with
  | [] => p
  | se :: bs' =>
      after_batches self X rng bs' (3 + k)
        (cd_update self p (slice X (fst se) (snd se)) (rng k) (rng (1 + k)) (rng (2 + k)))
  end.

(** An epoch makes three runs per batch and one for the error. *)
Definition runs_per_epoch (bs : list (nat * nat)) : nat := 3 * length bs + 1.

(** The parameters reached at the end of [e] epochs. *)
Fixpoint after_epochs (self : RBM.t T) (X : ndarray T) (rng : nat -> RBM.RunDraws T)
  (bs : list (nat * nat)) (e : nat) : params :=
  match e with
  | 0 => zero_params self
  | S e' =>
      after_batches self X rng bs (e' * runs_per_epoch bs) (after_epochs self X rng bs e')
  end.

(** The mean, over every entry of the dataset, of the squared difference
    between the input and the reconstruction sampled from it with the
    parameters [p] and the draws [d]. *)
Definition reconstruction_error (self : RBM.t T) (X : ndarray T) (p : params)
  (d : RBM.RunDraws T) : T :=
  reduce_mean (map (map square) (mat_sub (rows X) (RBM.v1 self (feed_of p X) d))).

(** The run that evaluates the error of epoch [e]. *)
Definition error_run (bs : list (nat * nat)) (e : nat) : nat :=
  e * runs_per_epoch bs + 3 * length bs.

(** The widths along the layers of a classifier: the fan-in of layer [k] is
    entry [k], its fan-out entry [k + 1]. *)
Definition layer_dims (sizes : list nat) (X Y : ndarray T) : list nat :=
  shape1 X :: sizes ++ [shape1 Y].

(** No layer has fan-in and fan-out both zero. *)
Fixpoint positive_sums (input : nat) (sizes : list nat) : Prop :=
  match sizes with
  | [] => True
  | size :: sizes' => input + size <> 0 /\ positive_sums size sizes'
  end.

(** The parameters an RBM holds, and those held in the [prv_] variables of
    [train]. *)
Definition rbm_params (r : RBM.t T) : params := (RBM.w r, RBM.hb r, RBM.vb r).

Definition prv_params (l : RBM.locals T) : params :=
  (RBM.prv_w l, RBM.prv_hb l, RBM.prv_vb l).

(** The dataset [X] followed by the example [x]. *)
Definition push (X : ndarray T) (x : Vector T) : ndarray T :=
  {| shape1 := shape1 X; rows := rows X ++ [x] |}.

End Vocabulary.

Section ClassifierVocabulary.
Context {T : Type} {num : Numeric T} {opt : MomentumOptimizer T}.

(** The variables of the session at the end of [e] epochs over the batches
    [bs]. *)
Fixpoint session_after (self : NN.t T) (bs : list (nat * nat)) (e : nat) : NN.session :=
  match e with
  | 0 => NN.init_session self
  | S e' => NN.batch_loop self bs (session_after self bs e')
  end.

(** Example [i] is classified correctly: the arg-max of the predicted row
    is the arg-max of the label row. *)
Definition correct (self : NN.t T) (s : NN.session) (i : nat) : bool :=
  argmax (nth i (NN.forward (rows (NN._X self)) (NN.var_w s) (NN.var_b s)) []) =?
  argmax (nth i (rows (NN._Y self)) []).

(** The fraction of the examples of the training set that are classified
    correctly. *)
Definition fraction_correct (self : NN.t T) (s : NN.session) : Q :=
  (Z.of_nat (length (filter (correct self s) (seq 0 (len (NN._X self)))))
   # Pos.of_nat (len (NN._X self)))%Q.

End ClassifierVocabulary.

(** ** Concrete objects for the examples *)

(** Draws that are the same for every entry: [a] for the hidden sample,
    [b] for the visible sample. *)
Definition const_draws (a b : R) : RBM.RunDraws R :=
  {| RBM.u_h := fun _ _ => a; RBM.u_v := fun _ _ => b |}.

(** [RBM(1, 1)], and a dataset of one example of one feature. *)
Definition ex_rbm : RBM.t R := RBM.__init__ 1 1.

Definition ex_ones : ndarray R := {| shape1 := 1; rows := [[1%R]] |}.

(** The second run draws [3/4] for the hidden sample, every other run
    [1/4]; visible draws are [1/4]. *)
Definition ex_rng (k : nat) : RBM.RunDraws R :=
  match k with
  | 1 => const_draws (3 / 4) (1 / 4)
  | _ => const_draws (1 / 4) (1 / 4)
  end.

(** An RBM of the sizes of [ex_rbm] whose parameters are not zero. *)
Definition ex_rbm_ones : RBM.t R :=
  RBM.mk 1 1 5 1%R 100 [[1%R]] [1%R] [1%R].

(** A classifier with one hidden layer of one unit, one feature and one
    class, whose parameters are all one. *)
Definition ex_nn : NN.t R :=
  {| NN._sizes := [1];
     NN._X := ex_ones;
     NN._Y := ex_ones;
     NN.w_list := [[[1%R]]; [[1%R]]];
     NN.b_list := [[1%R]; [1%R]];
     NN._learning_rate := 1%R;
     NN._momentum := 0%R;
     NN._epoches := 10;
     NN._batchsize := 100 |}.

(** A dataset of [n] examples of [m] features, all zero, and the arrays
    whose entries are all zero. *)
Definition zero_dataset (n m : nat) : ndarray R := {| shape1 := m; rows := zeros2 n m |}.

Definition vec_zero (v : Vector R) : Prop := Forall (fun x => x = 0%R) v.

Definition mat_zero (M : Matrix R) : Prop := Forall vec_zero M.

(** [x] is the float32 of the value [np.random.uniform(-r, r)] makes of
    one of the draws [u]. *)
Definition drawn_uniformly (f32 : Float32 R) (r : R) (u : Draws R) (x : R) : Prop :=
  exists i j, x = astype_float32 (uniform_value (- r)%R r (u i j)).

(** The cast keeps the order of the numbers, as rounding does. *)
Definition monotone_cast (f32 : Float32 R) : Prop :=
  forall x y : R, (x <= y)%R -> (astype_float32 x <= astype_float32 y)%R.

(** ** The cells of the notebook

    The statements outside the two classes: the stack of RBMs is built from
    [RBM_hidden_sizes], each unit is trained on the output of the one before
    it, and the classifier is built from the stack.  The [k]-th call of
    [RBM.train] opens its own session and has its own draws [rng k].  The
    dataset [trX] comes with its dtype; the labels [trY] are read as they
    are by [np.argmax] and reach the graph through a placeholder only. *)

Section Script.
Context {T : Type} {num : Numeric T} {f32 : Float32 T} {opt : MomentumOptimizer T}.

(** [for i, size in enumerate(RBM_hidden_sizes): rbm_list.append(RBM(input_size, size));
    input_size = size] *)
Fixpoint make_rbm_list (input_size : nat) (RBM_hidden_sizes : list nat) : list (RBM.t T) :=
  match RBM_hidden_sizes with
  | [] => []
  | size :: sizes' => RBM.__init__ input_size size :: make_rbm_list size sizes'
  end.

(** [for rbm in rbm_list: rbm.train(inpX); inpX = rbm.rbm_output(inpX)].
    The run gives the array handed on or the exception that ended it, the
    lines printed by the calls of [train] that returned, one list per call,
    and the units as the run leaves them. *)
Fixpoint pretrain (rbm_list : list (RBM.t T)) (inpX : Dtype.array T)
  (rng : nat -> nat -> RBM.RunDraws T) (k : nat)
  : result (Dtype.array T) * list (list (nat * T)) * list (RBM.t T) :=
  match rbm_list with
  | [] => (Ok inpX, [], [])
  | rbm :: rest =>
      match Dtype.train rbm inpX (rng k) with
      | (Raise e, rbm') => (Raise e, [], rbm' :: rest)
      | (Ok printed, rbm') =>
          match Dtype.rbm_output rbm' inpX with
          | (Raise e, rbm'') => (Raise e, [printed], rbm'' :: rest)
          | (Ok out, rbm'') =>
              match pretrain rest out rng (S k) with
              | (r, lines, rest') => (r, printed :: lines, rbm'' :: rest')
              end
          end
      end
  end.

(** The cells in the order of the notebook: the stack is built and
    pre-trained, then [nNet = NN(RBM_hidden_sizes, trX, trY)],
    [nNet.load_from_rbms(RBM_hidden_sizes, rbm_list)] and [nNet.train()].  An
    exception ends the run.  The classifier reads [trX] through
    placeholders; what it prints comes after the lines of the
    pre-training. *)
Definition notebook (RBM_hidden_sizes : list nat) (trX : Dtype.array T) (trY : ndarray T)
  (rng : nat -> nat -> RBM.RunDraws T) (u : nat -> Draws T)
  : result (list (nat * option Q)) * list (list (nat * T)) :=
  match pretrain (make_rbm_list (shape1 (Dtype.values trX)) RBM_hidden_sizes) trX rng 0 with
  | (Raise e, lines, _) => (Raise e, lines)
  | (Ok _, lines, rbm_list) =>
      match NN.__init__ RBM_hidden_sizes (Dtype.fed trX) trY u with
      | Raise e => (Raise e, lines)
      | Ok nNet =>
          match NN.load_from_rbms nNet RBM_hidden_sizes rbm_list with
          | (Raise e, _) => (Raise e, lines)
          | (Ok _, nNet') =>
              match NN.train nNet' with
              | (Raise e, _) => (Raise e, lines)
              | (Ok accuracies, _) => (Ok accuracies, lines)
              end
          end
      end
  end.

(** A stack of RBMs for the widths [input], [sizes]: each unit takes the
    width the one before it puts out, has a positive batch size and holds
    parameters of its declared shapes. *)
Fixpoint stack_ok (input : nat) (sizes : list nat) (rbms : list (RBM.t T)) : Prop :=
  match sizes, rbms with
  | [], [] => True
  | size :: sizes', r :: rbms' =>
      RBM._input_size r = input /\ RBM._output_size r = size /\
      0 < RBM.batchsize r /\
      params_ok r (rbm_params r) /\
      stack_ok size sizes' rbms'
  | _, _ => False
  end.

End Script.

(** A number between 0 and 1, ends included. *)
Definition unit_interval (x : R) : Prop := (0 <= x <= 1)%R.

(** A dataset of one example whose width [RBM(1, 1)] does not take. *)
Definition ex_wide : ndarray R := {| shape1 := 2; rows := [[1%R; 1%R]] |}.

(** The shapes of the arrays of the notebook: 784 features, 10 classes. *)
Definition ex_trX : ndarray R := {| shape1 := 784; rows := [] |}.

Definition ex_trY : ndarray R := {| shape1 := 10; rows := [] |}.

(** One example of five features, all one. *)
Definition ex_five : ndarray R := {| shape1 := 5; rows := [[1; 1; 1; 1; 1]%R] |}.

(** A float32 dataset of 101 blank images of 784 pixels, one batch and one
    example more, and its one-hot labels, all of the first class. *)
Definition ex_images : Dtype.array R :=
  {| Dtype.is_float32 := true; Dtype.values := zero_dataset 101 784 |}.

Definition ex_labels : ndarray R :=
  {| shape1 := 10; rows := repeat (1%R :: repeat 0%R 9) 101 |}.

(** The same images held as float64. *)
Definition ex_images64 : Dtype.array R :=
  {| Dtype.is_float32 := false; Dtype.values := zero_dataset 101 784 |}.

(** * Properties *)

(** ** Lists and shapes *)

Section TensorFacts.
Context {T : Type} {num : Numeric T}.

Lemma zip_with_length {A B C : Type} (f : A -> B -> C) (xs : list A) (ys : list B) :
  length (zip_with f xs ys) = Nat.min (length xs) (length ys).
Proof.
  revert ys; induction xs as [|x xs IH]; intros [|y ys]; simpl; auto.
Qed.

Lemma zip_with_nth {A B C : Type} (f : A -> B -> C) (xs : list A) (ys : list B)
  (i : nat) (da : A) (db : B) (dc : C) :
  i < length xs -> i < length ys ->
  nth i (zip_with f xs ys) dc = f (nth i xs da) (nth i ys db).
Proof.
  revert ys i; induction xs as [|x xs IH]; intros [|y ys] [|i]; simpl; intros; try lia; auto.
  apply IH; lia.
Qed.

Lemma mapi_from_length {A B : Type} (f : nat -> A -> B) (i : nat) (l : list A) :
  length (mapi_from f i l) = length l.
Proof.
  revert i; induction l as [|x l IH]; intro i; simpl; auto.
Qed.

Lemma mapi_from_nth {A B : Type} (f : nat -> A -> B) (i k : nat) (l : list A) (da : A) (db : B) :
  k < length l -> nth k (mapi_from f i l) db = f (i + k) (nth k l da).
Proof.
  revert i k; induction l as [|x l IH]; intros i [|k]; simpl; intros; try lia.
  - now rewrite Nat.add_0_r.
  - rewrite IH by lia. f_equal; lia.
Qed.

Lemma mapi_from_Forall {A B : Type} (P : B -> Prop) (f : nat -> A -> B) (i : nat) (l : list A) :
  (forall k x, P (f k x)) -> Forall P (mapi_from f i l).
Proof.
  intro H; revert i; induction l as [|x l IH]; intro i; simpl; constructor; auto.
Qed.

Lemma is_vector_true (n : nat) (v : Vector T) : is_vector n v = true <-> length v = n.
Proof. unfold is_vector. apply Nat.eqb_eq. Qed.

Lemma is_matrix_true (m n : nat) (M : Matrix T) :
  is_matrix m n M = true <-> length M = m /\ Forall (fun r => length r = n) M.
Proof.
  unfold is_matrix. rewrite andb_true_iff, Nat.eqb_eq, forallb_forall, Forall_forall.
  split; intros [H1 H2]; split; auto; intros r Hr; apply is_vector_true; auto.
Qed.

Lemma zeros1_length (n : nat) : length (zeros1 n : Vector T) = n.
Proof. apply repeat_length. Qed.

Lemma zeros1_shape (n : nat) : is_vector n (zeros1 n) = true.
Proof. apply is_vector_true, zeros1_length. Qed.

Lemma zeros2_shape (m n : nat) : is_matrix m n (zeros2 m n) = true.
Proof.
  apply is_matrix_true. split.
  - apply repeat_length.
  - apply Forall_forall. intros r Hr. apply repeat_spec in Hr. subst. apply zeros1_length.
Qed.

Lemma matmul_shape (n : nat) (a b : Matrix T) :
  is_matrix (length a) n (matmul n a b) = true.
Proof.
  apply is_matrix_true. unfold matmul. split.
  - apply length_map.
  - apply Forall_forall. intros r Hr. apply in_map_iff in Hr as (x & <- & _).
    now rewrite length_map, length_seq.
Qed.

Lemma transpose_length (n : nat) (a : Matrix T) : length (transpose n a) = n.
Proof. unfold transpose. now rewrite length_map, length_seq. Qed.

Lemma mat_sub_shape (m n : nat) (a b : Matrix T) :
  is_matrix m n a = true -> is_matrix m n b = true -> is_matrix m n (mat_sub a b) = true.
Proof.
  rewrite !is_matrix_true. intros [La Fa] [Lb Fb]. subst m. unfold mat_sub.
  revert b Lb Fb; induction a as [|r a IH]; intros [|s b] Lb Fb; simpl in *; try lia.
  - split; auto.
  - inversion Fa; inversion Fb; subst.
    destruct (IH H2 b) as [L F]; auto.
    split; [now rewrite L|]. constructor; auto.
    rewrite zip_with_length. lia.
Qed.

Lemma mat_add_shape (m n : nat) (a b : Matrix T) :
  is_matrix m n a = true -> is_matrix m n b = true -> is_matrix m n (mat_add a b) = true.
Proof.
  rewrite !is_matrix_true. intros [La Fa] [Lb Fb]. subst m. unfold mat_add.
  revert b Lb Fb; induction a as [|r a IH]; intros [|s b] Lb Fb; simpl in *; try lia.
  - split; auto.
  - inversion Fa; inversion Fb; subst.
    destruct (IH H2 b) as [L F]; auto.
    split; [now rewrite L|]. constructor; auto.
    unfold vec_add. rewrite zip_with_length. lia.
Qed.

Lemma map_map_shape (m n : nat) (f : T -> T) (a : Matrix T) :
  is_matrix m n a = true -> is_matrix m n (map (map f) a) = true.
Proof.
  rewrite !is_matrix_true. intros [La Fa]. split.
  - now rewrite length_map.
  - apply Forall_forall. intros r Hr. apply in_map_iff in Hr as (x & <- & Hx).
    rewrite length_map. rewrite Forall_forall in Fa. auto.
Qed.

Lemma reduce_mean0_length (n : nat) (a : Matrix T) : length (reduce_mean0 n a) = n.
Proof. unfold reduce_mean0. now rewrite length_map, length_seq. Qed.

End TensorFacts.

(** ** The mini-batch index pairs *)

Section Batches.

Lemma combine_range_from (n step : nat) :
  0 < step ->
  forall fuel1 fuel2 a s e,
    In (s, e) (combine (range_from fuel1 a n step) (range_from fuel2 (a + step) n step)) ->
    e = s + step /\ e < n /\ a <= s.
Proof.
  intros Hstep. induction fuel1 as [|fuel1 IH]; intros fuel2 a s e Hin; simpl in Hin.
  - contradiction.
  - destruct (a <? n) eqn:Ha; [|contradiction].
    destruct fuel2 as [|fuel2]; simpl in Hin; [contradiction|].
    destruct (a + step <? n) eqn:Hb; [|contradiction].
    apply Nat.ltb_lt in Hb. destruct Hin as [Heq|Hin].
    + inversion Heq; subst. lia.
    + apply IH in Hin. lia.
Qed.

Lemma batches_Ok (n batchsize : nat) :
  0 < batchsize -> exists bs, batches n batchsize = Ok bs.
Proof.
  intro H. unfold batches. destruct (batchsize =? 0) eqn:E.
  - apply Nat.eqb_eq in E. lia.
  - eauto.
Qed.

Lemma batches_In (n batchsize : nat) (bs : list (nat * nat)) (s e : nat) :
  batches n batchsize = Ok bs -> In (s, e) bs -> e = s + batchsize /\ e < n.
Proof.
  unfold batches. destruct (batchsize =? 0) eqn:E; [discriminate|].
  apply Nat.eqb_neq in E. intros [= <-] Hin.
  unfold py_range in Hin.
  apply (@combine_range_from n batchsize ltac:(lia) n n 0) in Hin. lia.
Qed.

Lemma batches_small (n batchsize : nat) (bs : list (nat * nat)) :
  n <= batchsize -> batches n batchsize = Ok bs -> bs = [].
Proof.
  intros Hle H. destruct bs as [|[s e] bs]; auto.
  destruct (batches_In n batchsize _ s e H (or_introl eq_refl)). lia.
Qed.

Lemma firstn_skipn_removelast {A : Type} (l : list A) (s e : nat) :
  e < length l ->
  firstn (e - s) (skipn s l) = firstn (e - s) (skipn s (removelast l)).
Proof.
  intro He. destruct (exists_last (l:=l)) as (l' & x & ->).
  { intros ->; simpl in He; lia. }
  rewrite removelast_last. rewrite length_app in He; simpl in He.
  destruct (Nat.le_gt_cases e s) as [Hes|Hes].
  - replace (e - s) with 0 by lia. reflexivity.
  - rewrite skipn_app. replace (s - length l') with 0 by lia.
    rewrite firstn_app, length_skipn. replace (e - s - (length l' - s)) with 0 by lia.
    simpl. now rewrite app_nil_r.
Qed.

(** The pairs in closed form: [range] runs to its end within the fuel. *)
Lemma range_from_closed (n step : nat) :
  0 < step ->
  forall fuel a, n <= a + fuel ->
    range_from fuel a n step =
    map (fun k => a + k * step) (seq 0 ((n - a + step - 1) / step)).
Proof.
  intro Hs. induction fuel as [|fuel IH]; intros a Ha; simpl.
  - replace (n - a + step - 1) with (step - 1) by lia.
    rewrite Nat.div_small by lia. reflexivity.
  - destruct (Nat.ltb_spec a n) as [Hlt|Hge].
    + rewrite IH by lia.
      assert (E : (n - a + step - 1) / step = S ((n - (a + step) + step - 1) / step)).
      { destruct (Nat.le_gt_cases step (n - a)) as [Hb|Hb].
        - replace (n - a + step - 1) with ((n - (a + step) + step - 1) + 1 * step) by lia.
          rewrite Nat.div_add by lia. lia.
        - replace (n - (a + step) + step - 1) with (step - 1) by lia.
          rewrite (Nat.div_small (step - 1)) by lia.
          symmetry. apply Nat.div_unique with (r := n - a - 1); lia. }
      rewrite E. cbn [seq map]. f_equal; [lia|].
      rewrite <- seq_shift, map_map. apply map_ext. intro k. lia.
    + replace (n - a + step - 1) with (step - 1) by lia.
      rewrite Nat.div_small by lia. reflexivity.
Qed.

Lemma combine_map_seq {A B : Type} (f : nat -> A) (g : nat -> B) :
  forall c2 c1 s, c2 <= c1 ->
    combine (map f (seq s c1)) (map g (seq s c2)) = map (fun k => (f k, g k)) (seq s c2).
Proof.
  induction c2 as [|c2 IH]; intros [|c1] s H; simpl; try lia; auto.
  f_equal. apply IH. lia.
Qed.

Lemma batches_closed_form (n batchsize : nat) :
  0 < batchsize ->
  batches n batchsize =
  Ok (map (fun k => (k * batchsize, (k + 1) * batchsize)) (seq 0 ((n - 1) / batchsize))).
Proof.
  intro Hb. unfold batches. destruct (Nat.eqb_spec batchsize 0); [lia|].
  f_equal. unfold py_range.
  rewrite !range_from_closed by lia.
  assert (E : (n - batchsize + batchsize - 1) / batchsize = (n - 1) / batchsize).
  { destruct (Nat.le_gt_cases batchsize n).
    - f_equal. lia.
    - replace (n - batchsize + batchsize - 1) with (batchsize - 1) by lia.
      rewrite !Nat.div_small by lia. reflexivity. }
  rewrite E, combine_map_seq.
  - apply map_ext. intro k. f_equal; lia.
  - apply Nat.Div0.div_le_mono. lia.
Qed.

End Batches.

(** C9: with at least one example and a positive batch size, the index pairs
    of the mini-batch loops of [RBM.train] and [NN.train] are the pairs
    [(k * batchsize, (k + 1) * batchsize)] for [k < (n - 1) / batchsize]; each
    pair spans [batchsize] indices that all lie strictly below the last index
    [n - 1], the batch cut from the dataset is the batch cut from the dataset
    without its last example, and there is no pair at all when
    [n <= batchsize]. *)
Theorem C9_batches_skip_last_example :
  forall (T : Type) (r : RBM.t T) (X : ndarray T) (nn : NN.t T),
    1 <= len X -> 0 < RBM.batchsize r ->
    1 <= len (NN._X nn) -> 0 < NN._batchsize nn ->
    (exists bs, batches (len X) (RBM.batchsize r) = Ok bs /\
       bs = map (fun k => (k * RBM.batchsize r, (k + 1) * RBM.batchsize r))
                (seq 0 ((len X - 1) / RBM.batchsize r)) /\
       (forall s e, In (s, e) bs ->
          e = s + RBM.batchsize r /\
          (forall i, s <= i < e -> i < len X - 1) /\
          slice X s e = slice (without_last X) s e) /\
       (len X <= RBM.batchsize r -> bs = [])) /\
    (exists bs, batches (len (NN._X nn)) (NN._batchsize nn) = Ok bs /\
       bs = map (fun k => (k * NN._batchsize nn, (k + 1) * NN._batchsize nn))
                (seq 0 ((len (NN._X nn) - 1) / NN._batchsize nn)) /\
       (forall s e, In (s, e) bs ->
          e = s + NN._batchsize nn /\
          (forall i, s <= i < e -> i < len (NN._X nn) - 1) /\
          slice (NN._X nn) s e = slice (without_last (NN._X nn)) s e) /\
       (len (NN._X nn) <= NN._batchsize nn -> bs = [])).
Proof.
  intros T r X nn Hn Hb Hn' Hb'.
  assert (G : forall (Z : ndarray T) (b : nat), 1 <= len Z -> 0 < b ->
            exists bs, batches (len Z) b = Ok bs /\
              bs = map (fun k => (k * b, (k + 1) * b)) (seq 0 ((len Z - 1) / b)) /\
              (forall s e, In (s, e) bs ->
                 e = s + b /\ (forall i, s <= i < e -> i < len Z - 1) /\
                 slice Z s e = slice (without_last Z) s e) /\
              (len Z <= b -> bs = [])).
  { intros Z b HZ Hpos. destruct (batches_Ok (len Z) b Hpos) as [bs Hbs].
    exists bs. split; [exact Hbs|]. split.
    { rewrite batches_closed_form in Hbs by exact Hpos. now injection Hbs as <-. }
    split.
    - intros s e Hin. destruct (batches_In _ _ _ _ _ Hbs Hin) as [He Hlt].
      split; [exact He|]. split; [intros i Hi; lia|].
      unfold slice, without_last; simpl. f_equal.
      apply firstn_skipn_removelast. exact Hlt.
    - intro Hle. eapply batches_small; eauto. }
  split.
  - exact (G X _ Hn Hb).
  - exact (G (NN._X nn) _ Hn' Hb').
Qed.

(** Case analysis on the boolean comparisons of a goal. *)
Ltac nat_cases :=
  repeat match goal with
         | |- context [?a <=? ?b] => destruct (Nat.leb_spec a b)
         | |- context [?a <? ?b] => destruct (Nat.ltb_spec a b)
         | |- context [?a =? ?b] => destruct (Nat.eqb_spec a b)
         end;
  simpl; try lia; auto.

(** ** [NN.load_from_rbms] *)

Section LoadFromRbms.
Context {T : Type} {num : Numeric T}.

Lemma list_set_Some {A : Type} (l : list A) (i : nat) (v : A) :
  i < length l ->
  exists l', list_set l i v = Some l' /\ length l' = length l /\
    forall j, nth_error l' j = if j =? i then Some v else nth_error l j.
Proof.
  revert i; induction l as [|x l IH]; intros [|i] Hi; simpl in *; try lia.
  - exists (v :: l). repeat split; auto. intros [|j]; reflexivity.
  - destruct (IH i ltac:(lia)) as (l' & E & L & N). rewrite E.
    exists (x :: l'). repeat split; simpl; auto. intros [|j]; simpl; auto.
Qed.

Lemma list_set_None {A : Type} (l : list A) (i : nat) (v : A) :
  length l <= i -> list_set l i v = None.
Proof.
  revert i; induction l as [|x l IH]; intros [|i] Hi; simpl in *; try lia; auto.
  rewrite IH by lia. reflexivity.
Qed.

Lemma check_sizes_spec (dbn_sizes sizes : list nat) :
  forall m k,
    k + m <= length dbn_sizes -> k + m <= length sizes ->
    (NN.check_sizes dbn_sizes sizes (seq k m) = Ok tt /\
     forall i, k <= i < k + m -> nth_error dbn_sizes i = nth_error sizes i) \/
    (NN.check_sizes dbn_sizes sizes (seq k m) = Raise AssertionError /\
     exists i, k <= i < k + m /\ nth_error dbn_sizes i <> nth_error sizes i).
Proof.
  induction m as [|m IH]; intros k H1 H2; simpl.
  - left. split; auto. intros; lia.
  - destruct (nth_error dbn_sizes k) as [a|] eqn:Ea.
    2:{ apply nth_error_None in Ea. lia. }
    destruct (nth_error sizes k) as [b|] eqn:Eb.
    2:{ apply nth_error_None in Eb. lia. }
    destruct (a =? b) eqn:Eab.
    + apply Nat.eqb_eq in Eab. subst b.
      destruct (IH (S k)) as [[E H]|[E (i & Hi & N)]]; try lia.
      * left. split; auto. intros i Hi.
        destruct (Nat.eq_dec i k) as [->|]; [congruence|apply H; lia].
      * right. split; auto. exists i. split; [lia|auto].
    + apply Nat.eqb_neq in Eab. right. split; auto.
      exists k. split; [lia|congruence].
Qed.

Lemma nth_error_eq_ext {A : Type} (l l' : list A) :
  length l = length l' ->
  (forall i, i < length l -> nth_error l i = nth_error l' i) -> l = l'.
Proof.
  revert l'; induction l as [|x l IH]; intros [|y l'] HL H; simpl in *; try lia; auto.
  f_equal.
  - specialize (H 0 ltac:(lia)). simpl in H. congruence.
  - apply IH; [lia|]. intros i Hi. apply (H (S i)). lia.
Qed.

(** The two assertions pass exactly when the two size lists are equal. *)
Lemma load_checks (self : NN.t T) (dbn_sizes : list nat) (rbm_list : list (RBM.t T)) :
  (dbn_sizes = NN._sizes self ->
   NN.load_from_rbms self dbn_sizes rbm_list =
   NN.copy_loop self rbm_list (seq 0 (length (NN._sizes self)))) /\
  (dbn_sizes <> NN._sizes self ->
   NN.load_from_rbms self dbn_sizes rbm_list = (Raise AssertionError, self)).
Proof.
  unfold NN.load_from_rbms.
  destruct (length dbn_sizes =? length (NN._sizes self)) eqn:EL; simpl.
  - apply Nat.eqb_eq in EL.
    destruct (check_sizes_spec dbn_sizes (NN._sizes self) (length (NN._sizes self)) 0)
      as [[E H]|[E (i & Hi & N)]]; try lia; rewrite E.
    + split; auto. intro Hne. exfalso. apply Hne.
      apply nth_error_eq_ext; auto. intros i Hi. apply H. lia.
    + split; auto. intros ->. congruence.
  - apply Nat.eqb_neq in EL. split; auto. intros ->. congruence.
Qed.

(** What the copying loop leaves, slot by slot. *)
Lemma copy_loop_spec (rbm_list : list (RBM.t T)) :
  forall m k (self : NN.t T),
    k + m <= length rbm_list ->
    k + m <= length (NN.w_list self) ->
    k + m <= length (NN.b_list self) ->
    exists wl bl,
      NN.copy_loop self rbm_list (seq k m) = (Ok tt, NN.set_lists self wl bl) /\
      length wl = length (NN.w_list self) /\
      length bl = length (NN.b_list self) /\
      (forall j, nth_error wl j =
                 if (k <=? j) && (j <? k + m)
                 then option_map RBM.w (nth_error rbm_list j)
                 else nth_error (NN.w_list self) j) /\
      (forall j, nth_error bl j =
                 if (k <=? j) && (j <? k + m)
                 then option_map RBM.hb (nth_error rbm_list j)
                 else nth_error (NN.b_list self) j).
Proof.
  induction m as [|m IH]; intros k self H1 H2 H3.
  - exists (NN.w_list self), (NN.b_list self). destruct self; simpl.
    repeat split; auto; intro j; nat_cases.
  - cbn [seq NN.copy_loop].
    destruct (nth_error rbm_list k) as [r|] eqn:Er.
    2:{ apply nth_error_None in Er. lia. }
    destruct (list_set_Some (NN.w_list self) k (RBM.w r) ltac:(lia)) as (wl & Ew & Lw & Nw).
    destruct (list_set_Some (NN.b_list self) k (RBM.hb r) ltac:(lia)) as (bl & Eb & Lb & Nb).
    rewrite Ew, Eb.
    destruct (IH (S k) (NN.set_lists self wl bl)) as (wl' & bl' & E & Lw' & Lb' & Nw' & Nb');
      cbn [NN.w_list NN.b_list NN.set_lists]; try lia.
    cbn [NN.w_list NN.b_list NN.set_lists] in *.
    exists wl', bl'. rewrite E. split; [reflexivity|].
    split; [lia|]. split; [lia|].
    split; intro j.
    + rewrite Nw', Nw. nat_cases; subst; try lia. now rewrite Er.
    + rewrite Nb', Nb. nat_cases; subst; try lia. now rewrite Er.
Qed.

(** The loop reads [w] and [hb] of the units and nothing else. *)
Lemma copy_loop_reads (f : RBM.t T -> RBM.t T) :
  (forall r, RBM.w (f r) = RBM.w r /\ RBM.hb (f r) = RBM.hb r) ->
  forall (rbm_list : list (RBM.t T)) idx (self : NN.t T),
    NN.copy_loop self (map f rbm_list) idx = NN.copy_loop self rbm_list idx.
Proof.
  intros Hf rbm_list. induction idx as [|i idx IH]; intro self; simpl; auto.
  rewrite nth_error_map. destruct (nth_error rbm_list i) as [r|]; simpl; auto.
  destruct (Hf r) as [-> ->].
  destruct (list_set (NN.w_list self) i (RBM.w r)); auto.
  destruct (list_set (NN.b_list self) i (RBM.hb r)); auto.
Qed.

Lemma list_set_inv {A : Type} (l l' : list A) (i : nat) (v : A) :
  list_set l i v = Some l' ->
  length l' = length l /\
  forall j, nth_error l' j = if j =? i then Some v else nth_error l j.
Proof.
  intro H. destruct (Nat.lt_ge_cases i (length l)) as [Hi|Hi].
  - destruct (list_set_Some l i v Hi) as (l'' & E & L & N).
    rewrite E in H. inversion H; subst. auto.
  - rewrite list_set_None in H by exact Hi. discriminate.
Qed.

(** A loop that ends without an exception has assigned the slots of its
    indices and no other, and no other attribute. *)
Lemma copy_loop_frame (rbm_list : list (RBM.t T)) :
  forall idx (self self' : NN.t T),
    NN.copy_loop self rbm_list idx = (Ok tt, self') ->
    exists wl bl,
      self' = NN.set_lists self wl bl /\
      length wl = length (NN.w_list self) /\
      length bl = length (NN.b_list self) /\
      forall j, ~ In j idx ->
        nth_error wl j = nth_error (NN.w_list self) j /\
        nth_error bl j = nth_error (NN.b_list self) j.
Proof.
  induction idx as [|i idx IH]; intros self self' H; cbn [NN.copy_loop] in H.
  - inversion H; subst. exists (NN.w_list self'), (NN.b_list self').
    destruct self'; simpl; auto.
  - destruct (nth_error rbm_list i) as [r|]; [|discriminate].
    destruct (list_set (NN.w_list self) i (RBM.w r)) as [wl|] eqn:Ew; [|discriminate].
    destruct (list_set (NN.b_list self) i (RBM.hb r)) as [bl|] eqn:Eb; [|discriminate].
    apply IH in H. destruct H as (wl' & bl' & -> & Lw & Lb & N).
    cbn [NN.w_list NN.b_list NN.set_lists] in *.
    destruct (list_set_inv _ _ _ _ Ew) as [Lw0 Nw0].
    destruct (list_set_inv _ _ _ _ Eb) as [Lb0 Nb0].
    exists wl', bl'. split; [reflexivity|]. split; [lia|]. split; [lia|].
    intros j Hj. destruct (N j) as [A B]; [intro; apply Hj; now right|].
    rewrite A, B, Nw0, Nb0.
    destruct (Nat.eqb_spec j i) as [->|]; auto. exfalso. apply Hj. now left.
Qed.

End LoadFromRbms.

(** C2 (as the code has it): [load_from_rbms] raises [AssertionError],
    leaving the classifier as it was, whenever the supplied size list differs
    from the declared hidden-layer sizes; the sizes of the RBM units are not
    examined.  When the two size lists are equal and there is a unit and a
    slot for every hidden layer, the call returns, and hidden layer [i] holds
    the weight matrix and the hidden biases of unit [i]. *)
Theorem C2_load_from_rbms_checks_size_lists :
  forall (T : Type) (self : NN.t T) (dbn_sizes : list nat) (rbm_list : list (RBM.t T)),
    (dbn_sizes <> NN._sizes self ->
     NN.load_from_rbms self dbn_sizes rbm_list = (Raise AssertionError, self)) /\
    (dbn_sizes = NN._sizes self ->
     length (NN._sizes self) <= length rbm_list ->
     length (NN._sizes self) <= length (NN.w_list self) ->
     length (NN._sizes self) <= length (NN.b_list self) ->
     exists wl bl,
       NN.load_from_rbms self dbn_sizes rbm_list = (Ok tt, NN.set_lists self wl bl) /\
       forall i, i < length (NN._sizes self) ->
         exists r, nth_error rbm_list i = Some r /\
                   nth_error wl i = Some (RBM.w r) /\
                   nth_error bl i = Some (RBM.hb r)).
Proof.
  intros T self dbn_sizes rbm_list.
  destruct (load_checks self dbn_sizes rbm_list) as [Heq Hne].
  split; [exact Hne|].
  intros E Hr Hw Hb. rewrite (Heq E).
  destruct (copy_loop_spec rbm_list (length (NN._sizes self)) 0 self)
    as (wl & bl & Ec & _ & _ & Nw & Nb); try (simpl; lia).
  exists wl, bl. split; [exact Ec|].
  intros i Hi.
  destruct (nth_error rbm_list i) as [r|] eqn:Er.
  2:{ apply nth_error_None in Er. lia. }
  exists r. split; [reflexivity|].
  rewrite Nw, Nb, Er. split; nat_cases.
Qed.

(** C5: a call of [load_from_rbms] that returns changes no attribute of the
    classifier but [w_list] and [b_list], keeps their lengths, leaves every
    slot from index [len(self._sizes)] on, the output layer's among them, as
    it was, and does not depend on the visible biases of the units. *)
Theorem C5_load_from_rbms_frame :
  forall (T : Type) (self self' : NN.t T) (dbn_sizes : list nat)
         (rbm_list : list (RBM.t T)),
    NN.load_from_rbms self dbn_sizes rbm_list = (Ok tt, self') ->
    (exists wl bl, self' = NN.set_lists self wl bl) /\
    length (NN.w_list self') = length (NN.w_list self) /\
    length (NN.b_list self') = length (NN.b_list self) /\
    (forall j, length (NN._sizes self) <= j ->
       nth_error (NN.w_list self') j = nth_error (NN.w_list self) j /\
       nth_error (NN.b_list self') j = nth_error (NN.b_list self) j) /\
    (forall g : RBM.t T -> Vector T,
       NN.load_from_rbms self dbn_sizes (map (fun r => with_vb r (g r)) rbm_list) =
       NN.load_from_rbms self dbn_sizes rbm_list).
Proof.
  intros T self self' dbn_sizes rbm_list H.
  assert (Hg : forall g : RBM.t T -> Vector T,
             NN.load_from_rbms self dbn_sizes (map (fun r => with_vb r (g r)) rbm_list) =
             NN.load_from_rbms self dbn_sizes rbm_list).
  { intro g. unfold NN.load_from_rbms.
    destruct (negb (length dbn_sizes =? length (NN._sizes self))); auto.
    destruct (NN.check_sizes dbn_sizes (NN._sizes self) (seq 0 (length (NN._sizes self))));
      auto.
    apply copy_loop_reads. intro r. split; reflexivity. }
  destruct (load_checks self dbn_sizes rbm_list) as [Heq Hne].
  destruct (list_eq_dec Nat.eq_dec dbn_sizes (NN._sizes self)) as [E|E].
  2:{ rewrite (Hne E) in H. discriminate. }
  rewrite (Heq E) in H. apply copy_loop_frame in H.
  destruct H as (wl & bl & -> & Lw & Lb & N).
  cbn [NN.w_list NN.b_list NN.set_lists].
  split; [eauto|]. split; [exact Lw|]. split; [exact Lb|]. split; [|exact Hg].
  intros j Hj. apply N. rewrite in_seq. lia.
Qed.

(** ** [RBM]: shapes and the training loop *)

Section RBMFacts.
Context {T : Type} {num : Numeric T}.

Lemma update_w_shape (self : RBM.t T) (f : RBM.feed_dict T) (d : RBM.RunDraws T) :
  is_matrix (RBM._input_size self) (RBM._output_size self) (RBM._w f) = true ->
  is_matrix (RBM._input_size self) (RBM._output_size self) (RBM.update_w self f d) = true.
Proof.
  intro Hw. unfold RBM.update_w. apply mat_add_shape; [exact Hw|].
  unfold mat_div, mat_scale, vec_scale. do 2 apply map_map_shape.
  apply mat_sub_shape.
  - unfold RBM.positive_grad.
    rewrite <- (transpose_length (RBM._input_size self) (rows (RBM.v0 f))) at 1.
    apply matmul_shape.
  - unfold RBM.negative_grad.
    rewrite <- (transpose_length (RBM._input_size self) (RBM.v1 self f d)) at 1.
    apply matmul_shape.
Qed.

Lemma update_hb_shape (self : RBM.t T) (f : RBM.feed_dict T) (d : RBM.RunDraws T) :
  is_vector (RBM._output_size self) (RBM._hb f) = true ->
  is_vector (RBM._output_size self) (RBM.update_hb self f d) = true.
Proof.
  rewrite !is_vector_true. intro H. unfold RBM.update_hb, vec_add, vec_scale.
  rewrite zip_with_length, length_map, reduce_mean0_length. lia.
Qed.

Lemma update_vb_shape (self : RBM.t T) (f : RBM.feed_dict T) (d : RBM.RunDraws T) :
  is_vector (RBM._input_size self) (RBM._vb f) = true ->
  is_vector (RBM._input_size self) (RBM.update_vb self f d) = true.
Proof.
  rewrite !is_vector_true. intro H. unfold RBM.update_vb, vec_add, vec_scale.
  rewrite zip_with_length, length_map, reduce_mean0_length. lia.
Qed.

Lemma zero_params_ok (self : RBM.t T) : params_ok self (zero_params self).
Proof.
  unfold params_ok, zero_params, params_w, params_hb, params_vb; simpl.
  repeat split; [apply zeros2_shape | apply zeros1_shape | apply zeros1_shape].
Qed.

Lemma feed_ok_of (self : RBM.t T) (p : params) (v : ndarray T) :
  shape1 v = RBM._input_size self -> params_ok self p ->
  RBM.feed_ok self (feed_of p v) = true.
Proof.
  intros Hv (Hw & Hh & Hb). unfold RBM.feed_ok; simpl.
  rewrite Hw, Hh, Hb, Hv, Nat.eqb_refl. reflexivity.
Qed.

Lemma cd_update_ok (self : RBM.t T) (p : params) (batch : ndarray T)
  (d1 d2 d3 : RBM.RunDraws T) :
  params_ok self p -> params_ok self (cd_update self p batch d1 d2 d3).
Proof.
  intros (Hw & Hh & Hb). unfold params_ok, cd_update, params_w, params_hb, params_vb; simpl.
  repeat split; [apply update_w_shape | apply update_hb_shape | apply update_vb_shape];
    assumption.
Qed.

(** The body of the inner loop on well-shaped feeds: three runs, each with
    the draws of its own run. *)
Lemma batch_step_ok (self : RBM.t T) (X : ndarray T) (rng : nat -> RBM.RunDraws T)
  (p : params) (k : nat) (se : nat * nat) :
  shape1 X = RBM._input_size self -> params_ok self p ->
  RBM.batch_step self X rng (locals_of p k) se =
  Ok (locals_of
        (cd_update self p (slice X (fst se) (snd se)) (rng k) (rng (1 + k)) (rng (2 + k)))
        (3 + k)).
Proof.
  intros HX Hp. unfold RBM.batch_step, RBM.sess_run.
  change {| RBM.v0 := slice X (fst se) (snd se);
            RBM._w := RBM.prv_w (locals_of p k);
            RBM._hb := RBM.prv_hb (locals_of p k);
            RBM._vb := RBM.prv_vb (locals_of p k) |}
    with (feed_of p (slice X (fst se) (snd se))).
  rewrite feed_ok_of by (auto; exact HX). reflexivity.
Qed.

Lemma after_batches_ok (self : RBM.t T) (X : ndarray T) (rng : nat -> RBM.RunDraws T) :
  forall bs k p, params_ok self p -> params_ok self (after_batches self X rng bs k p).
Proof.
  induction bs as [|se bs IH]; intros k p Hp; simpl; auto using cd_update_ok.
Qed.

Lemma batch_loop_ok (self : RBM.t T) (X : ndarray T) (rng : nat -> RBM.RunDraws T) :
  shape1 X = RBM._input_size self ->
  forall bs p k, params_ok self p ->
    RBM.batch_loop self X rng bs (locals_of p k) =
    Ok (locals_of (after_batches self X rng bs k p) (3 * length bs + k)).
Proof.
  intro HX. induction bs as [|se bs IH]; intros p k Hp.
  - reflexivity.
  - cbn [RBM.batch_loop after_batches]. rewrite batch_step_ok by assumption.
    cbn [bind]. rewrite IH by auto using cd_update_ok.
    do 2 f_equal. cbn [length]. lia.
Qed.

Lemma after_epochs_ok (self : RBM.t T) (X : ndarray T) (rng : nat -> RBM.RunDraws T)
  (bs : list (nat * nat)) (e : nat) :
  params_ok self (after_epochs self X rng bs e).
Proof.
  induction e as [|e IH]; simpl; auto using zero_params_ok, after_batches_ok.
Qed.

Lemma epoch_error_ok (self : RBM.t T) (X : ndarray T) (rng : nat -> RBM.RunDraws T)
  (p : params) (k : nat) :
  shape1 X = RBM._input_size self -> params_ok self p ->
  RBM.epoch_error self X rng (locals_of p k) = Ok (reconstruction_error self X p (rng k)).
Proof.
  intros HX Hp. unfold RBM.epoch_error, RBM.sess_run.
  change {| RBM.v0 := X;
            RBM._w := RBM.cur_w (locals_of p k);
            RBM._hb := RBM.cur_hb (locals_of p k);
            RBM._vb := RBM.cur_vb (locals_of p k) |}
    with (feed_of p X).
  rewrite feed_ok_of by assumption. reflexivity.
Qed.

(** The lines printed by the epochs [e], [e + 1], ... *)
Lemma epoch_loop_ok (self : RBM.t T) (X : ndarray T) (rng : nat -> RBM.RunDraws T)
  (bs : list (nat * nat)) :
  shape1 X = RBM._input_size self ->
  batches (len X) (RBM.batchsize self) = Ok bs ->
  forall todo e printed,
    RBM.epoch_loop self X rng todo e
      (locals_of (after_epochs self X rng bs e) (e * runs_per_epoch bs)) printed =
    Ok (locals_of (after_epochs self X rng bs (e + todo)) ((e + todo) * runs_per_epoch bs),
        printed ++
        map (fun i =>
               (i, reconstruction_error self X (after_epochs self X rng bs (S i))
                     (rng (error_run bs i))))
            (seq e todo)).
Proof.
  intros HX Hbs. induction todo as [|todo IH]; intros e printed.
  - cbn [RBM.epoch_loop seq map]. now rewrite Nat.add_0_r, app_nil_r.
  - cbn [RBM.epoch_loop]. rewrite Hbs. cbn [bind].
    rewrite batch_loop_ok by auto using after_epochs_ok. cbn [bind].
    change (after_batches self X rng bs (e * runs_per_epoch bs)
              (after_epochs self X rng bs e))
      with (after_epochs self X rng bs (S e)).
    rewrite epoch_error_ok by auto using after_epochs_ok. cbn [bind].
    replace (RBM.tick
               (locals_of (after_epochs self X rng bs (S e))
                  (3 * length bs + e * runs_per_epoch bs)))
      with (locals_of (after_epochs self X rng bs (S e)) (S e * runs_per_epoch bs)).
    2:{ unfold RBM.tick, locals_of; simpl. f_equal. unfold runs_per_epoch. lia. }
    rewrite IH. cbn [seq map]. rewrite <- app_assoc. cbn [app].
    replace (3 * length bs + e * runs_per_epoch bs) with (error_run bs e)
      by (unfold error_run; lia).
    replace (S e + todo) with (e + S todo) by lia. reflexivity.
Qed.

End RBMFacts.

Section RBMTheorems.
Context {T : Type} {num : Numeric T}.

Lemma nth_map_lt {A B : Type} (f : A -> B) (l : list A) (i : nat) (da : A) (db : B) :
  i < length l -> nth i (map f l) db = f (nth i l da).
Proof.
  revert i; induction l as [|x l IH]; intros [|i] Hi; simpl in *; try lia; auto.
  apply IH. lia.
Qed.

(** C4: on a dataset of the declared width and with a positive batch size,
    [RBM.train] returns, and what it printed is one line per epoch, in the
    order of the epochs: the line of epoch [e] carries the mean, over every
    entry of the whole dataset, of the squared difference between the input
    and the reconstruction sampled from it with the parameters reached at the
    end of epoch [e]; the object is left with the parameters of the last
    epoch. *)
Theorem C4_one_reconstruction_error_per_epoch :
  forall (self : RBM.t T) (X : ndarray T) (rng : nat -> RBM.RunDraws T),
    shape1 X = RBM._input_size self ->
    0 < RBM.batchsize self ->
    exists bs,
      batches (len X) (RBM.batchsize self) = Ok bs /\
      fst (RBM.train self X rng) =
      Ok (map (fun e =>
                 (e, reconstruction_error self X (after_epochs self X rng bs (S e))
                       (rng (error_run bs e))))
              (seq 0 (RBM.epochs self))) /\
      (RBM.w (snd (RBM.train self X rng)),
       RBM.hb (snd (RBM.train self X rng)),
       RBM.vb (snd (RBM.train self X rng))) =
      after_epochs self X rng bs (RBM.epochs self).
Proof.
  intros self X rng HX Hb.
  destruct (batches_Ok (len X) (RBM.batchsize self) Hb) as [bs Hbs].
  exists bs. split; [exact Hbs|].
  unfold RBM.train.
  change (RBM.init_locals self)
    with (locals_of (after_epochs self X rng bs 0) (0 * runs_per_epoch bs)).
  rewrite (epoch_loop_ok self X rng bs HX Hbs). cbn [fst snd app Nat.add].
  split; [reflexivity|].
  cbn [RBM.w RBM.hb RBM.vb locals_of RBM.prv_w RBM.prv_hb RBM.prv_vb].
  unfold params_w, params_hb, params_vb.
  now destruct (after_epochs self X rng bs (RBM.epochs self)) as [[a b] c].
Qed.

(** [train] reads the sizes and the hyperparameters of the object, and none
    of [w], [hb], [vb]. *)
Lemma epoch_loop_reads (i o ep bsz : nat) (lr : T)
  (w1 w2 : Matrix T) (hb1 hb2 vb1 vb2 : Vector T)
  (X : ndarray T) (rng : nat -> RBM.RunDraws T) :
  forall todo e l printed,
    RBM.epoch_loop (RBM.mk i o ep lr bsz w1 hb1 vb1) X rng todo e l printed =
    RBM.epoch_loop (RBM.mk i o ep lr bsz w2 hb2 vb2) X rng todo e l printed.
Proof.
  assert (Hstep : forall l se,
            RBM.batch_step (RBM.mk i o ep lr bsz w1 hb1 vb1) X rng l se =
            RBM.batch_step (RBM.mk i o ep lr bsz w2 hb2 vb2) X rng l se)
    by reflexivity.
  assert (Hloop : forall bs l,
            RBM.batch_loop (RBM.mk i o ep lr bsz w1 hb1 vb1) X rng bs l =
            RBM.batch_loop (RBM.mk i o ep lr bsz w2 hb2 vb2) X rng bs l).
  { induction bs as [|se bs IH]; intro l; cbn [RBM.batch_loop]; auto.
    rewrite Hstep. destruct (RBM.batch_step _ X rng l se); cbn [bind]; auto. }
  induction todo as [|todo IH]; intros e l printed; cbn [RBM.epoch_loop]; auto.
  cbn [RBM.batchsize].
  destruct (batches (len X) bsz) as [bs|]; cbn [bind]; auto.
  rewrite Hloop.
  destruct (RBM.batch_loop _ X rng bs l) as [l'|]; cbn [bind]; auto.
  change (RBM.epoch_error (RBM.mk i o ep lr bsz w1 hb1 vb1) X rng l')
    with (RBM.epoch_error (RBM.mk i o ep lr bsz w2 hb2 vb2) X rng l').
  destruct (RBM.epoch_error _ X rng l'); cbn [bind]; auto.
Qed.

(** C10: two RBMs of equal sizes and hyperparameters, whatever their
    parameters before the call, print the same lines or raise the same
    exception when trained on the same dataset with the same draws, and
    after a call that returns they are equal; in particular a second call of
    [train] does what a call on the untrained object does. *)
Theorem C10_train_ignores_current_parameters :
  forall (r1 r2 : RBM.t T) (X : ndarray T) (rng : nat -> RBM.RunDraws T),
    RBM._input_size r1 = RBM._input_size r2 ->
    RBM._output_size r1 = RBM._output_size r2 ->
    RBM.epochs r1 = RBM.epochs r2 ->
    RBM.learning_rate r1 = RBM.learning_rate r2 ->
    RBM.batchsize r1 = RBM.batchsize r2 ->
    fst (RBM.train r1 X rng) = fst (RBM.train r2 X rng) /\
    (forall printed, fst (RBM.train r1 X rng) = Ok printed ->
       snd (RBM.train r1 X rng) = snd (RBM.train r2 X rng)) /\
    (forall (X' : ndarray T) (rng' : nat -> RBM.RunDraws T),
       fst (RBM.train (snd (RBM.train r1 X rng)) X' rng') = fst (RBM.train r1 X' rng')).
Proof.
  assert (G : forall (a b : RBM.t T) (Z : ndarray T) (g : nat -> RBM.RunDraws T),
            RBM._input_size a = RBM._input_size b ->
            RBM._output_size a = RBM._output_size b ->
            RBM.epochs a = RBM.epochs b ->
            RBM.learning_rate a = RBM.learning_rate b ->
            RBM.batchsize a = RBM.batchsize b ->
            fst (RBM.train a Z g) = fst (RBM.train b Z g) /\
            (forall printed, fst (RBM.train a Z g) = Ok printed ->
               snd (RBM.train a Z g) = snd (RBM.train b Z g))).
  { intros [i o ep lr bsz w1 hb1 vb1] [i' o' ep' lr' bsz' w2 hb2 vb2] Z g.
    cbn [RBM._input_size RBM._output_size RBM.epochs RBM.learning_rate RBM.batchsize].
    intros <- <- <- <- <-. unfold RBM.train.
    change (RBM.init_locals (RBM.mk i o ep lr bsz w1 hb1 vb1))
      with (RBM.init_locals (RBM.mk i o ep lr bsz w2 hb2 vb2)).
    cbn [RBM._input_size RBM._output_size RBM.epochs RBM.learning_rate RBM.batchsize].
    rewrite (epoch_loop_reads i o ep bsz lr w1 w2 hb1 hb2 vb1 vb2 Z g).
    destruct (RBM.epoch_loop _ Z g ep 0 _ []) as [[l printed]|e]; cbn [fst snd].
    - split; auto.
    - split; auto. discriminate. }
  intros r1 r2 X rng H1 H2 H3 H4 H5.
  destruct (G r1 r2 X rng H1 H2 H3 H4 H5) as [A B].
  split; [exact A|]. split; [exact B|].
  intros X' rng'. apply G; unfold RBM.train;
    destruct (RBM.epoch_loop r1 X rng (RBM.epochs r1) 0 (RBM.init_locals r1) [])
      as [[l printed]|e]; reflexivity.
Qed.

(** C6: for an RBM whose parameters have the declared shapes and an input
    of the declared width, [rbm_output] returns the array
    [sigmoid(X w + hb)] of the graph of [train], computed with the stored
    [w] and [hb]: its entry at row [i] and column [j] is the sigmoid of the
    product of row [i] of [X] with column [j] of [w], plus [hb[j]].  The
    result is a function of the object and the input alone, and the object
    is returned as it was. *)
Theorem C6_rbm_output_is_hidden_probability :
  forall (self : RBM.t T) (X : ndarray T),
    shape1 X = RBM._input_size self ->
    is_matrix (RBM._input_size self) (RBM._output_size self) (RBM.w self) = true ->
    is_vector (RBM._output_size self) (RBM.hb self) = true ->
    exists out,
      RBM.rbm_output self X = (Ok out, self) /\
      shape1 out = RBM._output_size self /\
      rows out = RBM.prob_h_given_v self (rows X) (RBM.w self) (RBM.hb self) /\
      len out = len X /\
      forall i j, i < len X -> j < RBM._output_size self ->
        nth j (nth i (rows out) []) zero =
        sigmoid (add (dot (nth i (rows X) []) (column j (RBM.w self)))
                     (nth j (RBM.hb self) zero)).
Proof.
  intros self X HX Hw Hh. unfold RBM.rbm_output.
  rewrite HX, Nat.eqb_refl, Hw, Hh. cbn [andb].
  eexists. split; [reflexivity|]. cbn [shape1 rows].
  split; [reflexivity|]. split; [reflexivity|].
  split.
  { unfold len, mat_sigmoid, add_bias, matmul. cbn [rows]. now rewrite !length_map. }
  intros i j Hi Hj. unfold len in Hi.
  apply is_vector_true in Hh.
  unfold mat_sigmoid, add_bias, matmul.
  rewrite (nth_map_lt _ _ i [] []) by (now rewrite !length_map).
  rewrite (nth_map_lt _ _ i [] []) by (now rewrite length_map).
  rewrite (nth_map_lt _ _ i [] []) by exact Hi.
  rewrite (nth_map_lt _ _ j zero zero).
  2:{ unfold vec_add. rewrite zip_with_length, length_map, length_seq. lia. }
  f_equal. unfold vec_add.
  rewrite (zip_with_nth add _ _ j zero zero zero).
  2:{ rewrite length_map, length_seq. lia. }
  2:{ lia. }
  f_equal.
  rewrite (nth_map_lt _ _ j 0 zero) by (rewrite length_seq; lia).
  now rewrite seq_nth by lia.
Qed.

End RBMTheorems.

(** ** Exact arithmetic: sampling and [sigmoid] *)

Section RealFacts.
Open Scope R_scope.

Lemma Rltb_true (x y : R) : x < y -> Rltb x y = true.
Proof. intro H. unfold Rltb. destruct (Rlt_dec x y); auto; contradiction. Qed.

Lemma Rltb_false (x y : R) : y <= x -> Rltb x y = false.
Proof. intro H. unfold Rltb. destruct (Rlt_dec x y); auto; lra. Qed.

Lemma Rsigmoid_0 : Rsigmoid 0 = 1 / 2.
Proof. unfold Rsigmoid. rewrite Ropp_0, exp_0. lra. Qed.

(** [relu(sign(x))] is the indicator of [0 < x]. *)
Lemma sample_R (x : R) : relu (sign x) = if Rltb 0 x then 1 else 0.
Proof.
  unfold relu, sign. simpl.
  destruct (Rltb 0 x) eqn:E.
  - now rewrite Rltb_true by lra.
  - destruct (Rltb x 0); [rewrite Rltb_false by lra|rewrite Rltb_false by lra]; reflexivity.
Qed.

Lemma sample_R_cases (p u : R) :
  (u < p /\ relu (sign (p - u)) = 1) \/ (p <= u /\ relu (sign (p - u)) = 0).
Proof.
  rewrite sample_R. destruct (Rlt_dec u p).
  - left. split; auto. now rewrite Rltb_true by lra.
  - right. split; [lra|]. now rewrite Rltb_false by lra.
Qed.

End RealFacts.

(** Unfolds the graph of [RBM.train] and the tensor operations on concrete
    arrays, down to the arithmetic of the backend. *)
Ltac unfold_graph :=
  cbv [RBM.update_w RBM.update_hb RBM.update_vb RBM.err RBM.positive_grad RBM.negative_grad
       RBM.h0 RBM.v1 RBM.h1 RBM.sample_prob RBM.prob_h_given_v RBM.prob_v_given_h
       reconstruction_error cd_update feed_of zero_params
       RBM.__init__ slice fst snd rows shape1
       RBM.v0 RBM._w RBM._hb RBM._vb RBM._input_size RBM._output_size RBM.learning_rate
       params_w params_hb params_vb zeros1 zeros2 repeat
       mat_add mat_div mat_scale mat_sub vec_add vec_scale mat_sigmoid add_bias matmul
       transpose column dot reduce_sum reduce_mean reduce_mean0 square
       zip_with map seq nth fold_left mapi mapi_from len length firstn skipn concat app
       Nat.sub Init.Nat.sub Nat.add Init.Nat.add
       const_draws RBM.u_h RBM.u_v
       add sub mul div zero one of_nat sigmoid Numeric_R];
  fold Numeric_R.

(** Normalises the arithmetic left by [unfold_graph] when the parameters are
    zero. *)
Ltac zero_arith :=
  repeat first
    [ rewrite Rplus_0_l | rewrite Rplus_0_r | rewrite Rmult_0_r | rewrite Rmult_0_l
    | rewrite Rmult_1_l | rewrite Rmult_1_r | rewrite Rminus_0_r | rewrite Rsigmoid_0
    | progress cbn [INR] ].

(** Equality of concrete arrays of reals, entry by entry. *)
Ltac arrays_eq :=
  repeat match goal with
         | |- (_, _) = (_, _) => f_equal
         | |- (_ :: _) = (_ :: _) => f_equal
         | |- [] = [] => reflexivity
         | |- _ => lra
         end.

Section ContrastiveDivergence.
Open Scope R_scope.

(** On well-shaped feeds whose three runs draw the same values, the loop
    body is one step of contrastive divergence: every update is computed
    from the same samples [h0], [v1]. *)
Lemma batch_step_same_draws {T : Type} {num : Numeric T}
  (self : RBM.t T) (X : ndarray T) (rng : nat -> RBM.RunDraws T)
  (p : params) (k : nat) (se : nat * nat) (d : RBM.RunDraws T) :
  shape1 X = RBM._input_size self -> params_ok self p ->
  rng k = d -> rng (1 + k)%nat = d -> rng (2 + k)%nat = d ->
  RBM.batch_step self X rng (locals_of p k) se =
  Ok (locals_of
        (RBM.update_w self (feed_of p (slice X (fst se) (snd se))) d,
         RBM.update_hb self (feed_of p (slice X (fst se) (snd se))) d,
         RBM.update_vb self (feed_of p (slice X (fst se) (snd se))) d)
        (3 + k)).
Proof.
  intros HX Hp E0 E1 E2. rewrite batch_step_ok by assumption.
  unfold cd_update. now rewrite E0, E1, E2.
Qed.

(** C1 (the loop body when its runs draw differently): for [RBM(1, 1)] with
    zero parameters and the batch [[1]], when the run that computes the
    weights draws [1/4] for the hidden sample and the run that computes the
    hidden biases draws [3/4], the loop body sets the weight to [1/2] and the
    hidden bias to [-1/2]; no single sample [h0], [v1] of the graph yields
    both, so the three updates are not one step of contrastive divergence. *)
Theorem C1_updates_drawn_in_separate_runs :
  RBM.batch_step ex_rbm ex_ones ex_rng (RBM.init_locals ex_rbm) (0, 1)%nat =
  Ok (locals_of ([[1 / 2]], [- (1 / 2)], [0]) 3) /\
  forall d : RBM.RunDraws R,
    ~ (RBM.update_w ex_rbm (feed_of (zero_params ex_rbm) (slice ex_ones 0 1)) d
       = [[1 / 2]] /\
       RBM.update_hb ex_rbm (feed_of (zero_params ex_rbm) (slice ex_ones 0 1)) d
       = [- (1 / 2)]).
Proof.
  split.
  - change (RBM.init_locals ex_rbm) with (locals_of (zero_params ex_rbm) 0).
    rewrite batch_step_ok; [|reflexivity|apply zero_params_ok].
    do 2 f_equal. unfold ex_rbm, ex_ones, ex_rng. unfold_graph. zero_arith.
    repeat (zero_arith; rewrite ?sample_R;
            rewrite ?(Rltb_true 0 (1 / 2 - 1 / 4)), ?(Rltb_false 0 (1 / 2 - 3 / 4)) by lra).
    arrays_eq.
  - intros [uh uv] [Hw Hh]. revert Hw Hh. unfold ex_rbm, ex_ones. unfold_graph. zero_arith.
    destruct (sample_R_cases (1 / 2) (uh 0%nat 0%nat)) as [[_ ->]|[_ ->]];
      destruct (sample_R_cases (1 / 2) (uv 0%nat 0%nat)) as [[_ ->]|[_ ->]];
      intros Hw Hh; injection Hw as Hw; injection Hh as Hh; lra.
Qed.

End ContrastiveDivergence.

(** ** A zero dataset *)

Section ZeroInput.
Open Scope R_scope.

Lemma zip_with_Forall {A B C : Type} (P : A -> Prop) (Q : B -> Prop) (S : C -> Prop)
  (f : A -> B -> C) (xs : list A) (ys : list B) :
  (forall x y, P x -> Q y -> S (f x y)) ->
  Forall P xs -> Forall Q ys -> Forall S (zip_with f xs ys).
Proof.
  intros Hf Hx; revert ys; induction Hx as [|x xs Px Hxs IH]; intros ys Hy; simpl.
  - constructor.
  - destruct Hy as [|y ys Qy Hys]; constructor; auto.
Qed.

Lemma Forall_trivial {A : Type} (l : list A) : Forall (fun _ => True) l.
Proof. induction l; constructor; auto. Qed.

Lemma mapi_from_Forall_in {A B : Type} (Q : A -> Prop) (P : B -> Prop)
  (f : nat -> A -> B) (i : nat) (l : list A) :
  (forall k x, Q x -> P (f k x)) -> Forall Q l -> Forall P (mapi_from f i l).
Proof.
  intros Hf Hl; revert i; induction Hl as [|x l Qx Hl IH]; intro i; simpl; constructor; auto.
Qed.

Lemma Forall_firstn {A : Type} (P : A -> Prop) (n : nat) (l : list A) :
  Forall P l -> Forall P (firstn n l).
Proof.
  intro H; revert n; induction H as [|x l Px Hl IH]; intros [|n]; simpl; constructor; auto.
Qed.

Lemma Forall_skipn {A : Type} (P : A -> Prop) (n : nat) (l : list A) :
  Forall P l -> Forall P (skipn n l).
Proof.
  intro H; revert n; induction H as [|x l Px Hl IH]; intros [|n]; simpl; auto.
Qed.

Lemma fold_zero (l : list R) (a : R) : vec_zero l -> fold_left Rplus l a = a.
Proof.
  intro H; revert a; induction H as [|x l Hx Hl IH]; intro a; simpl; auto.
  rewrite IH. lra.
Qed.

Lemma reduce_sum_zero (l : list R) : vec_zero l -> reduce_sum l = 0.
Proof. intro H. unfold reduce_sum. simpl. now apply fold_zero. Qed.

Lemma dot_zero_l (x y : Vector R) : vec_zero x -> dot x y = 0.
Proof.
  intro H. unfold dot. apply reduce_sum_zero.
  apply (zip_with_Forall (fun a => a = 0) (fun _ => True)); auto using Forall_trivial.
  intros a b -> _. simpl. lra.
Qed.

Lemma dot_zero_r (x y : Vector R) : vec_zero y -> dot x y = 0.
Proof.
  intro H. unfold dot. apply reduce_sum_zero.
  apply (zip_with_Forall (fun _ => True) (fun a => a = 0)); auto using Forall_trivial.
  intros a b _ ->. simpl. lra.
Qed.

Lemma nth_zero (v : Vector R) (j : nat) : vec_zero v -> nth j v 0 = 0.
Proof.
  intro H; revert j; induction H as [|x l Hx Hl IH]; intros [|j]; simpl; auto.
Qed.

Lemma column_zero (j : nat) (M : Matrix R) : mat_zero M -> vec_zero (column j M).
Proof.
  intro H. unfold column, vec_zero. rewrite Forall_map.
  eapply Forall_impl; [|exact H]. intros r Hr. now apply nth_zero.
Qed.

Lemma transpose_zero (n : nat) (a : Matrix R) : mat_zero a -> mat_zero (transpose n a).
Proof.
  intro H. unfold transpose, mat_zero. rewrite Forall_map.
  apply Forall_forall. intros j _. now apply column_zero.
Qed.

Lemma matmul_zero_l (n : nat) (a b : Matrix R) : mat_zero a -> mat_zero (matmul n a b).
Proof.
  intro H. unfold matmul, mat_zero. rewrite Forall_map.
  eapply Forall_impl; [|exact H]. intros r Hr. unfold vec_zero. rewrite Forall_map.
  apply Forall_forall. intros j _. now apply dot_zero_l.
Qed.

Lemma matmul_zero_r (n : nat) (a b : Matrix R) : mat_zero b -> mat_zero (matmul n a b).
Proof.
  intro H. unfold matmul, mat_zero. rewrite Forall_map.
  apply Forall_forall. intros r _. unfold vec_zero. rewrite Forall_map.
  apply Forall_forall. intros j _. apply dot_zero_r. now apply column_zero.
Qed.

Lemma mat_sub_zero (a b : Matrix R) : mat_zero a -> mat_zero b -> mat_zero (mat_sub a b).
Proof.
  intros Ha Hb. unfold mat_sub. apply (zip_with_Forall vec_zero vec_zero); auto.
  intros x y Hx Hy. apply (zip_with_Forall (fun u => u = 0) (fun u => u = 0)); auto.
  intros u v -> ->. simpl. lra.
Qed.

Lemma map_map_zero (f : R -> R) (a : Matrix R) :
  f 0 = 0 -> mat_zero a -> mat_zero (map (map f) a).
Proof.
  intros Hf Ha. unfold mat_zero. rewrite Forall_map.
  eapply Forall_impl; [|exact Ha]. intros r Hr. unfold vec_zero. rewrite Forall_map.
  eapply Forall_impl; [|exact Hr]. intros x ->. exact Hf.
Qed.

Lemma reduce_mean0_zero (n : nat) (a : Matrix R) : mat_zero a -> vec_zero (reduce_mean0 n a).
Proof.
  intro H. unfold reduce_mean0, vec_zero. rewrite Forall_map.
  apply Forall_forall. intros j _. rewrite reduce_sum_zero by now apply column_zero.
  simpl. unfold Rdiv. lra.
Qed.

Lemma reduce_mean_zero (a : Matrix R) : mat_zero a -> reduce_mean a = 0.
Proof.
  intro H. unfold reduce_mean. rewrite reduce_sum_zero.
  - simpl. unfold Rdiv. lra.
  - unfold vec_zero. now apply Forall_concat.
Qed.

Lemma zeros2_zero (m n : nat) : mat_zero (zeros2 m n).
Proof.
  apply Forall_forall. intros r Hr. apply repeat_spec in Hr. subst.
  apply Forall_forall. intros x Hx. now apply repeat_spec in Hx.
Qed.

Lemma zeros1_zero (n : nat) : vec_zero (zeros1 n).
Proof. apply Forall_forall. intros x Hx. now apply repeat_spec in Hx. Qed.

(** With zero weights and zero visible biases every visible unit has
    probability [sigmoid 0 = 1/2]; a draw of at least [1/2] leaves it off. *)
Lemma v1_zero (self : RBM.t R) (f : RBM.feed_dict R) (d : RBM.RunDraws R) :
  mat_zero (RBM._w f) -> vec_zero (RBM._vb f) ->
  (forall i j, 1 / 2 <= RBM.u_v d i j) ->
  mat_zero (RBM.v1 self f d).
Proof.
  intros Hw Hb Hd. unfold RBM.v1, RBM.sample_prob, mapi.
  apply (mapi_from_Forall_in (Forall (fun p => p = 1 / 2))).
  - intros i r Hr. apply (mapi_from_Forall_in (fun p => p = 1 / 2)); [|exact Hr].
    intros j p ->. simpl. rewrite sample_R. rewrite Rltb_false; auto.
    specialize (Hd i j). lra.
  - unfold RBM.prob_v_given_h, mat_sigmoid, add_bias. rewrite !Forall_map.
    apply Forall_forall. intros r Hr. rewrite Forall_map.
    assert (Hz : vec_zero (vec_add r (RBM._vb f))).
    { unfold vec_add. apply (zip_with_Forall (fun u => u = 0) (fun u => u = 0)); auto.
      - intros u v -> ->. simpl. lra.
      - assert (M : mat_zero (matmul (RBM._input_size self) (RBM.h0 self f d)
                                (transpose (RBM._output_size self) (RBM._w f))))
          by now apply matmul_zero_r, transpose_zero.
        unfold mat_zero in M. rewrite Forall_forall in M. now apply M. }
    eapply Forall_impl; [|exact Hz]. intros x ->. simpl. apply Rsigmoid_0.
Qed.

Lemma update_w_zero (self : RBM.t R) (f : RBM.feed_dict R) (d : RBM.RunDraws R) :
  mat_zero (RBM._w f) -> vec_zero (RBM._vb f) -> mat_zero (rows (RBM.v0 f)) ->
  (forall i j, 1 / 2 <= RBM.u_v d i j) ->
  mat_zero (RBM.update_w self f d).
Proof.
  intros Hw Hb Hv Hd. unfold RBM.update_w, mat_add.
  apply (zip_with_Forall vec_zero vec_zero); auto.
  - intros x y Hx Hy. unfold vec_add.
    apply (zip_with_Forall (fun u => u = 0) (fun u => u = 0)); auto.
    intros u v -> ->. simpl. lra.
  - unfold mat_div, mat_scale, vec_scale.
    apply map_map_zero; [simpl; unfold Rdiv; lra|].
    apply map_map_zero; [simpl; lra|].
    apply mat_sub_zero.
    + unfold RBM.positive_grad. now apply matmul_zero_l, transpose_zero.
    + unfold RBM.negative_grad. apply matmul_zero_l, transpose_zero. now apply v1_zero.
Qed.

Lemma update_vb_zero (self : RBM.t R) (f : RBM.feed_dict R) (d : RBM.RunDraws R) :
  mat_zero (RBM._w f) -> vec_zero (RBM._vb f) -> mat_zero (rows (RBM.v0 f)) ->
  (forall i j, 1 / 2 <= RBM.u_v d i j) ->
  vec_zero (RBM.update_vb self f d).
Proof.
  intros Hw Hb Hv Hd. unfold RBM.update_vb, vec_add.
  apply (zip_with_Forall (fun u => u = 0) (fun u => u = 0)); auto.
  - intros u v -> ->. simpl. lra.
  - unfold vec_scale. change (Forall (fun u => u = 0)) with vec_zero.
    unfold vec_zero. rewrite Forall_map.
    eapply Forall_impl; [|apply reduce_mean0_zero, mat_sub_zero; eauto using v1_zero].
    intros x ->. simpl. lra.
Qed.

Lemma after_batches_zero (self : RBM.t R) (X : ndarray R) (rng : nat -> RBM.RunDraws R) :
  mat_zero (rows X) ->
  (forall k i j, 1 / 2 <= RBM.u_v (rng k) i j) ->
  forall bs k p,
    mat_zero (params_w p) -> vec_zero (params_vb p) ->
    mat_zero (params_w (after_batches self X rng bs k p)) /\
    vec_zero (params_vb (after_batches self X rng bs k p)).
Proof.
  intros HX Hd. induction bs as [|se bs IH]; intros k p Hw Hb; simpl; auto.
  assert (Hs : mat_zero (rows (slice X (fst se) (snd se)))).
  { unfold slice; simpl. now apply Forall_firstn, Forall_skipn. }
  apply IH; unfold cd_update, params_w, params_vb; simpl.
  - apply update_w_zero; auto.
  - apply update_vb_zero; auto.
Qed.

Lemma after_epochs_zero (self : RBM.t R) (X : ndarray R) (rng : nat -> RBM.RunDraws R)
  (bs : list (nat * nat)) :
  mat_zero (rows X) ->
  (forall k i j, 1 / 2 <= RBM.u_v (rng k) i j) ->
  forall e,
    mat_zero (params_w (after_epochs self X rng bs e)) /\
    vec_zero (params_vb (after_epochs self X rng bs e)).
Proof.
  intros HX Hd. induction e as [|e [IHw IHb]]; simpl.
  - split; [apply zeros2_zero|apply zeros1_zero].
  - now apply after_batches_zero.
Qed.

Lemma reconstruction_error_zero (self : RBM.t R) (X : ndarray R) (p : params)
  (d : RBM.RunDraws R) :
  mat_zero (rows X) -> mat_zero (params_w p) -> vec_zero (params_vb p) ->
  (forall i j, 1 / 2 <= RBM.u_v d i j) ->
  reconstruction_error self X p d = 0.
Proof.
  intros HX Hw Hb Hd. unfold reconstruction_error. apply reduce_mean_zero.
  apply map_map_zero; [unfold square; simpl; lra|].
  apply mat_sub_zero; auto. now apply v1_zero.
Qed.

End ZeroInput.

Section ZeroInputTheorems.
Open Scope R_scope.

(** What [train] prints, for any backend: the helper behind the statements
    on concrete datasets. *)
Lemma train_printed {T : Type} {num : Numeric T}
  (self : RBM.t T) (X : ndarray T) (rng : nat -> RBM.RunDraws T) (bs : list (nat * nat)) :
  shape1 X = RBM._input_size self ->
  batches (len X) (RBM.batchsize self) = Ok bs ->
  fst (RBM.train self X rng) =
  Ok (map (fun e =>
             (e, reconstruction_error self X (after_epochs self X rng bs (S e))
                   (rng (error_run bs e))))
          (seq 0 (RBM.epochs self))).
Proof.
  intros HX Hbs. unfold RBM.train.
  change (RBM.init_locals self)
    with (locals_of (after_epochs self X rng bs 0) (0 * runs_per_epoch bs)).
  rewrite (epoch_loop_ok self X rng bs HX Hbs). reflexivity.
Qed.

(** C3 (as the code has it): for a freshly constructed RBM and a dataset of
    zeros, every reconstruction error printed by [train] is 0 provided every
    draw of the visible sample, in every run, is at least [1/2 = sigmoid 0].
    The dataset has at least one example and one feature: TensorFlow's mean
    of an empty array is [nan], which the reals do not model. *)
Theorem C3_zero_input_error_zero_for_high_visible_draws :
  forall (i o n : nat) (rng : nat -> RBM.RunDraws R),
    (0 < i)%nat -> (0 < n)%nat ->
    (forall k a b, 1 / 2 <= RBM.u_v (rng k) a b) ->
    fst (RBM.train (RBM.__init__ i o) (zero_dataset n i) rng) =
    Ok [(0%nat, 0); (1%nat, 0); (2%nat, 0); (3%nat, 0); (4%nat, 0)].
Proof.
  intros i o n rng _ _ Hd.
  destruct (batches_Ok (len (zero_dataset n i)) (RBM.batchsize (RBM.__init__ i o)))
    as [bs Hbs]; [simpl; lia|].
  rewrite (train_printed (RBM.__init__ i o) (zero_dataset n i) rng bs eq_refl Hbs).
  assert (HX : mat_zero (rows (zero_dataset n i))) by apply zeros2_zero.
  assert (E : forall e d, (forall a b, 1 / 2 <= RBM.u_v d a b) ->
            reconstruction_error (RBM.__init__ i o) (zero_dataset n i)
              (after_epochs (RBM.__init__ i o) (zero_dataset n i) rng bs e) d = 0).
  { intros e d Hdd.
    destruct (after_epochs_zero (RBM.__init__ i o) (zero_dataset n i) rng bs HX Hd e).
    now apply reconstruction_error_zero. }
  cbn [RBM.epochs RBM.__init__ seq map].
  rewrite !E by (intros; apply Hd). reflexivity.
Qed.

(** C3 (counterexample): [RBM(1, 1)], freshly constructed, trained on the
    dataset [[0]] when every draw is [1/4]: each visible unit is switched on,
    and the five errors printed are 1. *)
Lemma C3_zero_input_error_can_be_one :
  fst (RBM.train (RBM.__init__ 1 1) (zero_dataset 1 1) (fun _ => const_draws (1 / 4) (1 / 4)))
  = Ok [(0%nat, 1); (1%nat, 1); (2%nat, 1); (3%nat, 1); (4%nat, 1)] /\
  ~ (forall rng : nat -> RBM.RunDraws R,
       exists printed,
         fst (RBM.train (RBM.__init__ 1 1) (zero_dataset 1 1) rng) = Ok printed /\
         Forall (fun line => snd line = 0) printed).
Proof.
  assert (E : fst (RBM.train (RBM.__init__ 1 1) (zero_dataset 1 1)
                     (fun _ => const_draws (1 / 4) (1 / 4)))
              = Ok [(0%nat, 1); (1%nat, 1); (2%nat, 1); (3%nat, 1); (4%nat, 1)]).
  { rewrite (train_printed (RBM.__init__ 1 1) (zero_dataset 1 1) _ [] eq_refl eq_refl).
    cbn [RBM.epochs RBM.__init__ seq map after_epochs after_batches].
    assert (E1 : reconstruction_error (RBM.__init__ 1 1) (zero_dataset 1 1)
                   (zero_params (RBM.__init__ 1 1)) (const_draws (1 / 4) (1 / 4)) = 1).
    { unfold zero_dataset. unfold_graph. zero_arith.
      rewrite !sample_R. rewrite !(Rltb_true 0 (1 / 2 - 1 / 4)) by lra. lra. }
    unfold error_run, runs_per_epoch. cbn [length Nat.mul Nat.add].
    now rewrite !E1. }
  split; [exact E|].
  intro H. destruct (H (fun _ => const_draws (1 / 4) (1 / 4))) as (printed & Hp & Hz).
  rewrite E in Hp. injection Hp as <-.
  inversion Hz as [|x l Hx _]; subst. simpl in Hx. lra.
Qed.

End ZeroInputTheorems.

(** ** [NN.__init__] *)

Section NNInit.
Context {T : Type} {num : Numeric T} {f32 : Float32 T}.

Lemma uniform_entries (low high : T) (m n : nat) (u : Draws T) (row : Vector T) (x : T) :
  In row (uniform low high m n u) -> In x row ->
  exists i j, x = uniform_value low high (u i j).
Proof.
  unfold uniform. intros Hr Hx.
  apply in_map_iff in Hr as (i & <- & _).
  apply in_map_iff in Hx as (j & <- & _). eauto.
Qed.

Lemma cast_entries (M : Matrix T) (row : Vector T) (x : T) :
  In row (map (map astype_float32) M) -> In x row ->
  exists row' x', In row' M /\ In x' row' /\ x = astype_float32 x'.
Proof.
  intros Hr Hx.
  apply in_map_iff in Hr as (row' & <- & Hr).
  apply in_map_iff in Hx as (x' & <- & Hx). eauto.
Qed.

(** The initialization loop, layer by layer. *)
Lemma init_loop_spec (u : nat -> Draws T) :
  forall sizes layer input wl bl,
    positive_sums input sizes ->
    exists ws bs,
      NN.init_loop sizes layer input u wl bl = Ok (wl ++ ws, bl ++ bs) /\
      length ws = length sizes /\
      length bs = length sizes /\
      forall k, k < length sizes ->
        nth k ws [] =
        map (map astype_float32)
          (uniform (neg (NN.max_range (nth k (input :: sizes) 0) (nth k sizes 0)))
             (NN.max_range (nth k (input :: sizes) 0) (nth k sizes 0))
             (nth k (input :: sizes) 0) (nth k sizes 0) (u (layer + k))) /\
        nth k bs [] = zeros1 (nth k sizes 0).
Proof.
  induction sizes as [|size sizes IH]; intros layer input wl bl Hpos.
  - exists [], []. cbn [NN.init_loop length]. rewrite !app_nil_r.
    split; [reflexivity|]. split; [reflexivity|]. split; [reflexivity|]. intros; lia.
  - destruct Hpos as [Hne Hpos]. cbn [NN.init_loop].
    destruct (Nat.eqb_spec (input + size) 0) as [E|_]; [contradiction|].
    destruct (IH (S layer) size
                (wl ++ [map (map astype_float32)
                          (uniform (neg (NN.max_range input size)) (NN.max_range input size)
                             input size (u layer))])
                (bl ++ [zeros1 size]) Hpos)
      as (ws & bs & E & Lw & Lb & N).
    eexists (_ :: ws), (_ :: bs). rewrite E, <- !app_assoc. cbn [app].
    split; [reflexivity|]. cbn [length]. split; [lia|]. split; [lia|].
    intros [|k] Hk.
    + cbn [nth]. rewrite Nat.add_0_r. auto.
    + destruct (N k ltac:(lia)) as [A B]. cbn [nth] in *.
      replace (layer + S k) with (S layer + k) by lia. auto.
Qed.

End NNInit.

Section NNInitReal.
Open Scope R_scope.

Lemma max_range_nonneg (a b : nat) : 0 <= NN.max_range a b.
Proof.
  unfold NN.max_range. cbn [mul of_nat sqrt Numeric_R]. apply Rmult_le_pos.
  - apply pos_INR.
  - apply sqrt_pos.
Qed.

Lemma uniform_value_bounds (r u : R) :
  0 <= r -> 0 <= u < 1 -> - r <= uniform_value (- r) r u <= r.
Proof. intros Hr Hu. unfold uniform_value. simpl. nra. Qed.

(** C8 (as the code has it): for a cast to float32 that keeps the order,
    when no layer has fan-in and fan-out both zero and every draw lies in
    [0, 1), [NN.__init__] returns a classifier with one weight matrix and
    one bias vector per layer; for the layer of fan-in [n_in] and fan-out
    [n_out], with [r = 4 * sqrt(6 / (n_in + n_out))], every weight is the
    float32 of the uniform value [-r + 2 r u] of one of the layer's draws
    and lies between the float32 of [-r] and the float32 of [r], and every
    bias is 0, not drawn, which lies in [-r, r]. *)
Theorem C8_init_weights_uniform_biases_zero :
  forall (f32 : Float32 R) (sizes : list nat) (X Y : ndarray R) (u : nat -> Draws R),
    monotone_cast f32 ->
    positive_sums (shape1 X) (sizes ++ [shape1 Y]) ->
    (forall l i j, 0 <= u l i j < 1) ->
    exists nn,
      NN.__init__ sizes X Y u = Ok nn /\
      length (NN.w_list nn) = S (length sizes) /\
      length (NN.b_list nn) = S (length sizes) /\
      forall k, (k <= length sizes)%nat ->
        let n_in := nth k (layer_dims sizes X Y) 0%nat in
        let n_out := nth (S k) (layer_dims sizes X Y) 0%nat in
        let r := NN.max_range n_in n_out in
        (forall row x, In row (nth k (NN.w_list nn) []) -> In x row ->
           drawn_uniformly f32 r (u k) x /\
           astype_float32 (- r) <= x <= astype_float32 r) /\
        (forall x, In x (nth k (NN.b_list nn) []) -> x = 0 /\ - r <= x <= r).
Proof.
  intros f32 sizes X Y u Hmono Hpos Hu. unfold NN.__init__.
  destruct (init_loop_spec u (sizes ++ [shape1 Y]) 0 (shape1 X) [] [] Hpos)
    as (ws & bs & E & Lw & Lb & N).
  rewrite E. cbn [bind app fst snd]. eexists. split; [reflexivity|].
  cbn [NN.w_list NN.b_list]. rewrite length_app in Lw, Lb. cbn [length] in Lw, Lb.
  split; [lia|]. split; [lia|].
  intros k Hk. unfold layer_dims.
  destruct (N k) as [A B]; [rewrite length_app; simpl; lia|].
  cbn [nth]. cbv zeta. rewrite A, B. split.
  - intros row x Hrow Hx.
    destruct (cast_entries _ _ _ Hrow Hx) as (row' & x' & Hrow' & Hx' & ->).
    destruct (uniform_entries _ _ _ _ _ _ _ Hrow' Hx') as (i & j & ->).
    rewrite Nat.add_0_l. split.
    + exists i, j. reflexivity.
    + set (r := NN.max_range _ _).
      assert (Hb : - r <= uniform_value (- r) r (u k i j) <= r)
        by (apply uniform_value_bounds; [apply max_range_nonneg|apply Hu]).
      split; apply Hmono; apply Hb.
  - intros x Hx. apply repeat_spec in Hx. subst x. split; [reflexivity|].
    set (r := NN.max_range _ _).
    assert (Hr : 0 <= r) by apply max_range_nonneg.
    cbn [zero Numeric_R]. lra.
Qed.

(** C8 (counterexample): a classifier without hidden layer, five features
    and one class, every draw [3/4].  Here [r = 4] and the uniform value of
    each draw is [2], numbers that float32 holds, so that the cast changes
    nothing: every weight is 2, while the bias is 0, which is not the value
    of a draw. *)
Lemma C8_bias_is_not_drawn :
  exists nn,
    NN.__init__ (f32 := exact_cast) [] ex_five ex_ones (fun _ _ _ => 3 / 4) = Ok nn /\
    NN.max_range 5 1 = 4 /\
    NN.w_list nn = [[[2]; [2]; [2]; [2]; [2]]] /\
    NN.b_list nn = [[0]] /\
    ~ (forall x, In x (nth 0 (NN.b_list nn) []) ->
         drawn_uniformly exact_cast (NN.max_range 5 1) (fun _ _ => 3 / 4) x).
Proof.
  assert (Hr : NN.max_range 5 1 = 4).
  { unfold NN.max_range. simpl.
    replace ((1 + 1 + 1 + 1 + 1 + 1) / (1 + 1 + 1 + 1 + 1 + 1)) with 1 by (field; lra).
    rewrite sqrt_1. lra. }
  eexists. split; [reflexivity|]. split; [exact Hr|]. split.
  - cbn [NN.w_list fst snd app]. unfold uniform, uniform_value.
    cbn [map seq astype_float32 exact_cast shape1 ex_five ex_ones].
    change (neg (NN.max_range 5 1)) with (- NN.max_range 5 1).
    rewrite Hr. cbn [add sub mul Numeric_R].
    replace (- (4) + (4 - - (4)) * (3 / 4)) with 2 by lra. reflexivity.
  - split; [reflexivity|].
    cbn [NN.b_list nth]. intro H.
    destruct (H 0 (or_introl eq_refl)) as (i & j & E).
    rewrite Hr in E. unfold uniform_value in E. simpl in E. lra.
Qed.

End NNInitReal.

(** ** [NN.train] *)

Section NNTrain.
Context {T : Type} {num : Numeric T} {opt : MomentumOptimizer T}.

Lemma forward_length (ws : list (Matrix T)) :
  forall (bs : list (Vector T)) (a : Matrix T), length (NN.forward a ws bs) = length a.
Proof.
  induction ws as [|w ws IH]; intros [|b bs] a; simpl; auto.
  rewrite IH. unfold mat_sigmoid, add_bias, matmul. now rewrite !length_map.
Qed.

Lemma zip_with_map_seq {A B C : Type} (f : A -> B -> C) (da : A) (db : B) :
  forall (xs : list A) (ys : list B),
    length xs = length ys ->
    zip_with f xs ys = map (fun i => f (nth i xs da) (nth i ys db)) (seq 0 (length xs)).
Proof.
  induction xs as [|x xs IH]; intros [|y ys] HL; simpl in *; try lia; auto.
  f_equal. rewrite <- seq_shift, map_map. apply IH. lia.
Qed.

Lemma count_true_map {A : Type} (f : A -> bool) (l : list A) :
  NN.count_true (map f l) = length (filter f l).
Proof.
  unfold NN.count_true. induction l as [|x l IH]; simpl; auto.
  destruct (f x); simpl; auto.
Qed.

(** The printed accuracy is the fraction of correctly classified examples. *)
Lemma accuracy_fraction (self : NN.t T) (s : NN.session) :
  len (NN._Y self) = len (NN._X self) -> 0 < len (NN._X self) ->
  NN.accuracy self s = Some (fraction_correct self s).
Proof.
  intros HY HX. unfold NN.accuracy, NN.predict_op, fraction_correct, len in *.
  rewrite (zip_with_map_seq Nat.eqb 0 0).
  2:{ rewrite !length_map, forward_length. exact HY. }
  rewrite length_map, HY.
  assert (E : map (fun i =>
                     nth i (map argmax (rows (NN._Y self))) 0 =?
                     nth i (map argmax
                              (NN.forward (rows (NN._X self)) (NN.var_w s) (NN.var_b s))) 0)
                  (seq 0 (length (rows (NN._X self)))) =
              map (correct self s) (seq 0 (length (rows (NN._X self))))).
  { apply map_ext_in. intros i Hi. apply in_seq in Hi. unfold correct.
    rewrite (nth_map_lt argmax _ i [] 0) by lia.
    rewrite (nth_map_lt argmax _ i [] 0) by (rewrite forward_length; lia).
    apply Nat.eqb_sym. }
  rewrite E. unfold NN.np_mean.
  destruct (map (correct self s) (seq 0 (length (rows (NN._X self))))) eqn:El.
  - apply (f_equal (@length bool)) in El. rewrite length_map, length_seq in El.
    simpl in El. lia.
  - rewrite <- El, count_true_map, length_map, length_seq. reflexivity.
Qed.

Lemma fraction_correct_bounds (self : NN.t T) (s : NN.session) :
  0 < len (NN._X self) ->
  (0 <= fraction_correct self s /\ fraction_correct self s <= 1)%Q.
Proof.
  intro HX. unfold fraction_correct, Qle. cbn [Qnum Qden].
  set (c := length (filter (correct self s) (seq 0 (len (NN._X self))))).
  assert (Hc : c <= len (NN._X self)).
  { unfold c. etransitivity; [apply filter_length_le|]. now rewrite length_seq. }
  assert (Hp : Z.pos (Pos.of_nat (len (NN._X self))) = Z.of_nat (len (NN._X self))).
  { rewrite <- positive_nat_Z, Nat2Pos.id by lia. reflexivity. }
  rewrite Hp. lia.
Qed.

(** Writing the variables back changes [w_list] and [b_list] only. *)
Lemma retrieve_fields (s : NN.session) :
  forall idx (self : NN.t T),
    exists wl bl, NN.retrieve self s idx = NN.set_lists self wl bl.
Proof.
  induction idx as [|j idx IH]; intro self; cbn [NN.retrieve].
  - exists (NN.w_list self), (NN.b_list self). now destruct self.
  - destruct (IH (NN.set_lists self
                    (NN.store (NN.w_list self) j (nth j (NN.var_w s) []))
                    (NN.store (NN.b_list self) j (nth j (NN.var_b s) []))))
      as (wl & bl & ->).
    exists wl, bl. reflexivity.
Qed.

(** The epochs [e], [e + 1], ...: the session and the printed lines do not
    depend on the lists written back. *)
Lemma nn_epoch_loop_ok (self : NN.t T) (bs : list (nat * nat)) :
  batches (len (NN._X self)) (NN._batchsize self) = Ok bs ->
  forall todo e wl bl printed,
    exists self',
      NN.epoch_loop (NN.set_lists self wl bl) todo e (session_after self bs e) printed =
      (Ok (printed ++
           map (fun i => (i, NN.accuracy self (session_after self bs (S i)))) (seq e todo)),
       self').
Proof.
  intro Hbs. induction todo as [|todo IH]; intros e wl bl printed.
  - eexists. cbn [NN.epoch_loop seq map]. now rewrite app_nil_r.
  - cbn [NN.epoch_loop]. cbn [NN._X NN._batchsize NN.set_lists NN._sizes]. rewrite Hbs.
    change (NN.batch_loop (NN.set_lists self wl bl) bs (session_after self bs e))
      with (session_after self bs (S e)).
    destruct (retrieve_fields (session_after self bs (S e))
                (seq 0 (S (length (NN._sizes self)))) (NN.set_lists self wl bl))
      as (wl' & bl' & E).
    cbv zeta. rewrite E.
    change (NN.set_lists (NN.set_lists self wl bl) wl' bl') with (NN.set_lists self wl' bl').
    change (NN.accuracy (NN.set_lists self wl' bl') (session_after self bs (S e)))
      with (NN.accuracy self (session_after self bs (S e))).
    destruct (IH (S e) wl' bl'
                (printed ++ [(e, NN.accuracy self (session_after self bs (S e)))]))
      as (self' & ->).
    exists self'. cbn [seq map]. now rewrite <- app_assoc.
Qed.

(** C7: for a classifier whose graph can be built, with a positive batch
    size and a non-empty training set of as many labels as examples,
    [NN.train] returns after printing one accuracy per epoch, in the order of
    the epochs; the accuracy of epoch [e] is the fraction of the examples of
    the whole training set whose arg-max predicted class, computed with the
    variables as the training runs of epochs [0..e] left them, is the arg-max
    of their label, and it lies between 0 and 1. *)
Theorem C7_accuracy_is_fraction_of_correct_examples :
  forall (self : NN.t T),
    NN.graph_ok self = Ok tt ->
    0 < NN._batchsize self ->
    len (NN._Y self) = len (NN._X self) ->
    0 < len (NN._X self) ->
    exists bs self',
      batches (len (NN._X self)) (NN._batchsize self) = Ok bs /\
      NN.train self =
      (Ok (map (fun e => (e, Some (fraction_correct self (session_after self bs (S e)))))
               (seq 0 (NN._epoches self))),
       self') /\
      forall e,
        (0 <= fraction_correct self (session_after self bs (S e)) /\
         fraction_correct self (session_after self bs (S e)) <= 1)%Q.
Proof.
  intros self Hg Hb HY HX.
  destruct (batches_Ok (len (NN._X self)) (NN._batchsize self) Hb) as [bs Hbs].
  destruct (nn_epoch_loop_ok self bs Hbs (NN._epoches self) 0
              (NN.w_list self) (NN.b_list self) []) as (self' & E).
  exists bs, self'. split; [exact Hbs|]. split.
  - unfold NN.train. rewrite Hg.
    replace (NN.set_lists self (NN.w_list self) (NN.b_list self)) with self in E
      by now destruct self.
    cbn [session_after] in E. rewrite E. cbn [app]. f_equal. f_equal.
    apply map_ext. intro e. now rewrite accuracy_fraction.
  - intro e. now apply fraction_correct_bounds.
Qed.

End NNTrain.

(** ** [RBM]: invariants of training *)

Section RBMInvariants.
Context {T : Type} {num : Numeric T}.

Lemma init_shapes (i o : nat) :
  params_ok (RBM.__init__ i o) (rbm_params (RBM.__init__ i o)).
Proof. apply (zero_params_ok (RBM.__init__ i o)). Qed.

Lemma batch_step_shapes (self : RBM.t T) (X : ndarray T) (rng : nat -> RBM.RunDraws T)
  (l l' : RBM.locals T) (se : nat * nat) :
  params_ok self (prv_params l) ->
  RBM.batch_step self X rng l se = Ok l' ->
  params_ok self (prv_params l').
Proof.
  intros (Hw & Hh & Hv) H. unfold RBM.batch_step, RBM.sess_run in H.
  destruct (RBM.feed_ok self _); cbn [bind] in H; [|discriminate].
  injection H as <-.
  unfold params_ok, prv_params, params_w, params_hb, params_vb in *.
  cbn [fst snd RBM.prv_w RBM.prv_hb RBM.prv_vb] in *.
  repeat split;
    [apply update_w_shape | apply update_hb_shape | apply update_vb_shape]; assumption.
Qed.

Lemma batch_loop_shapes (self : RBM.t T) (X : ndarray T) (rng : nat -> RBM.RunDraws T) :
  forall bs l l',
    params_ok self (prv_params l) ->
    RBM.batch_loop self X rng bs l = Ok l' ->
    params_ok self (prv_params l').
Proof.
  induction bs as [|se bs IH]; intros l l' Hl H; cbn [RBM.batch_loop] in H.
  - now injection H as <-.
  - destruct (RBM.batch_step self X rng l se) as [l1|] eqn:E; cbn [bind] in H;
      [|discriminate].
    apply (IH l1 l'); auto. eapply batch_step_shapes; eauto.
Qed.

Lemma epoch_loop_shapes (self : RBM.t T) (X : ndarray T) (rng : nat -> RBM.RunDraws T) :
  forall todo e l printed l' printed',
    params_ok self (prv_params l) ->
    RBM.epoch_loop self X rng todo e l printed = Ok (l', printed') ->
    params_ok self (prv_params l').
Proof.
  induction todo as [|todo IH]; intros e l printed l' printed' Hl H;
    cbn [RBM.epoch_loop] in H.
  - now injection H as <- _.
  - destruct (batches (len X) (RBM.batchsize self)) as [bs|]; cbn [bind] in H;
      [|discriminate].
    destruct (RBM.batch_loop self X rng bs l) as [l1|] eqn:E1; cbn [bind] in H;
      [|discriminate].
    destruct (RBM.epoch_error self X rng l1); cbn [bind] in H; [|discriminate].
    apply IH in H; auto.
    apply batch_loop_shapes in E1; auto.
Qed.

(** X4: the parameters of an RBM have the declared shapes after [train],
    whether it returns or raises, when they had them before. *)
Lemma train_shapes (self : RBM.t T) (X : ndarray T) (rng : nat -> RBM.RunDraws T) :
  params_ok self (rbm_params self) ->
  params_ok (snd (RBM.train self X rng)) (rbm_params (snd (RBM.train self X rng))).
Proof.
  intro H. unfold RBM.train.
  destruct (RBM.epoch_loop self X rng (RBM.epochs self) 0 (RBM.init_locals self) [])
    as [[l printed]|e] eqn:E; cbn [snd]; auto.
  apply epoch_loop_shapes in E.
  - exact E.
  - apply (zero_params_ok self).
Qed.

Lemma after_batches_ext (self : RBM.t T) (X X' : ndarray T) (rng : nat -> RBM.RunDraws T) :
  forall bs k p,
    (forall s e, In (s, e) bs -> slice X s e = slice X' s e) ->
    after_batches self X rng bs k p = after_batches self X' rng bs k p.
Proof.
  induction bs as [|[s e] bs IH]; intros k p H; cbn [after_batches]; auto.
  cbn [fst snd]. rewrite (H s e) by now left.
  apply IH. intros s' e' Hin. apply H. now right.
Qed.

(** X3: on datasets of the declared width and with a positive batch size,
    the parameters [train] leaves do not depend on the last example. *)
Lemma trained_parameters_ignore_last_example
  (self : RBM.t T) (X : ndarray T) (x x' : Vector T) (rng : nat -> RBM.RunDraws T) :
  shape1 X = RBM._input_size self -> 0 < RBM.batchsize self ->
  rbm_params (snd (RBM.train self (push X x) rng)) =
  rbm_params (snd (RBM.train self (push X x') rng)).
Proof.
  intros HX Hb.
  destruct (batches_Ok (len (push X x)) (RBM.batchsize self) Hb) as [bs Hbs].
  assert (Hbs' : batches (len (push X x')) (RBM.batchsize self) = Ok bs).
  { rewrite <- Hbs. unfold len, push; cbn [rows]. now rewrite !length_app. }
  assert (G : forall Z, shape1 Z = RBM._input_size self ->
            batches (len Z) (RBM.batchsize self) = Ok bs ->
            rbm_params (snd (RBM.train self Z rng)) =
            after_epochs self Z rng bs (RBM.epochs self)).
  { intros Z HZ HbZ. unfold RBM.train.
    change (RBM.init_locals self)
      with (locals_of (after_epochs self Z rng bs 0) (0 * runs_per_epoch bs)).
    rewrite (epoch_loop_ok self Z rng bs HZ HbZ). cbn [snd Nat.add].
    unfold rbm_params, locals_of, params_w, params_hb, params_vb. cbn.
    now destruct (after_epochs self Z rng bs (RBM.epochs self)) as [[a b] c]. }
  rewrite (G (push X x)), (G (push X x')) by assumption.
  generalize (RBM.epochs self). induction n as [|n IH]; cbn [after_epochs]; auto.
  rewrite IH. apply after_batches_ext. intros s e Hin.
  destruct (batches_In _ _ _ _ _ Hbs Hin) as [_ Hlt].
  unfold slice, push; cbn [shape1 rows]. f_equal.
  unfold len, push in Hlt; cbn [rows] in Hlt.
  rewrite (firstn_skipn_removelast (rows X ++ [x])) by exact Hlt.
  rewrite (firstn_skipn_removelast (rows X ++ [x'])).
  - now rewrite !removelast_last.
  - rewrite length_app in *. exact Hlt.
Qed.

End RBMInvariants.

(** ** The statements at concrete inputs *)

Section Instances.
Open Scope R_scope.

(** C2 (counterexample): the size list [[1]] agrees with the classifier,
    the only unit supplied has 3 inputs and 5 outputs, and the call returns:
    the first hidden layer now holds a 3 by 5 matrix. *)
Lemma C2_unit_sizes_are_not_checked :
  map RBM._output_size [RBM.__init__ 3 5 : RBM.t R] <> [1%nat] /\
  NN.load_from_rbms ex_nn [1%nat] [RBM.__init__ 3 5] =
  (Ok tt, NN.set_lists ex_nn [zeros2 3 5; [[1]]] [zeros1 5; [1]]) /\
  ~ (map RBM._output_size [RBM.__init__ 3 5 : RBM.t R] <> [1%nat] ->
     fst (NN.load_from_rbms ex_nn [1%nat] [RBM.__init__ 3 5]) = Raise AssertionError).
Proof.
  split; [discriminate|]. split; [reflexivity|].
  intro H. specialize (H ltac:(discriminate)). discriminate H.
Qed.

Lemma C2_witness :
  NN.load_from_rbms ex_nn [2%nat] [ex_rbm] = (Raise AssertionError, ex_nn) /\
  exists wl bl,
    NN.load_from_rbms ex_nn [1%nat] [ex_rbm] = (Ok tt, NN.set_lists ex_nn wl bl) /\
    nth_error wl 0 = Some (RBM.w ex_rbm) /\ nth_error bl 0 = Some (RBM.hb ex_rbm).
Proof.
  destruct (C2_load_from_rbms_checks_size_lists R ex_nn [2%nat] [ex_rbm]) as [Hne _].
  destruct (C2_load_from_rbms_checks_size_lists R ex_nn [1%nat] [ex_rbm]) as [_ Heq].
  split.
  - apply Hne. discriminate.
  - destruct (Heq eq_refl) as (wl & bl & E & H); [vm_compute; lia ..|].
    exists wl, bl. split; [exact E|].
    destruct (H 0%nat) as (r & Er & Hw & Hb); [vm_compute; lia|].
    injection Er as <-. auto.
Defined.

Lemma C5_witness :
  NN.load_from_rbms ex_nn [1%nat] [ex_rbm] =
  (Ok tt, NN.set_lists ex_nn [[[0]]; [[1]]] [[0]; [1]]) /\
  nth_error (NN.w_list (NN.set_lists ex_nn [[[0]]; [[1]]] [[0]; [1]])) 1 =
  nth_error (NN.w_list ex_nn) 1 /\
  nth_error (NN.b_list (NN.set_lists ex_nn [[[0]]; [[1]]] [[0]; [1]])) 1 =
  nth_error (NN.b_list ex_nn) 1.
Proof.
  split; [reflexivity|].
  destruct (C5_load_from_rbms_frame R ex_nn
              (NN.set_lists ex_nn [[[0]]; [[1]]] [[0]; [1]]) [1%nat] [ex_rbm] eq_refl)
    as (_ & _ & _ & H & _).
  apply (H 1%nat). vm_compute. lia.
Defined.

Lemma C9_witness :
  (1 <= len ex_ones)%nat /\ (0 < RBM.batchsize ex_rbm)%nat /\
  (1 <= len (NN._X ex_nn))%nat /\ (0 < NN._batchsize ex_nn)%nat /\
  batches (len ex_ones) (RBM.batchsize ex_rbm) = Ok [] /\
  batches (len (NN._X ex_nn)) (NN._batchsize ex_nn) = Ok [].
Proof.
  assert (H1 : (1 <= len ex_ones)%nat) by (vm_compute; lia).
  assert (H2 : (0 < RBM.batchsize ex_rbm)%nat) by (vm_compute; lia).
  assert (H3 : (1 <= len (NN._X ex_nn))%nat) by (vm_compute; lia).
  assert (H4 : (0 < NN._batchsize ex_nn)%nat) by (vm_compute; lia).
  destruct (C9_batches_skip_last_example R ex_rbm ex_ones ex_nn H1 H2 H3 H4)
    as [(bs & E & _ & _ & Hs) (bs' & E' & _ & _ & Hs')].
  split; [exact H1|]. split; [exact H2|]. split; [exact H3|]. split; [exact H4|]. split.
  - rewrite E. f_equal. apply Hs. vm_compute. lia.
  - rewrite E'. f_equal. apply Hs'. vm_compute. lia.
Defined.

Lemma C4_witness :
  shape1 ex_ones = RBM._input_size ex_rbm /\ (0 < RBM.batchsize ex_rbm)%nat /\
  exists bs,
    batches (len ex_ones) (RBM.batchsize ex_rbm) = Ok bs /\
    fst (RBM.train ex_rbm ex_ones ex_rng) =
    Ok (map (fun e =>
               (e, reconstruction_error ex_rbm ex_ones
                     (after_epochs ex_rbm ex_ones ex_rng bs (S e))
                     (ex_rng (error_run bs e))))
            (seq 0 (RBM.epochs ex_rbm))).
Proof.
  assert (H1 : shape1 ex_ones = RBM._input_size ex_rbm) by reflexivity.
  assert (H2 : (0 < RBM.batchsize ex_rbm)%nat) by (vm_compute; lia).
  destruct (C4_one_reconstruction_error_per_epoch ex_rbm ex_ones ex_rng H1 H2)
    as (bs & E & P & _).
  split; [exact H1|]. split; [exact H2|]. exists bs. split; [exact E|exact P].
Defined.

Lemma C10_witness :
  RBM.w ex_rbm_ones <> RBM.w ex_rbm /\
  fst (RBM.train ex_rbm_ones ex_ones ex_rng) = fst (RBM.train ex_rbm ex_ones ex_rng).
Proof.
  split.
  - simpl. intro H. injection H as H. lra.
  - apply (C10_train_ignores_current_parameters ex_rbm_ones ex_rbm ex_ones ex_rng);
      reflexivity.
Defined.

Lemma C6_witness :
  shape1 ex_ones = RBM._input_size ex_rbm /\
  exists out,
    RBM.rbm_output ex_rbm ex_ones = (Ok out, ex_rbm) /\
    rows out = RBM.prob_h_given_v ex_rbm (rows ex_ones) (RBM.w ex_rbm) (RBM.hb ex_rbm).
Proof.
  split; [reflexivity|].
  destruct (C6_rbm_output_is_hidden_probability ex_rbm ex_ones eq_refl eq_refl eq_refl)
    as (out & E & _ & Hr & _).
  exists out. split; [exact E|exact Hr].
Defined.

Lemma C3_witness :
  (forall k a b : nat, 1 / 2 <= RBM.u_v (const_draws (3 / 4) (3 / 4)) a b) /\
  fst (RBM.train (RBM.__init__ 1 1) (zero_dataset 1 1) (fun _ => const_draws (3 / 4) (3 / 4)))
  = Ok [(0%nat, 0); (1%nat, 0); (2%nat, 0); (3%nat, 0); (4%nat, 0)].
Proof.
  assert (H : forall k a b : nat, 1 / 2 <= RBM.u_v (const_draws (3 / 4) (3 / 4)) a b)
    by (intros; simpl; lra).
  split; [exact H|].
  apply (C3_zero_input_error_zero_for_high_visible_draws 1 1 1
           (fun _ => const_draws (3 / 4) (3 / 4))); [lia|lia|exact H].
Defined.

Lemma C8_witness :
  monotone_cast exact_cast /\
  positive_sums (shape1 ex_five) ([1%nat] ++ [shape1 ex_five]) /\
  exists nn,
    NN.__init__ (f32 := exact_cast) [1%nat] ex_five ex_five (fun _ _ _ => 3 / 4) = Ok nn /\
    length (NN.w_list nn) = 2%nat /\ length (NN.b_list nn) = 2%nat /\
    (forall row x, In row (nth 0 (NN.w_list nn) []) -> In x row ->
       @astype_float32 R exact_cast (- NN.max_range 5 1) <= x <=
       @astype_float32 R exact_cast (NN.max_range 5 1)) /\
    (forall x, In x (nth 0 (NN.b_list nn) []) -> x = 0).
Proof.
  assert (Hm : monotone_cast exact_cast) by (intros x y Hxy; exact Hxy).
  assert (H : positive_sums (shape1 ex_five) ([1%nat] ++ [shape1 ex_five]))
    by (simpl; repeat split; lia).
  split; [exact Hm|]. split; [exact H|].
  destruct (C8_init_weights_uniform_biases_zero exact_cast [1%nat] ex_five ex_five
              (fun _ _ _ => 3 / 4) Hm H)
    as (nn & E & Lw & Lb & Hk); [intros; lra|].
  exists nn. split; [exact E|]. split; [exact Lw|]. split; [exact Lb|].
  specialize (Hk 0%nat (Nat.le_0_l _)). cbv zeta in Hk.
  unfold layer_dims in Hk. cbn [nth app shape1 ex_five] in Hk.
  destruct Hk as [Hw Hb]. split.
  - intros row x Hrow Hx. apply (Hw row x Hrow Hx).
  - intros x Hx. apply (Hb x Hx).
Defined.

Lemma C7_witness :
  NN.graph_ok ex_nn = Ok tt /\
  exists bs self',
    batches (len (NN._X ex_nn)) (NN._batchsize ex_nn) = Ok bs /\
    NN.train (opt := frozen_optimizer R) ex_nn =
    (Ok (map (fun e =>
                (e, Some (fraction_correct (opt := frozen_optimizer R) ex_nn
                            (session_after ex_nn bs (S e)))))
             (seq 0 (NN._epoches ex_nn))),
     self').
Proof.
  split; [reflexivity|].
  destruct (C7_accuracy_is_fraction_of_correct_examples (opt := frozen_optimizer R)
              ex_nn eq_refl) as (bs & self' & E & P & _);
    [vm_compute; lia|reflexivity|vm_compute; lia|].
  exists bs, self'. split; [exact E|exact P].
Defined.

End Instances.

(** * Further properties of the notebook *)

(** ** [RBM.train]: errors and small datasets *)

Section RBMEdge.
Context {T : Type} {num : Numeric T}.

Lemma feed_ok_wrong_width (self : RBM.t T) (f : RBM.feed_dict T) :
  shape1 (RBM.v0 f) <> RBM._input_size self -> RBM.feed_ok self f = false.
Proof.
  intro H. unfold RBM.feed_ok.
  destruct (Nat.eqb_spec (shape1 (RBM.v0 f)) (RBM._input_size self)); [contradiction|].
  reflexivity.
Qed.

(** X1: with at least one epoch to run, [train] on a dataset whose width is
    not the declared input size raises [ValueError] at its first session run:
    nothing is printed and the object keeps the parameters it had. *)
Theorem X1_train_rejects_wrong_width :
  forall (self : RBM.t T) (X : ndarray T) (rng : nat -> RBM.RunDraws T),
    shape1 X <> RBM._input_size self ->
    0 < RBM.epochs self ->
    RBM.train self X rng = (Raise ValueError, self).
Proof.
  intros self X rng HX He. unfold RBM.train.
  destruct (RBM.epochs self) as [|todo]; [lia|]. cbn [RBM.epoch_loop].
  unfold batches. destruct (RBM.batchsize self =? 0); cbn [bind]; [reflexivity|].
  destruct (combine _ _) as [|se bs]; cbn [RBM.batch_loop bind].
  - unfold RBM.epoch_error, RBM.sess_run.
    rewrite feed_ok_wrong_width by exact HX. reflexivity.
  - unfold RBM.batch_step, RBM.sess_run.
    rewrite feed_ok_wrong_width by exact HX. reflexivity.
Qed.

Lemma after_epochs_no_batches (self : RBM.t T) (X : ndarray T) (rng : nat -> RBM.RunDraws T)
  (e : nat) : after_epochs self X rng [] e = zero_params self.
Proof. induction e as [|e IH]; cbn [after_epochs after_batches]; auto. Qed.

(** X2: on a dataset of at most [batchsize] examples the inner loop has no
    batch: [train] prints, for each epoch, the reconstruction error of the
    zero parameters, and leaves the object with zero parameters. *)
Theorem X2_train_on_one_batch_learns_nothing :
  forall (self : RBM.t T) (X : ndarray T) (rng : nat -> RBM.RunDraws T),
    shape1 X = RBM._input_size self ->
    0 < RBM.batchsize self ->
    len X <= RBM.batchsize self ->
    fst (RBM.train self X rng) =
    Ok (map (fun e => (e, reconstruction_error self X (zero_params self) (rng e)))
            (seq 0 (RBM.epochs self))) /\
    rbm_params (snd (RBM.train self X rng)) = zero_params self.
Proof.
  intros self X rng HX Hb Hle.
  destruct (batches_Ok (len X) (RBM.batchsize self) Hb) as [bs Hbs].
  assert (bs = []) by (eapply batches_small; eauto). subst bs.
  split.
  - rewrite (train_printed self X rng [] HX Hbs). f_equal.
    apply map_ext. intro e. rewrite after_epochs_no_batches.
    unfold error_run, runs_per_epoch. cbn [length]. do 3 f_equal. lia.
  - unfold RBM.train.
    change (RBM.init_locals self)
      with (locals_of (after_epochs self X rng [] 0) (0 * runs_per_epoch [])).
    rewrite (epoch_loop_ok self X rng [] HX Hbs). cbn [snd Nat.add].
    rewrite after_epochs_no_batches. reflexivity.
Qed.

End RBMEdge.

(** X8: when the number of examples is [m] times the batch size, the loops
    run [m - 1] batches, so none of the last [batchsize] examples is ever in
    a batch. *)
Theorem X8_divisible_dataset_drops_last_batch :
  forall m b : nat,
    1 <= m -> 0 < b ->
    batches (m * b) b =
    Ok (map (fun k => (k * b, (k + 1) * b)) (seq 0 (m - 1))) /\
    forall bs s e, batches (m * b) b = Ok bs -> In (s, e) bs -> e <= (m - 1) * b.
Proof.
  intros m b Hm Hb.
  assert (E : (m * b - 1) / b = m - 1).
  { symmetry. apply Nat.div_unique with (r := b - 1); [lia|]. nia. }
  split.
  - rewrite batches_closed_form by exact Hb. now rewrite E.
  - intros bs s e H Hin. rewrite batches_closed_form in H by exact Hb.
    injection H as <-. rewrite E in Hin.
    apply in_map_iff in Hin as (k & Hk & Hin). injection Hk as <- <-.
    apply in_seq in Hin. nia.
Qed.

(** ** Shapes of the nodes of the graph *)

Section Shapes.
Context {T : Type} {num : Numeric T}.

Lemma sample_prob_shape (self : RBM.t T) (m n : nat) (probs : Matrix T) (u : Draws T) :
  is_matrix m n probs = true -> is_matrix m n (RBM.sample_prob self probs u) = true.
Proof.
  intro Hp. apply is_matrix_true in Hp as [L F]. apply is_matrix_true.
  unfold RBM.sample_prob, mapi. split.
  - now rewrite mapi_from_length.
  - apply (mapi_from_Forall_in (fun r => length r = n)); [|exact F].
    intros k x Hx. now rewrite mapi_from_length.
Qed.

Lemma add_bias_sigmoid_shape (m n : nat) (a : Matrix T) (b : Vector T) :
  is_matrix m n a = true -> is_vector n b = true ->
  is_matrix m n (mat_sigmoid (add_bias a b)) = true.
Proof.
  intros Ha Hb. apply is_matrix_true in Ha as [L F]. apply is_vector_true in Hb.
  apply is_matrix_true. unfold mat_sigmoid, add_bias. split.
  - now rewrite !length_map.
  - rewrite !Forall_map. eapply Forall_impl; [|exact F].
    intros r Hr. cbv beta in *. unfold vec_add. rewrite length_map, zip_with_length. lia.
Qed.

Lemma prob_h_given_v_shape (self : RBM.t T) (v : Matrix T) (w : Matrix T) (hb : Vector T) :
  is_vector (RBM._output_size self) hb = true ->
  is_matrix (length v) (RBM._output_size self) (RBM.prob_h_given_v self v w hb) = true.
Proof.
  intro H. unfold RBM.prob_h_given_v. apply add_bias_sigmoid_shape; auto.
  apply matmul_shape.
Qed.

Lemma prob_v_given_h_shape (self : RBM.t T) (h : Matrix T) (w : Matrix T) (vb : Vector T) :
  is_vector (RBM._input_size self) vb = true ->
  is_matrix (length h) (RBM._input_size self) (RBM.prob_v_given_h self h w vb) = true.
Proof.
  intro H. unfold RBM.prob_v_given_h. apply add_bias_sigmoid_shape; auto.
  apply matmul_shape.
Qed.

Lemma h0_length (self : RBM.t T) (f : RBM.feed_dict T) (d : RBM.RunDraws T) :
  length (RBM.h0 self f d) = len (RBM.v0 f).
Proof.
  unfold RBM.h0, RBM.sample_prob, mapi, RBM.prob_h_given_v, mat_sigmoid, add_bias, matmul, len.
  now rewrite mapi_from_length, !length_map.
Qed.

Lemma v1_shape (self : RBM.t T) (f : RBM.feed_dict T) (d : RBM.RunDraws T) :
  is_vector (RBM._input_size self) (RBM._vb f) = true ->
  is_matrix (len (RBM.v0 f)) (RBM._input_size self) (RBM.v1 self f d) = true.
Proof.
  intro H. unfold RBM.v1. apply sample_prob_shape.
  rewrite <- (h0_length self f d). now apply prob_v_given_h_shape.
Qed.

Lemma concat_length_matrix (m n : nat) (M : Matrix T) :
  is_matrix m n M = true -> length (concat M) = m * n.
Proof.
  intro HM. apply is_matrix_true in HM as [L F]. subst m.
  induction F as [|r l Hr Hl IH]; simpl; auto.
  rewrite length_app, IH. lia.
Qed.

End Shapes.

(** ** Probabilities and samples over the reals *)

Section OutputRange.
Context {T : Type} {num : Numeric T}.

(** The order of the numbers, and what the statement needs of [sigmoid]:
    its values lie between zero and one, ends included.  float32's sigmoid
    returns exactly 1 for large arguments and exactly 0 for small ones. *)
Variable le : T -> T -> Prop.
Hypothesis sigmoid_range : forall x : T, le zero (sigmoid x) /\ le (sigmoid x) one.


End OutputRange.

Section Probabilities.
Open Scope R_scope.


(** X6: [sample_prob] keeps the shape of its argument, and its entry at row
    [i] and column [j] is 1 when the draw [u i j] is below the probability at
    that place, and 0 otherwise. *)
Theorem X6_sample_prob_is_threshold :
  forall (self : RBM.t R) (probs : Matrix R) (u : Draws R) (i j : nat),
    (i < length probs)%nat ->
    (j < length (nth i probs []))%nat ->
    length (RBM.sample_prob self probs u) = length probs /\
    length (nth i (RBM.sample_prob self probs u) []) = length (nth i probs []) /\
    nth j (nth i (RBM.sample_prob self probs u) []) 0 =
    (if Rlt_dec (u i j) (nth j (nth i probs []) 0) then 1 else 0).
Proof.
  intros self probs u i j Hi Hj. unfold RBM.sample_prob, mapi.
  rewrite mapi_from_length. split; [reflexivity|].
  rewrite (mapi_from_nth _ 0 i probs [] []) by exact Hi. cbn [Nat.add].
  rewrite mapi_from_length. split; [reflexivity|].
  rewrite (mapi_from_nth _ 0 j _ 0 0) by exact Hj. cbn [Nat.add].
  rewrite sample_R.
  destruct (Rlt_dec (u i j) (nth j (nth i probs []) 0)) as [H|H].
  - rewrite Rltb_true; [reflexivity|]. simpl. lra.
  - rewrite Rltb_false; [reflexivity|]. simpl. lra.
Qed.

End Probabilities.

(** ** The range of the reconstruction error *)

Section ErrorRange.
Open Scope R_scope.

Lemma fold_unit_bounds (l : list R) (a : R) :
  Forall unit_interval l -> a <= fold_left Rplus l a <= a + INR (length l).
Proof.
  intro H; revert a; induction H as [|x l Hx Hl IH]; intro a.
  - simpl. lra.
  - cbn [fold_left]. specialize (IH (a + x)).
    unfold unit_interval in Hx. change (length (x :: l)) with (S (length l)).
    rewrite S_INR. lra.
Qed.

Lemma reduce_mean_unit (a : Matrix R) :
  Forall (Forall unit_interval) a -> (0 < length (concat a))%nat ->
  unit_interval (reduce_mean a).
Proof.
  intros H Hn. unfold reduce_mean, reduce_sum. simpl.
  assert (Hc : Forall unit_interval (concat a)) by now apply Forall_concat.
  pose proof (fold_unit_bounds (concat a) 0 Hc) as [L U].
  assert (Hp : 0 < INR (length (concat a))) by now apply lt_0_INR.
  unfold unit_interval. split.
  - apply Rmult_le_pos; [exact L|]. left. now apply Rinv_0_lt_compat.
  - apply (Rmult_le_reg_r (INR (length (concat a)))); [exact Hp|].
    unfold Rdiv. rewrite Rmult_assoc, Rinv_l by lra. lra.
Qed.

Lemma sample_prob_binary (self : RBM.t R) (probs : Matrix R) (u : Draws R) :
  Forall (Forall (fun v => v = 0 \/ v = 1)) (RBM.sample_prob self probs u).
Proof.
  unfold RBM.sample_prob, mapi. apply mapi_from_Forall. intros i r.
  apply mapi_from_Forall. intros j p. rewrite sample_R.
  destruct (Rltb 0 (sub p (u i j))); auto.
Qed.

Lemma reconstruction_error_unit (self : RBM.t R) (X : ndarray R) (p : params)
  (d : RBM.RunDraws R) :
  params_ok self p ->
  (0 < RBM._input_size self)%nat -> (0 < len X)%nat ->
  is_matrix (len X) (RBM._input_size self) (rows X) = true ->
  Forall (Forall unit_interval) (rows X) ->
  unit_interval (reconstruction_error self X p d).
Proof.
  intros (_ & _ & Hvb) Hi Hn HX HU. unfold reconstruction_error.
  apply reduce_mean_unit.
  - unfold mat_sub. rewrite Forall_map.
    apply (zip_with_Forall (Forall unit_interval) (Forall (fun v => v = 0 \/ v = 1)));
      [|exact HU|apply sample_prob_binary].
    intros x y Hx Hy. rewrite Forall_map.
    apply (zip_with_Forall unit_interval (fun v => v = 0 \/ v = 1)); auto.
    intros a b [A1 A2] [->| ->]; unfold unit_interval, square; simpl; nra.
  - rewrite (concat_length_matrix (len X) (RBM._input_size self)).
    + apply Nat.mul_pos_pos; assumption.
    + apply map_map_shape. apply mat_sub_shape; [exact HX|].
      apply (v1_shape self (feed_of p X) d). exact Hvb.
Qed.

(** X7: for a rectangular dataset of the declared width, with at least one
    example and one feature and every entry between 0 and 1, and a positive
    batch size, [train] returns and every reconstruction error it prints,
    one per epoch, lies between 0 and 1. *)
Theorem X7_reconstruction_error_in_unit_interval :
  forall (self : RBM.t R) (X : ndarray R) (rng : nat -> RBM.RunDraws R),
    shape1 X = RBM._input_size self ->
    (0 < RBM._input_size self)%nat -> (0 < len X)%nat ->
    is_matrix (len X) (RBM._input_size self) (rows X) = true ->
    Forall (Forall unit_interval) (rows X) ->
    (0 < RBM.batchsize self)%nat ->
    exists printed,
      fst (RBM.train self X rng) = Ok printed /\
      map fst printed = seq 0 (RBM.epochs self) /\
      Forall (fun line => unit_interval (snd line)) printed.
Proof.
  intros self X rng HX Hi Hn HM HU Hb.
  destruct (batches_Ok (len X) (RBM.batchsize self) Hb) as [bs Hbs].
  eexists. split; [apply (train_printed self X rng bs HX Hbs)|]. split.
  - rewrite map_map. cbn [fst]. apply map_id.
  - rewrite Forall_map. apply Forall_forall. intros e _. cbn [snd].
    apply reconstruction_error_unit; auto. apply after_epochs_ok.
Qed.

End ErrorRange.

(** ** [NN.load_from_rbms]: short lists and repeated calls *)

Section LoadEdge.
Context {T : Type} {num : Numeric T}.

Lemma copy_loop_app (rbm_list : list (RBM.t T)) :
  forall idx1 idx2 (self : NN.t T),
    NN.copy_loop self rbm_list (idx1 ++ idx2) =
    match NN.copy_loop self rbm_list idx1 with
    | (Ok _, self') => NN.copy_loop self' rbm_list idx2
    | (Raise e, self') => (Raise e, self')
    end.
Proof.
  induction idx1 as [|i idx1 IH]; intros idx2 self; cbn [app NN.copy_loop]; auto.
  destruct (nth_error rbm_list i); auto.
  destruct (list_set (NN.w_list self) i (RBM.w t)); auto.
  destruct (list_set (NN.b_list self) i (RBM.hb t)); auto.
Qed.

(** X9: when the size lists agree but the list holds fewer units than
    there are hidden layers, [load_from_rbms] raises [IndexError], not an
    assertion, after it has overwritten the layers for which a unit exists:
    the classifier is left partly loaded. *)
Theorem X9_load_from_short_rbm_list :
  forall (self : NN.t T) (rbm_list : list (RBM.t T)),
    length rbm_list < length (NN._sizes self) ->
    length (NN._sizes self) <= length (NN.w_list self) ->
    length (NN._sizes self) <= length (NN.b_list self) ->
    exists wl bl,
      NN.load_from_rbms self (NN._sizes self) rbm_list =
      (Raise IndexError, NN.set_lists self wl bl) /\
      (forall j, nth_error wl j =
                 if j <? length rbm_list
                 then option_map RBM.w (nth_error rbm_list j)
                 else nth_error (NN.w_list self) j) /\
      (forall j, nth_error bl j =
                 if j <? length rbm_list
                 then option_map RBM.hb (nth_error rbm_list j)
                 else nth_error (NN.b_list self) j).
Proof.
  intros self rbm_list Hr Hw Hb.
  destruct (load_checks self (NN._sizes self) rbm_list) as [Heq _]. rewrite (Heq eq_refl).
  replace (length (NN._sizes self))
    with (length rbm_list + (length (NN._sizes self) - length rbm_list)) by lia.
  rewrite seq_app, copy_loop_app.
  destruct (copy_loop_spec rbm_list (length rbm_list) 0 self)
    as (wl & bl & E & _ & _ & Nw & Nb); try (simpl; lia).
  rewrite E.
  destruct (length (NN._sizes self) - length rbm_list) as [|k] eqn:Ek; [lia|].
  cbn [seq NN.copy_loop Nat.add].
  replace (nth_error rbm_list (length rbm_list)) with (@None (RBM.t T))
    by (symmetry; apply nth_error_None; lia).
  exists wl, bl. split; [reflexivity|]. split; intro j.
  - rewrite Nw. cbn [Nat.add Nat.leb andb]. reflexivity.
  - rewrite Nb. cbn [Nat.add Nat.leb andb]. reflexivity.
Qed.

Lemma copy_loop_Ok_inv (rbm_list : list (RBM.t T)) :
  forall idx (self self' : NN.t T),
    NN.copy_loop self rbm_list idx = (Ok tt, self') ->
    forall i, In i idx ->
      i < length rbm_list /\ i < length (NN.w_list self) /\ i < length (NN.b_list self).
Proof.
  induction idx as [|k idx IH]; intros self self' H i Hi; [contradiction|].
  cbn [NN.copy_loop] in H.
  destruct (nth_error rbm_list k) as [r|] eqn:Er; [|discriminate].
  destruct (list_set (NN.w_list self) k (RBM.w r)) as [wl|] eqn:Ew; [|discriminate].
  destruct (list_set (NN.b_list self) k (RBM.hb r)) as [bl|] eqn:Eb; [|discriminate].
  destruct (list_set_inv _ _ _ _ Ew) as [Lw _].
  destruct (list_set_inv _ _ _ _ Eb) as [Lb _].
  destruct Hi as [<-|Hi].
  - split; [apply nth_error_Some; congruence|].
    split.
    + destruct (Nat.lt_ge_cases k (length (NN.w_list self))); auto.
      rewrite list_set_None in Ew by assumption. discriminate.
    + destruct (Nat.lt_ge_cases k (length (NN.b_list self))); auto.
      rewrite list_set_None in Eb by assumption. discriminate.
  - specialize (IH _ _ H i Hi). cbn [NN.w_list NN.b_list NN.set_lists] in IH. lia.
Qed.

(** X10: a call of [load_from_rbms] that returns can be repeated: the
    second call returns as well and leaves the classifier as the first one
    left it. *)
Theorem X10_load_from_rbms_idempotent :
  forall (self self' : NN.t T) (dbn_sizes : list nat) (rbm_list : list (RBM.t T)),
    NN.load_from_rbms self dbn_sizes rbm_list = (Ok tt, self') ->
    NN.load_from_rbms self' dbn_sizes rbm_list = (Ok tt, self').
Proof.
  intros self self' dbn_sizes rbm_list H.
  destruct (load_checks self dbn_sizes rbm_list) as [Heq Hne].
  destruct (list_eq_dec Nat.eq_dec dbn_sizes (NN._sizes self)) as [E|E].
  2:{ rewrite (Hne E) in H. discriminate. }
  rewrite (Heq E) in H.
  set (n := length (NN._sizes self)) in *.
  assert (Hlen : n <= length rbm_list /\ n <= length (NN.w_list self) /\
                 n <= length (NN.b_list self)).
  { destruct n as [|m] eqn:En; [lia|].
    destruct (copy_loop_Ok_inv rbm_list _ _ _ H m) as (A & B & C);
      [apply in_seq; lia|lia]. }
  destruct Hlen as (Hr & Hw & Hb).
  destruct (copy_loop_spec rbm_list n 0 self) as (wl & bl & E1 & Lw & Lb & Nw & Nb);
    try (simpl; lia).
  rewrite E1 in H. injection H as <-.
  destruct (load_checks (NN.set_lists self wl bl) dbn_sizes rbm_list) as [Heq' _].
  rewrite Heq' by exact E. cbn [NN._sizes NN.set_lists]. fold n.
  destruct (copy_loop_spec rbm_list n 0 (NN.set_lists self wl bl))
    as (wl2 & bl2 & E2 & Lw2 & Lb2 & Nw2 & Nb2);
    cbn [NN.w_list NN.b_list NN.set_lists]; try (simpl; lia).
  rewrite E2. cbn [NN.w_list NN.b_list NN.set_lists] in *.
  assert (wl2 = wl).
  { apply nth_error_eq_ext; [lia|]. intros j _. rewrite Nw2, Nw.
    destruct ((0 <=? j) && (j <? 0 + n)); reflexivity. }
  assert (bl2 = bl).
  { apply nth_error_eq_ext; [lia|]. intros j _. rewrite Nb2, Nb.
    destruct ((0 <=? j) && (j <? 0 + n)); reflexivity. }
  subst. reflexivity.
Qed.

End LoadEdge.

(** ** [NN.__init__]: shapes *)

Section NNInitShapes.
Context {T : Type} {num : Numeric T} {f32 : Float32 T}.

Lemma uniform_shape (low high : T) (m n : nat) (u : Draws T) :
  is_matrix m n (uniform low high m n u) = true.
Proof.
  apply is_matrix_true. unfold uniform. split.
  - now rewrite length_map, length_seq.
  - rewrite Forall_map. apply Forall_forall. intros i _.
    now rewrite length_map, length_seq.
Qed.

(** A cast keeps the shape. *)
Lemma astype_shape (m n : nat) (M : Matrix T) :
  is_matrix m n M = true -> is_matrix m n (map (map astype_float32) M) = true.
Proof.
  intro H. apply is_matrix_true in H as [HL HF]. apply is_matrix_true. split.
  - now rewrite length_map.
  - rewrite Forall_map. apply Forall_forall. intros r Hr.
    rewrite length_map. rewrite Forall_forall in HF. now apply HF.
Qed.

Lemma layers_ok_chain :
  forall (ws : list (Matrix T)) (bs : list (Vector T)) (dims : list nat),
    length ws = length bs ->
    (forall k, k < length ws ->
       is_matrix (nth k dims 0) (nth (S k) dims 0) (nth k ws []) = true /\
       length (nth k bs []) = nth (S k) dims 0) ->
    NN.layers_ok (nth 0 dims 0) ws bs = Some (nth (length ws) dims 0).
Proof.
  induction ws as [|w ws IH]; intros [|b bs] dims HL H; simpl in HL; try lia.
  - reflexivity.
  - cbn [NN.layers_ok]. destruct (H 0) as [Hw Hb]; [simpl; lia|]. cbn [nth] in Hw, Hb.
    rewrite Hb, Hw.
    destruct dims as [|d0 dims].
    + specialize (IH bs [] ltac:(lia)). cbn [nth length] in *.
      replace (match length ws with 0 | _ => 0 end) with 0 in IH by (destruct (length ws); auto).
      apply IH. intros k Hk. destruct (H (S k)) as [A B]; [simpl; lia|].
      cbn [nth] in A, B. destruct k; auto.
    + cbn [nth length]. apply (IH bs dims ltac:(lia)).
      intros k Hk. destruct (H (S k)) as [A B]; [simpl; lia|]. auto.
Qed.

Lemma init_loop_raises (u : nat -> Draws T) :
  forall sizes layer input wl bl,
    ~ positive_sums input sizes ->
    NN.init_loop sizes layer input u wl bl = Raise ZeroDivisionError.
Proof.
  induction sizes as [|size sizes IH]; intros layer input wl bl H.
  - exfalso. apply H. exact I.
  - cbn [NN.init_loop]. destruct (Nat.eqb_spec (input + size) 0) as [E|E]; auto.
    apply IH. intro Hp. apply H. split; assumption.
Qed.

Lemma init_returns (sizes : list nat) (X Y : ndarray T) (u : nat -> Draws T) :
  positive_sums (shape1 X) (sizes ++ [shape1 Y]) ->
  exists nn,
    NN.__init__ sizes X Y u = Ok nn /\
    NN._sizes nn = sizes /\ NN._X nn = X /\ NN._Y nn = Y /\
    length (NN.w_list nn) = S (length sizes) /\
    length (NN.b_list nn) = S (length sizes) /\
    (forall k, k <= length sizes ->
       is_matrix (nth k (layer_dims sizes X Y) 0) (nth (S k) (layer_dims sizes X Y) 0)
         (nth k (NN.w_list nn) []) = true /\
       is_vector (nth (S k) (layer_dims sizes X Y) 0) (nth k (NN.b_list nn) []) = true) /\
    NN._epoches nn = 10 /\ NN._batchsize nn = 100.
Proof.
  intro Hpos. unfold NN.__init__.
  destruct (init_loop_spec u (sizes ++ [shape1 Y]) 0 (shape1 X) [] [] Hpos)
    as (ws & bs & E & Lw & Lb & N).
  rewrite E. cbn [bind app fst snd]. eexists. split; [reflexivity|].
  cbn [NN._sizes NN._X NN._Y NN.w_list NN.b_list NN._epoches NN._batchsize].
  rewrite length_app in Lw, Lb. cbn [length] in Lw, Lb.
  repeat (split; [first [reflexivity | lia]|]).
  split; [|split; reflexivity].
  intros k Hk. destruct (N k) as [A B]; [rewrite length_app; simpl; lia|].
  unfold layer_dims. cbn [nth]. rewrite A, B. split.
  - apply astype_shape, uniform_shape.
  - apply zeros1_shape.
Qed.

Lemma nth_error_nth_eq {A : Type} (l l' : list A) (k : nat) (d : A) :
  nth_error l k = nth_error l' k -> nth k l d = nth k l' d.
Proof.
  intro H. destruct (nth_error l k) as [x|] eqn:E.
  - now rewrite (nth_error_nth l k d E), (nth_error_nth l' k d (eq_sym H)).
  - symmetry in H. apply nth_error_None in E, H.
    now rewrite !nth_overflow by assumption.
Qed.

Lemma graph_ok_of_shapes (nn : NN.t T) :
  length (NN.w_list nn) = S (length (NN._sizes nn)) ->
  length (NN.b_list nn) = S (length (NN._sizes nn)) ->
  (forall k, k <= length (NN._sizes nn) ->
     is_matrix (nth k (layer_dims (NN._sizes nn) (NN._X nn) (NN._Y nn)) 0)
       (nth (S k) (layer_dims (NN._sizes nn) (NN._X nn) (NN._Y nn)) 0)
       (nth k (NN.w_list nn) []) = true /\
     is_vector (nth (S k) (layer_dims (NN._sizes nn) (NN._X nn) (NN._Y nn)) 0)
       (nth k (NN.b_list nn) []) = true) ->
  0 < shape1 (NN._Y nn) ->
  NN.graph_ok nn = Ok tt.
Proof.
  intros Lw Lb Hs HY. unfold NN.graph_ok.
  rewrite Lw, Lb, Nat.leb_refl. cbn [andb]. rewrite !firstn_all2 by lia.
  change (shape1 (NN._X nn))
    with (nth 0 (layer_dims (NN._sizes nn) (NN._X nn) (NN._Y nn)) 0).
  rewrite layers_ok_chain.
  - rewrite Lw. unfold layer_dims. cbn [nth].
    rewrite app_nth2 by lia. rewrite Nat.sub_diag. cbn [nth].
    rewrite Nat.eqb_refl.
    replace (0 <? shape1 (NN._Y nn)) with true by (symmetry; apply Nat.ltb_lt; exact HY).
    reflexivity.
  - lia.
  - intros k Hk. destruct (Hs k) as [A B]; [lia|]. split; [exact A|].
    now apply is_vector_true.
Qed.

(** X11: [NN.__init__] returns exactly when no layer has fan-in and fan-out
    both zero, and raises [ZeroDivisionError] otherwise.  The classifier it
    returns has one weight matrix and one bias vector per layer, of the
    shapes fan-in by fan-out and fan-out, and, when there is at least one
    class, [train] can build its graph. *)
Theorem X11_init_builds_a_trainable_classifier :
  forall (sizes : list nat) (X Y : ndarray T) (u : nat -> Draws T),
    (positive_sums (shape1 X) (sizes ++ [shape1 Y]) ->
     exists nn,
       NN.__init__ sizes X Y u = Ok nn /\
       NN._sizes nn = sizes /\
       length (NN.w_list nn) = S (length sizes) /\
       length (NN.b_list nn) = S (length sizes) /\
       (forall k, k <= length sizes ->
          is_matrix (nth k (layer_dims sizes X Y) 0) (nth (S k) (layer_dims sizes X Y) 0)
            (nth k (NN.w_list nn) []) = true /\
          is_vector (nth (S k) (layer_dims sizes X Y) 0) (nth k (NN.b_list nn) []) = true) /\
       (0 < shape1 Y -> NN.graph_ok nn = Ok tt)) /\
    (~ positive_sums (shape1 X) (sizes ++ [shape1 Y]) ->
     NN.__init__ sizes X Y u = Raise ZeroDivisionError).
Proof.
  intros sizes X Y u. split.
  - intro Hpos.
    destruct (init_returns sizes X Y u Hpos) as (nn & E & Hsz & HX & HY & Lw & Lb & Hs & _).
    exists nn. split; [exact E|]. split; [exact Hsz|]. split; [exact Lw|].
    split; [exact Lb|]. split; [exact Hs|].
    intro HYpos. apply graph_ok_of_shapes; rewrite ?Hsz, ?HX, ?HY; auto.
  - intro Hn. unfold NN.__init__. now rewrite init_loop_raises.
Qed.

End NNInitShapes.

(** ** [NN.train] on a single batch *)

Section NNSmall.
Context {T : Type} {num : Numeric T} {opt : MomentumOptimizer T}.

Lemma list_set_same {A : Type} (l : list A) (j : nat) (d : A) :
  j < length l -> list_set l j (nth j l d) = Some l.
Proof.
  revert j; induction l as [|x l IH]; intros [|j] H; simpl in *; try lia; auto.
  rewrite IH by lia. reflexivity.
Qed.

Lemma nth_firstn_lt {A : Type} (l : list A) (n j : nat) (d : A) :
  j < n -> nth j (firstn n l) d = nth j l d.
Proof.
  revert n j; induction l as [|x l IH]; intros [|n] [|j] H; simpl; try lia; auto.
  apply IH. lia.
Qed.

Lemma set_lists_self (self : NN.t T) :
  NN.set_lists self (NN.w_list self) (NN.b_list self) = self.
Proof. destruct self. reflexivity. Qed.

Lemma retrieve_init_session (self : NN.t T) :
  S (length (NN._sizes self)) <= length (NN.w_list self) ->
  S (length (NN._sizes self)) <= length (NN.b_list self) ->
  forall idx, Forall (fun j => j < S (length (NN._sizes self))) idx ->
    NN.retrieve self (NN.init_session self) idx = self.
Proof.
  intros Hw Hb idx H. induction H as [|j idx Hj Hidx IH]; cbn [NN.retrieve]; auto.
  unfold NN.init_session at 1 2, NN.var_w, NN.var_b. cbn [fst snd].
  rewrite !nth_firstn_lt by exact Hj.
  unfold NN.store. rewrite !list_set_same by lia.
  rewrite set_lists_self. exact IH.
Qed.

Lemma graph_ok_lengths (self : NN.t T) :
  NN.graph_ok self = Ok tt ->
  S (length (NN._sizes self)) <= length (NN.w_list self) /\
  S (length (NN._sizes self)) <= length (NN.b_list self).
Proof.
  unfold NN.graph_ok.
  destruct (Nat.leb_spec (S (length (NN._sizes self))) (length (NN.w_list self)));
    destruct (Nat.leb_spec (S (length (NN._sizes self))) (length (NN.b_list self)));
    cbn [andb]; try discriminate. auto.
Qed.

(** X12: on a training set of at most [_batchsize] examples, with one label
    per example, the training op is never run: [NN.train] prints the accuracy
    of the initial parameters for every epoch, whatever the optimizer, and
    leaves the classifier as it was. *)
Theorem X12_classifier_on_one_batch_is_not_trained :
  forall (self : NN.t T),
    NN.graph_ok self = Ok tt ->
    0 < NN._batchsize self ->
    len (NN._Y self) = len (NN._X self) ->
    len (NN._X self) <= NN._batchsize self ->
    NN.train self =
    (Ok (map (fun e => (e, NN.accuracy self (NN.init_session self)))
             (seq 0 (NN._epoches self))),
     self).
Proof.
  intros self Hg Hb _ Hle.
  destruct (graph_ok_lengths self Hg) as [Hw Hbl].
  destruct (batches_Ok (len (NN._X self)) (NN._batchsize self) Hb) as [bs Hbs].
  assert (bs = []) by exact (batches_small _ _ _ Hle Hbs). subst bs.
  unfold NN.train. rewrite Hg.
  assert (G : forall todo e printed,
            NN.epoch_loop self todo e (NN.init_session self) printed =
            (Ok (printed ++ map (fun i => (i, NN.accuracy self (NN.init_session self)))
                              (seq e todo)), self)).
  { induction todo as [|todo IH]; intros e printed.
    - cbn [NN.epoch_loop seq map]. now rewrite app_nil_r.
    - cbn [NN.epoch_loop]. rewrite Hbs. cbv zeta.
      change (NN.batch_loop self [] (NN.init_session self)) with (NN.init_session self).
      rewrite (retrieve_init_session self Hw Hbl).
      + rewrite IH. cbn [seq map]. now rewrite <- app_assoc.
      + apply Forall_forall. intros j Hj. apply in_seq in Hj. lia. }
  rewrite G. reflexivity.
Qed.

End NNSmall.

(** ** The cells of the notebook: shapes along the stack *)

Section ScriptFacts.
Context {T : Type} {num : Numeric T} {f32 : Float32 T} {opt : MomentumOptimizer T}.

Lemma make_rbm_list_ok (sizes : list nat) :
  forall input, stack_ok input sizes (make_rbm_list input sizes) /\
                Forall (fun r : RBM.t T => RBM.epochs r = 5) (make_rbm_list input sizes).
Proof.
  induction sizes as [|size sizes IH]; intro input; cbn [make_rbm_list stack_ok].
  - split; auto.
  - destruct (IH size) as [A B]. split.
    + split; [reflexivity|]. split; [reflexivity|]. split; [cbn; lia|].
      split; [apply (zero_params_ok (RBM.__init__ input size))|exact A].
    + constructor; auto.
Qed.

(** [train] on an input of the declared width. *)
Lemma train_returns (self : RBM.t T) (X : ndarray T) (rng : nat -> RBM.RunDraws T) :
  shape1 X = RBM._input_size self -> 0 < RBM.batchsize self ->
  exists printed self',
    RBM.train self X rng = (Ok printed, self') /\
    map fst printed = seq 0 (RBM.epochs self) /\
    RBM._input_size self' = RBM._input_size self /\
    RBM._output_size self' = RBM._output_size self /\
    RBM.batchsize self' = RBM.batchsize self /\
    RBM.epochs self' = RBM.epochs self /\
    params_ok self' (rbm_params self').
Proof.
  intros HX Hb.
  destruct (batches_Ok (len X) (RBM.batchsize self) Hb) as [bs Hbs].
  unfold RBM.train in *.
  change (RBM.init_locals self)
    with (locals_of (after_epochs self X rng bs 0) (0 * runs_per_epoch bs)) in *.
  rewrite (epoch_loop_ok self X rng bs HX Hbs) in *. cbn [app snd] in *.
  do 2 eexists. split; [reflexivity|].
  split; [rewrite map_map; cbn [fst]; apply map_id|].
  cbn [RBM._input_size RBM._output_size RBM.batchsize RBM.epochs].
  repeat (split; [reflexivity|]).
  pose proof (after_epochs_ok self X rng bs (0 + RBM.epochs self)) as (A & B & C).
  unfold params_ok, rbm_params, params_w, params_hb, params_vb in *.
  cbn [fst snd RBM.w RBM.hb RBM.vb RBM._input_size RBM._output_size locals_of
       RBM.prv_w RBM.prv_hb RBM.prv_vb]. auto.
Qed.

Lemma rbm_output_returns (self : RBM.t T) (X : ndarray T) :
  shape1 X = RBM._input_size self -> params_ok self (rbm_params self) ->
  exists out,
    RBM.rbm_output self X = (Ok out, self) /\
    shape1 out = RBM._output_size self /\ len out = len X.
Proof.
  intros HX (Hw & Hh & _).
  unfold rbm_params, params_w, params_hb in *. cbn [fst snd] in *.
  unfold RBM.rbm_output. rewrite HX, Nat.eqb_refl, Hw, Hh. cbn [andb].
  eexists. split; [reflexivity|]. cbn [shape1 rows]. split; [reflexivity|].
  unfold len, mat_sigmoid, add_bias, matmul. cbn [rows]. now rewrite !length_map.
Qed.

Lemma last_cons {A : Type} (l : list A) :
  forall a d : A, last (a :: l) d = last l a.
Proof.
  induction l as [|b l IH]; intros a d; [reflexivity|].
  change (last (a :: b :: l) d) with (last (b :: l) d).
  rewrite (IH b d), (IH b a). reflexivity.
Qed.

Lemma fed_shape (X : Dtype.array T) :
  shape1 (Dtype.fed X) = shape1 (Dtype.values X) /\
  len (Dtype.fed X) = len (Dtype.values X).
Proof.
  unfold Dtype.fed. destruct (Dtype.is_float32 X); [split; reflexivity|].
  unfold len. cbn [shape1 rows]. now rewrite length_map.
Qed.

Lemma pretrain_returns (rng : nat -> nat -> RBM.RunDraws T) :
  forall sizes rbms X k,
    Dtype.is_float32 X = true ->
    stack_ok (shape1 (Dtype.values X)) sizes rbms ->
    exists lines final rbms',
      pretrain rbms X rng k = (Ok final, lines, rbms') /\
      stack_ok (shape1 (Dtype.values X)) sizes rbms' /\
      Forall2 (fun r l => map fst l = seq 0 (RBM.epochs r)) rbms lines /\
      Dtype.is_float32 final = true /\
      shape1 (Dtype.values final) = last sizes (shape1 (Dtype.values X)) /\
      len (Dtype.values final) = len (Dtype.values X).
Proof.
  induction sizes as [|size sizes IH]; intros [|r rbms] X k HF H; cbn [stack_ok] in H;
    try contradiction.
  - exists [], X, []. cbn. repeat split; auto.
  - destruct H as (Hi & Ho & Hb & Hp & Hrest). cbn [pretrain].
    unfold Dtype.train, Dtype.rbm_output, Dtype.fed. rewrite HF.
    destruct (train_returns r (Dtype.values X) (rng k))
      as (printed & r' & Et & Hl & Hi' & Ho' & Hb' & _ & Hp');
      [congruence|exact Hb|].
    rewrite Et.
    destruct (rbm_output_returns r' (Dtype.values X)) as (out & Eo & Hso & Hlo);
      [congruence|exact Hp'|].
    rewrite Eo.
    destruct (IH rbms {| Dtype.is_float32 := true; Dtype.values := out |} (S k) eq_refl)
      as (lines & final & rbms' & Ep & Hst & Hf2 & Hff & Hsf & Hlf).
    { cbn [Dtype.values]. rewrite Hso, Ho', Ho. exact Hrest. }
    rewrite Ep. cbn [Dtype.values] in *.
    exists (printed :: lines), final, (r' :: rbms').
    split; [reflexivity|]. split.
    { cbn [stack_ok]. split; [congruence|]. split; [congruence|]. split; [lia|].
      split; [exact Hp'|]. rewrite Hso, Ho', Ho in Hst. exact Hst. }
    split; [constructor; auto|]. split; [exact Hff|]. split.
    + rewrite Hsf, Hso, Ho', Ho. symmetry. apply last_cons.
    + congruence.
Qed.

(** On an array of another dtype the first unit is trained, and its
    [rbm_output] ends the run. *)
Lemma pretrain_type_error (rng : nat -> nat -> RBM.RunDraws T) (r : RBM.t T)
  (rbms : list (RBM.t T)) (X : Dtype.array T) (k : nat) :
  Dtype.is_float32 X = false ->
  shape1 (Dtype.values X) = RBM._input_size r ->
  0 < RBM.batchsize r ->
  exists printed r',
    RBM.train r (Dtype.fed X) (rng k) = (Ok printed, r') /\
    map fst printed = seq 0 (RBM.epochs r) /\
    pretrain (r :: rbms) X rng k = (Raise TypeError, [printed], r' :: rbms).
Proof.
  intros HF HX Hb. destruct (fed_shape X) as [Hs _].
  destruct (train_returns r (Dtype.fed X) (rng k)) as (printed & r' & Et & Hl & _);
    [congruence|exact Hb|].
  exists printed, r'. split; [exact Et|]. split; [exact Hl|].
  cbn [pretrain]. unfold Dtype.train. rewrite Et.
  unfold Dtype.rbm_output. rewrite HF. reflexivity.
Qed.

Lemma stack_ok_nth :
  forall sizes rbms input,
    stack_ok input sizes rbms ->
    length rbms = length sizes /\
    forall k, k < length sizes ->
      exists r : RBM.t T,
        nth_error rbms k = Some r /\
        is_matrix (nth k (input :: sizes) 0) (nth k sizes 0) (RBM.w r) = true /\
        is_vector (nth k sizes 0) (RBM.hb r) = true.
Proof.
  induction sizes as [|size sizes IH]; intros [|r rbms] input H; cbn [stack_ok] in H;
    try contradiction.
  - split; auto. intros k Hk. simpl in Hk. lia.
  - destruct H as (Hi & Ho & _ & (Hw & Hh & _) & Hrest).
    destruct (IH rbms size Hrest) as [L N]. split; [simpl; lia|].
    intros [|k] Hk.
    + exists r. cbn [nth_error nth]. rewrite <- Hi, <- Ho. auto.
    + destruct (N k) as (r' & E & A & B); [simpl in Hk; lia|].
      exists r'. cbn [nth_error nth]. auto.
Qed.

End ScriptFacts.

Section Notebook.
Context {T : Type} {num : Numeric T} {f32 : Float32 T} {opt : MomentumOptimizer T}.

Lemma train_prints_every_epoch (self : NN.t T) :
  NN.graph_ok self = Ok tt -> 0 < NN._batchsize self ->
  exists accuracies self',
    NN.train self = (Ok accuracies, self') /\
    map fst accuracies = seq 0 (NN._epoches self).
Proof.
  intros Hg Hb.
  destruct (batches_Ok (len (NN._X self)) (NN._batchsize self) Hb) as [bs Hbs].
  destruct (nn_epoch_loop_ok self bs Hbs (NN._epoches self) 0
              (NN.w_list self) (NN.b_list self) []) as (self' & E).
  rewrite set_lists_self in E. cbn [session_after] in E.
  unfold NN.train. rewrite Hg, E. do 2 eexists. split; [reflexivity|].
  cbn [app]. rewrite map_map. cbn [fst]. apply map_id.
Qed.

Lemma classifier_from_stack (sizes : list nat) (X Y : ndarray T) (u : nat -> Draws T)
  (rbms : list (RBM.t T)) :
  positive_sums (shape1 X) (sizes ++ [shape1 Y]) ->
  0 < shape1 Y ->
  stack_ok (shape1 X) sizes rbms ->
  exists nn nn',
    NN.__init__ sizes X Y u = Ok nn /\
    NN.load_from_rbms nn sizes rbms = (Ok tt, nn') /\
    NN.graph_ok nn' = Ok tt /\
    NN._epoches nn' = 10 /\ NN._batchsize nn' = 100 /\
    forall k, k < length sizes ->
      exists r, nth_error rbms k = Some r /\
                nth_error (NN.w_list nn') k = Some (RBM.w r) /\
                nth_error (NN.b_list nn') k = Some (RBM.hb r).
Proof.
  intros Hpos HY Hst.
  destruct (init_returns sizes X Y u Hpos)
    as (nn & Ei & Hsz & HX & HYY & Lw & Lb & Hsh & He & Hbs).
  destruct (stack_ok_nth sizes rbms (shape1 X) Hst) as [Lr Nr].
  destruct (load_checks nn sizes rbms) as [Heq _].
  destruct (copy_loop_spec rbms (length sizes) 0 nn) as (wl & bl & Ec & Lwl & Lbl & Nw & Nb);
    try (rewrite ?Hsz; simpl; lia).
  exists nn, (NN.set_lists nn wl bl). split; [exact Ei|].
  split; [rewrite Heq by (symmetry; exact Hsz); rewrite Hsz; exact Ec|].
  assert (Hk : forall k, k < length sizes ->
            exists r, nth_error rbms k = Some r /\
                      nth_error wl k = Some (RBM.w r) /\ nth_error bl k = Some (RBM.hb r)).
  { intros k Hk. destruct (Nr k Hk) as (r & Er & _).
    exists r. split; [exact Er|]. rewrite Nw, Nb, Er.
    replace ((0 <=? k) && (k <? 0 + length sizes)) with true; [auto|].
    symmetry. apply andb_true_iff. split; [apply Nat.leb_le|apply Nat.ltb_lt]; lia. }
  split; [|split; [exact He|split; [exact Hbs|exact Hk]]].
  unfold NN.graph_ok. cbn [NN._sizes NN._X NN._Y NN.w_list NN.b_list NN.set_lists].
  rewrite Hsz, HX, HYY, Lwl, Lbl, Lw, Lb, Nat.leb_refl. cbn [andb].
  rewrite !firstn_all2 by lia.
  change (shape1 X) with (nth 0 (layer_dims sizes X Y) 0).
  rewrite layers_ok_chain.
  - rewrite Lwl, Lw. unfold layer_dims. cbn [nth].
    rewrite app_nth2 by lia. rewrite Nat.sub_diag. cbn [nth].
    rewrite Nat.eqb_refl.
    replace (0 <? shape1 Y) with true by (symmetry; apply Nat.ltb_lt; exact HY).
    reflexivity.
  - lia.
  - intros k Hlt. rewrite Lwl, Lw in Hlt.
    destruct (Nat.eq_dec k (length sizes)) as [->|Hne].
    + destruct (Hsh (length sizes) (Nat.le_refl _)) as [A B].
      assert (Ew : nth (length sizes) wl [] = nth (length sizes) (NN.w_list nn) []).
      { apply nth_error_nth_eq. rewrite Nw.
        replace ((0 <=? length sizes) && (length sizes <? 0 + length sizes)) with false;
          [reflexivity|].
        symmetry. apply andb_false_iff. right. apply Nat.ltb_ge. lia. }
      assert (Eb : nth (length sizes) bl [] = nth (length sizes) (NN.b_list nn) []).
      { apply nth_error_nth_eq. rewrite Nb.
        replace ((0 <=? length sizes) && (length sizes <? 0 + length sizes)) with false;
          [reflexivity|].
        symmetry. apply andb_false_iff. right. apply Nat.ltb_ge. lia. }
      rewrite Ew, Eb. split; [exact A|]. now apply is_vector_true.
    + destruct (Nr k ltac:(lia)) as (r & Er & A & B).
      destruct (Hk k ltac:(lia)) as (r' & Er' & Ew & Eb).
      assert (r' = r) by congruence. subst r'.
      rewrite (nth_error_nth wl k [] Ew), (nth_error_nth bl k [] Eb).
      unfold layer_dims.
      replace (nth k (shape1 X :: sizes ++ [shape1 Y]) 0) with (nth k (shape1 X :: sizes) 0).
      2:{ change (shape1 X :: sizes ++ [shape1 Y]) with ((shape1 X :: sizes) ++ [shape1 Y]).
          rewrite app_nth1; [reflexivity|simpl; lia]. }
      cbn [nth]. rewrite app_nth1 by lia.
      split; [exact A|]. now apply is_vector_true.
Qed.

End Notebook.

(** ** The cells of the notebook: the run *)

Section NotebookTheorems.
Context {T : Type} {num : Numeric T} {f32 : Float32 T} {opt : MomentumOptimizer T}.

Lemma lines_of_five_epochs (rbms : list (RBM.t T)) (lines : list (list (nat * T))) :
  Forall (fun r : RBM.t T => RBM.epochs r = 5) rbms ->
  Forall2 (fun r l => map fst l = seq 0 (RBM.epochs r)) rbms lines ->
  Forall (fun l => map fst l = seq 0 5) lines.
Proof.
  intros He Hf2. induction Hf2 as [|r l rs ls Hrl _ IH]; constructor.
  - inversion He; subst. congruence.
  - apply IH. now inversion He.
Qed.

(** X13: what the pre-training cells do depends on the dtype of the
    dataset only, whatever the hidden sizes and the values.  On a float32
    dataset they never raise: every unit of the stack built from
    [RBM_hidden_sizes] is trained, five reconstruction errors are printed
    for each, the array handed on is float32, has as many rows as the
    dataset and the width of the last unit, and the trained units still form
    a stack of the declared shapes.  On a dataset of another dtype and at
    least one hidden size, the first unit is trained on the dataset as the
    placeholder casts it and its five reconstruction errors are printed,
    then its [rbm_output] raises [TypeError], and the other units stay as
    they were built. *)
Theorem X13_pretraining_depends_on_dtype :
  forall (sizes : list nat) (X : Dtype.array T) (rng : nat -> nat -> RBM.RunDraws T),
    (Dtype.is_float32 X = true ->
     exists lines final rbms',
       pretrain (make_rbm_list (shape1 (Dtype.values X)) sizes) X rng 0 =
       (Ok final, lines, rbms') /\
       length lines = length sizes /\
       Forall (fun l => map fst l = seq 0 5) lines /\
       Dtype.is_float32 final = true /\
       shape1 (Dtype.values final) = last sizes (shape1 (Dtype.values X)) /\
       len (Dtype.values final) = len (Dtype.values X) /\
       stack_ok (shape1 (Dtype.values X)) sizes rbms') /\
    (Dtype.is_float32 X = false ->
     forall size rest, sizes = size :: rest ->
       exists printed rbm',
         RBM.train (RBM.__init__ (shape1 (Dtype.values X)) size) (Dtype.fed X) (rng 0) =
         (Ok printed, rbm') /\
         map fst printed = seq 0 5 /\
         pretrain (make_rbm_list (shape1 (Dtype.values X)) sizes) X rng 0 =
         (Raise TypeError, [printed], rbm' :: make_rbm_list size rest)).
Proof.
  intros sizes X rng. split.
  - intro HF.
    destruct (make_rbm_list_ok sizes (shape1 (Dtype.values X))) as [Hst He].
    destruct (pretrain_returns rng sizes _ X 0 HF Hst)
      as (lines & final & rbms' & E & Hst' & Hf2 & Hff & Hsf & Hlf).
    exists lines, final, rbms'. split; [exact E|].
    destruct (stack_ok_nth sizes _ _ Hst) as [L _].
    split; [rewrite <- (Forall2_length Hf2); exact L|].
    split; [exact (lines_of_five_epochs _ _ He Hf2)|auto].
  - intros HF size rest ->. cbn [make_rbm_list].
    destruct (pretrain_type_error rng (RBM.__init__ (shape1 (Dtype.values X)) size)
                (make_rbm_list size rest) X 0 HF eq_refl)
      as (printed & r' & Et & Hl & Ep); [cbn; lia|].
    exists printed, r'. split; [exact Et|]. split; [exact Hl|exact Ep].
Qed.

(** X14: for widths without a layer of fan-in and fan-out both zero, at
    least one class, one label per example, and a stack of RBMs of the
    declared shapes, the
    classifier cell runs to its end: [NN.__init__] returns,
    [load_from_rbms] returns and hidden layer [k] holds the weights and the
    hidden biases of unit [k], and [train] builds its graph and prints ten
    accuracies. *)
Theorem X14_classifier_built_from_stack_trains :
  forall (sizes : list nat) (X Y : ndarray T) (u : nat -> Draws T)
         (rbms : list (RBM.t T)),
    positive_sums (shape1 X) (sizes ++ [shape1 Y]) ->
    0 < shape1 Y ->
    len Y = len X ->
    stack_ok (shape1 X) sizes rbms ->
    exists nn nn' accuracies nn'',
      NN.__init__ sizes X Y u = Ok nn /\
      NN.load_from_rbms nn sizes rbms = (Ok tt, nn') /\
      (forall k, k < length sizes ->
         exists r, nth_error rbms k = Some r /\
                   nth_error (NN.w_list nn') k = Some (RBM.w r) /\
                   nth_error (NN.b_list nn') k = Some (RBM.hb r)) /\
      NN.train nn' = (Ok accuracies, nn'') /\
      map fst accuracies = seq 0 10.
Proof.
  intros sizes X Y u rbms Hpos HY _ Hst.
  destruct (classifier_from_stack sizes X Y u rbms Hpos HY Hst)
    as (nn & nn' & Ei & El & Hg & He & Hb & Hk).
  destruct (train_prints_every_epoch nn' Hg) as (accs & nn'' & Et & Hl); [lia|].
  exists nn, nn', accs, nn''. rewrite He in Hl. auto.
Qed.

(** X15: for a float32 dataset, hidden sizes and arrays without a layer of
    fan-in and fan-out both zero, with at least one class and one label per
    example, the cells of the notebook run to the end without an exception:
    five reconstruction errors are printed for each RBM and ten accuracies
    for the classifier. *)
Theorem X15_notebook_runs_to_the_end :
  forall (sizes : list nat) (trX : Dtype.array T) (trY : ndarray T)
         (rng : nat -> nat -> RBM.RunDraws T) (u : nat -> Draws T),
    Dtype.is_float32 trX = true ->
    positive_sums (shape1 (Dtype.values trX)) (sizes ++ [shape1 trY]) ->
    0 < shape1 trY ->
    len trY = len (Dtype.values trX) ->
    exists lines accuracies,
      notebook sizes trX trY rng u = (Ok accuracies, lines) /\
      length lines = length sizes /\
      Forall (fun l => map fst l = seq 0 5) lines /\
      map fst accuracies = seq 0 10.
Proof.
  intros sizes trX trY rng u HF Hpos HY _. unfold notebook.
  destruct (make_rbm_list_ok sizes (shape1 (Dtype.values trX))) as [Hst0 He0].
  destruct (pretrain_returns rng sizes _ trX 0 HF Hst0)
    as (lines & final & rbms' & E & Hst & Hf2 & _).
  destruct (stack_ok_nth sizes _ _ Hst0) as [L0 _].
  assert (L : length lines = length sizes) by (rewrite <- (Forall2_length Hf2); exact L0).
  assert (F : Forall (fun l => map fst l = seq 0 5) lines)
    by exact (lines_of_five_epochs _ _ He0 Hf2).
  rewrite E. unfold Dtype.fed. rewrite HF.
  destruct (classifier_from_stack sizes (Dtype.values trX) trY u rbms' Hpos HY Hst)
    as (nn & nn' & Ei & El & Hg & He & Hb & _).
  rewrite Ei, El.
  destruct (train_prints_every_epoch nn' Hg) as (accs & nn'' & Et & Hl); [lia|].
  rewrite Et. exists lines, accs. rewrite He in Hl. auto.
Qed.

End NotebookTheorems.

(** ** The further properties at concrete inputs *)

Section FurtherInstances.
Open Scope R_scope.

Lemma X1_witness :
  shape1 ex_wide <> RBM._input_size ex_rbm /\
  RBM.train ex_rbm ex_wide ex_rng = (Raise ValueError, ex_rbm).
Proof.
  assert (H : shape1 ex_wide <> RBM._input_size ex_rbm) by (vm_compute; lia).
  split; [exact H|].
  apply (X1_train_rejects_wrong_width ex_rbm ex_wide ex_rng H). vm_compute. lia.
Defined.

Lemma X2_witness :
  (len ex_ones <= RBM.batchsize ex_rbm)%nat /\
  rbm_params (snd (RBM.train ex_rbm ex_ones ex_rng)) = zero_params ex_rbm.
Proof.
  assert (H : (len ex_ones <= RBM.batchsize ex_rbm)%nat) by (vm_compute; lia).
  split; [exact H|].
  apply (X2_train_on_one_batch_learns_nothing ex_rbm ex_ones ex_rng eq_refl);
    [vm_compute; lia|exact H].
Defined.

Lemma X3_witness :
  shape1 ex_ones = RBM._input_size ex_rbm /\
  rbm_params (snd (RBM.train ex_rbm (push ex_ones [0]) ex_rng)) =
  rbm_params (snd (RBM.train ex_rbm (push ex_ones [1]) ex_rng)).
Proof.
  split; [reflexivity|].
  apply (trained_parameters_ignore_last_example ex_rbm ex_ones [0] [1] ex_rng eq_refl).
  vm_compute. lia.
Defined.

Lemma X4_witness :
  params_ok ex_rbm (rbm_params ex_rbm) /\
  params_ok (snd (RBM.train ex_rbm ex_wide ex_rng))
    (rbm_params (snd (RBM.train ex_rbm ex_wide ex_rng))).
Proof.
  assert (H : params_ok ex_rbm (rbm_params ex_rbm)) by (repeat split; reflexivity).
  split; [exact H|]. apply (train_shapes ex_rbm ex_wide ex_rng H).
Defined.


Lemma X6_witness :
  nth 0 (nth 0 (RBM.sample_prob ex_rbm [[1 / 2]] (fun _ _ => 1 / 4)) []) 0 =
  (if Rlt_dec (1 / 4) (1 / 2) then 1 else 0).
Proof.
  apply (X6_sample_prob_is_threshold ex_rbm [[1 / 2]] (fun _ _ => 1 / 4) 0 0);
    vm_compute; lia.
Defined.

Lemma X7_witness :
  Forall (Forall unit_interval) (rows ex_ones) /\
  exists printed,
    fst (RBM.train ex_rbm ex_ones ex_rng) = Ok printed /\
    Forall (fun line => unit_interval (snd line)) printed.
Proof.
  assert (H : Forall (Forall unit_interval) (rows ex_ones)).
  { repeat constructor; simpl; lra. }
  split; [exact H|].
  destruct (X7_reconstruction_error_in_unit_interval ex_rbm ex_ones ex_rng eq_refl)
    as (printed & E & _ & F);
    [vm_compute; lia|vm_compute; lia|reflexivity|exact H|vm_compute; lia|].
  exists printed. split; [exact E|exact F].
Defined.

Lemma X8_witness :
  batches (2 * 3) 3 = Ok [(0%nat, 3%nat)].
Proof.
  destruct (X8_divisible_dataset_drops_last_batch 2 3) as [E _]; [lia|lia|].
  exact E.
Defined.

Lemma X9_witness :
  (length (@nil (RBM.t R)) < length (NN._sizes ex_nn))%nat /\
  exists wl bl,
    NN.load_from_rbms ex_nn (NN._sizes ex_nn) [] =
    (Raise IndexError, NN.set_lists ex_nn wl bl).
Proof.
  assert (H : (length (@nil (RBM.t R)) < length (NN._sizes ex_nn))%nat)
    by (vm_compute; lia).
  split; [exact H|].
  destruct (X9_load_from_short_rbm_list ex_nn [] H) as (wl & bl & E & _);
    [vm_compute; lia|vm_compute; lia|].
  exists wl, bl. exact E.
Defined.

Lemma X10_witness :
  NN.load_from_rbms ex_nn [1%nat] [ex_rbm] =
  (Ok tt, NN.set_lists ex_nn [[[0]]; [[1]]] [[0]; [1]]) /\
  NN.load_from_rbms (NN.set_lists ex_nn [[[0]]; [[1]]] [[0]; [1]]) [1%nat] [ex_rbm] =
  (Ok tt, NN.set_lists ex_nn [[[0]]; [[1]]] [[0]; [1]]).
Proof.
  split; [reflexivity|].
  apply (X10_load_from_rbms_idempotent ex_nn _ [1%nat] [ex_rbm]). reflexivity.
Defined.

Lemma X11_witness :
  positive_sums (shape1 ex_trX) ([500; 200; 50]%nat ++ [shape1 ex_trY]) /\
  exists nn,
    NN.__init__ (f32 := exact_cast) [500; 200; 50]%nat ex_trX ex_trY (fun _ _ _ => 3 / 4) =
    Ok nn /\
    NN.graph_ok nn = Ok tt.
Proof.
  assert (H : positive_sums (shape1 ex_trX) ([500; 200; 50]%nat ++ [shape1 ex_trY])).
  { cbn. repeat split; lia. }
  split; [exact H|].
  destruct (X11_init_builds_a_trainable_classifier (f32 := exact_cast)
              [500; 200; 50]%nat ex_trX ex_trY (fun _ _ _ => 3 / 4)) as [Hok _].
  destruct (Hok H) as (nn & E & _ & _ & _ & _ & Hg).
  exists nn. split; [exact E|]. apply Hg. cbn. lia.
Defined.

Lemma X12_witness :
  NN.graph_ok ex_nn = Ok tt /\
  snd (NN.train (opt := frozen_optimizer R) ex_nn) = ex_nn.
Proof.
  split; [reflexivity|].
  rewrite (X12_classifier_on_one_batch_is_not_trained (opt := frozen_optimizer R)
             ex_nn eq_refl); [reflexivity|vm_compute; lia|reflexivity|vm_compute; lia].
Defined.

Lemma X14_witness :
  stack_ok (shape1 ex_ones) [1%nat] [ex_rbm] /\
  exists nn nn',
    NN.__init__ (f32 := exact_cast) [1%nat] ex_ones ex_ones (fun _ _ _ => 3 / 4) = Ok nn /\
    NN.load_from_rbms nn [1%nat] [ex_rbm] = (Ok tt, nn').
Proof.
  assert (H : stack_ok (shape1 ex_ones) [1%nat] [ex_rbm]).
  { cbn. repeat split; try reflexivity. lia. }
  split; [exact H|].
  destruct (X14_classifier_built_from_stack_trains (f32 := exact_cast)
              (opt := frozen_optimizer R)
              [1%nat] ex_ones ex_ones (fun _ _ _ => 3 / 4) [ex_rbm])
    as (nn & nn' & _ & _ & Ei & El & _);
    [cbn; repeat split; lia|cbn; lia|reflexivity|exact H|].
  exists nn, nn'. split; [exact Ei|exact El].
Defined.

Lemma X13_witness :
  Dtype.is_float32 ex_images = true /\
  Dtype.is_float32 ex_images64 = false /\
  (exists lines final rbms',
     pretrain (f32 := exact_cast) (make_rbm_list 784 [500; 200; 50]%nat) ex_images
       (fun _ _ => const_draws (1 / 4) (1 / 4)) 0 = (Ok final, lines, rbms') /\
     length lines = 3%nat /\
     len (Dtype.values final) = 101%nat) /\
  (exists printed rbm',
     pretrain (f32 := exact_cast) (make_rbm_list 784 [500; 200; 50]%nat) ex_images64
       (fun _ _ => const_draws (1 / 4) (1 / 4)) 0 =
     (Raise TypeError, [printed], rbm' :: make_rbm_list 500 [200; 50]%nat) /\
     map fst printed = seq 0 5).
Proof.
  split; [reflexivity|]. split; [reflexivity|]. split.
  - destruct (X13_pretraining_depends_on_dtype (f32 := exact_cast) [500; 200; 50]%nat
                ex_images (fun _ _ => const_draws (1 / 4) (1 / 4))) as [Hok _].
    destruct (Hok eq_refl) as (lines & final & rbms' & E & L & _ & _ & _ & Hl & _).
    exists lines, final, rbms'. split; [exact E|]. split; [exact L|].
    rewrite Hl. vm_compute. reflexivity.
  - destruct (X13_pretraining_depends_on_dtype (f32 := exact_cast) [500; 200; 50]%nat
                ex_images64 (fun _ _ => const_draws (1 / 4) (1 / 4))) as [_ Herr].
    destruct (Herr eq_refl 500%nat [200; 50]%nat eq_refl) as (printed & rbm' & _ & Hl & E).
    exists printed, rbm'. split; [exact E|exact Hl].
Defined.

Lemma X15_witness :
  Dtype.is_float32 ex_images = true /\
  positive_sums (shape1 (Dtype.values ex_images)) ([500; 200; 50]%nat ++ [shape1 ex_labels]) /\
  len ex_labels = len (Dtype.values ex_images) /\
  exists lines accuracies,
    notebook (f32 := exact_cast) (opt := frozen_optimizer R) [500; 200; 50]%nat
      ex_images ex_labels
      (fun _ _ => const_draws (1 / 4) (1 / 4)) (fun _ _ _ => 3 / 4)
    = (Ok accuracies, lines) /\
    length lines = 3%nat /\ map fst accuracies = seq 0 10.
Proof.
  assert (H : positive_sums (shape1 (Dtype.values ex_images))
                ([500; 200; 50]%nat ++ [shape1 ex_labels])).
  { cbn. repeat split; lia. }
  assert (HL : len ex_labels = len (Dtype.values ex_images)) by (vm_compute; reflexivity).
  split; [reflexivity|]. split; [exact H|]. split; [exact HL|].
  destruct (X15_notebook_runs_to_the_end (f32 := exact_cast) (opt := frozen_optimizer R)
              [500; 200; 50]%nat ex_images ex_labels
              (fun _ _ => const_draws (1 / 4) (1 / 4)) (fun _ _ _ => 3 / 4) eq_refl H)
    as (lines & accs & E & L & _ & A); [cbn; lia|exact HL|].
  exists lines, accs. split; [exact E|]. split; [exact L|exact A].
Defined.

End FurtherInstances.
